(** * Gatekeep: persona engine and configuration loader

    A shallow embedding of [src/gatekeep/loader.py],
    [src/gatekeep/personas.py] and the command [init] of
    [src/gatekeep/cli.py], and the properties of routing, prompt
    assembly, fan-out review, the deployment gate and the setup of a
    project proved on it.

    Conventions of the embedding.
    - A Python [str] is a [string]; [lower] and [upper] act on the ASCII
      letters and leave every other byte alone.
    - A value loaded from YAML or JSON is a [value]; a mapping keeps its
      items in insertion order, as a Python [dict] does, with string keys.
      Floating point scalars are not represented.
    - Code that can raise returns a [result]; code that also touches the
      module global [_API_KEY] or the network runs in the monad [M], whose
      state survives an exception.
    - Everything outside the modules (the file system, PyYAML, the
      process environment, the HTTP endpoint, [str()] of a non-string
      value) is a field of the record [world].
    - A path is absolute and is the list of its parts. [/] with a name
      written in the code adds one part ([path_div]); with a name that a
      document gives it is pathlib's join ([path_join]). *)

From Stdlib Require Import List String Ascii Bool Arith ZArith Lia.
From Stdlib Require Import DecimalString.
Import ListNotations.
Local Open Scope list_scope.
Local Open Scope string_scope.

Set Implicit Arguments.
Set Warnings "-register-all".

(** ** Strings *)

Module Str.

Definition is_upper (c : ascii) : bool :=
  let n := nat_of_ascii c in Nat.leb 65 n && Nat.leb n 90.

Definition is_lower (c : ascii) : bool :=
  let n := nat_of_ascii c in Nat.leb 97 n && Nat.leb n 122.

Definition lower_char (c : ascii) : ascii :=
  if is_upper c then ascii_of_nat (nat_of_ascii c + 32) else c.

Definition upper_char (c : ascii) : ascii :=
  if is_lower c then ascii_of_nat (nat_of_ascii c - 32) else c.

Fixpoint smap (f : ascii -> ascii) (s : string) : string :=
  match s with
  | EmptyString => EmptyString
  | String c s' => String (f c) (smap f s')
  end.

(** [s.lower()] and [s.upper()] *)
Definition lower : string -> string := smap lower_char.
Definition upper : string -> string := smap upper_char.

(** [k in q] for two strings *)
Fixpoint str_in (k q : string) : bool :=
  String.prefix k q
  || match q with
     | EmptyString => false
     | String _ q' => str_in k q'
     end.

(** [sep.join(parts)] *)
Fixpoint join (sep : string) (parts : list string) : string :=
  match parts with
  | [] => ""
  | [p] => p
  | p :: rest => p ++ sep ++ join sep rest
  end.

(** [s.replace(pat, rep)] for a non-empty [pat]: occurrences are replaced
    from the left and do not overlap; [skip] counts the characters of a
    match that are still to be passed over. *)
Fixpoint replace_from (pat rep : string) (skip : nat) (s : string) : string :=
  match s with
  | EmptyString => EmptyString
  | String c s' =>
      match skip with
      | S k => replace_from pat rep k s'
      | O =>
          if String.prefix pat s
          then rep ++ replace_from pat rep (String.length pat - 1) s'
          else String c (replace_from pat rep 0 s')
      end
  end.

Definition replace (pat rep s : string) : string := replace_from pat rep 0 s.

(** [s.split(sep)[-1]] for a one-character separator: what follows the
    last separator, or all of [s] when it has none. *)
Fixpoint last_segment_from (sep : ascii) (acc s : string) : string :=
  match s with
  | EmptyString => acc
  | String c s' =>
      if Ascii.eqb c sep then last_segment_from sep s' s'
      else last_segment_from sep acc s'
  end.

Definition last_segment (sep : ascii) (s : string) : string :=
  last_segment_from sep s s.

(** [s.split(sep)] for a one-character separator; [cur] is the part
    being read. *)
Fixpoint split_from (sep : ascii) (cur s : string) : list string :=
  match s with
  | EmptyString => [cur]
  | String c s' =>
      if Ascii.eqb c sep then cur :: split_from sep EmptyString s'
      else split_from sep (cur ++ String c EmptyString) s'
  end.

Definition split (sep : ascii) (s : string) : list string :=
  split_from sep EmptyString s.

(** [str(n)] for an integer *)
Definition of_Z (z : Z) : string := NilZero.string_of_int (Z.to_int z).

Definition nonempty (s : string) : bool :=
  match s with EmptyString => false | _ => true end.

End Str.

(** The line feed, and text made of lines. *)
Definition nl : string := String "010"%char EmptyString.

(** ** Exceptions and results *)

Inductive exn_class : Type :=
| ValueError | RuntimeError | KeyError | IndexError | TypeError
| AttributeError | YAMLError | IsADirectoryError | ClientError
| JSONDecodeError.

(** An exception object: its class and what [str()] prints for it. *)
Record exn : Type := mk_exn { exn_cls : exn_class; exn_str : string }.

Inductive result (A : Type) : Type :=
| Ok (a : A)
| Raise (e : exn).

Arguments Ok {A} a.
Arguments Raise {A} e.

Definition rbind {A B} (c : result A) (k : A -> result B) : result B :=
  match c with
  | Ok a => k a
  | Raise e => Raise e
  end.

Declare Scope py_scope.
Delimit Scope py_scope with py.
Notation "x <- c ;; k" := (rbind c (fun x => k))
  (at level 61, c at next level, right associativity) : py_scope.
Local Open Scope py_scope.

(** ** Python values *)

(** What [yaml.safe_load] and [response.json()] build. *)
Inductive value : Type :=
| VNone
| VBool (b : bool)
| VInt (z : Z)
| VStr (s : string)
| VList (l : list value)
| VDict (d : list (string * value)).

Definition dict : Type := list (string * value).

Module Py.

(** [bool(v)] *)
Definition truthy (v : value) : bool :=
  match v with
  | VNone => false
  | VBool b => b
  | VInt z => negb (Z.eqb z 0)
  | VStr s => Str.nonempty s
  | VList l => match l with [] => false | _ => true end
  | VDict d => match d with [] => false | _ => true end
  end.

(** [type(v).__name__] *)
Definition type_name (v : value) : string :=
  match v with
  | VNone => "NoneType"
  | VBool _ => "bool"
  | VInt _ => "int"
  | VStr _ => "str"
  | VList _ => "list"
  | VDict _ => "dict"
  end.

Definition is_list (v : value) : bool :=
  match v with VList _ => true | _ => false end.

(** [v == s] for a string literal [s] *)
Definition eq_str (v : value) (s : string) : bool :=
  match v with VStr t => String.eqb t s | _ => false end.

(** [d.get(k)] on the items of a dict, whatever its values are. *)
Fixpoint dict_get {V} (d : list (string * V)) (k : string) : option V :=
  match d with
  | [] => None
  | (k', v) :: d' => if String.eqb k' k then Some v else dict_get d' k
  end.

(** [d[k] = v]: an existing key keeps its place, a new one goes last. *)
Fixpoint dict_set {V} (d : list (string * V)) (k : string) (v : V) : list (string * V) :=
  match d with
  | [] => [(k, v)]
  | (k', v') :: d' =>
      if String.eqb k' k then (k', v) :: d' else (k', v') :: dict_set d' k v
  end.

(** The dict built by setting the pairs one after the other, as a dict
    display, a comprehension or [dict(zip(_, _))] does. *)
Definition dict_of {V} (pairs : list (string * V)) : list (string * V) :=
  fold_left (fun d kv => dict_set d (fst kv) (snd kv)) pairs [].

Definition no_attribute (v : value) (attr : string) : exn :=
  mk_exn AttributeError
    ("'" ++ type_name v ++ "' object has no attribute '" ++ attr ++ "'").

(** [v.get(k, default)] *)
Definition get (v : value) (k : string) (default : value) : result value :=
  match v with
  | VDict d => Ok (match dict_get d k with Some x => x | None => default end)
  | _ => Raise (no_attribute v "get")
  end.

(** [v.items()] *)
Definition items (v : value) : result dict :=
  match v with
  | VDict d => Ok d
  | _ => Raise (no_attribute v "items")
  end.

(** [v[k]] for a string literal [k] *)
Definition getitem (v : value) (k : string) : result value :=
  match v with
  | VDict d =>
      match dict_get d k with
      | Some x => Ok x
      | None => Raise (mk_exn KeyError ("'" ++ k ++ "'"))
      end
  | VList _ => Raise (mk_exn TypeError "list indices must be integers or slices, not str")
  | VStr _ => Raise (mk_exn TypeError "string indices must be integers, not 'str'")
  | _ => Raise (mk_exn TypeError ("'" ++ type_name v ++ "' object is not subscriptable"))
  end.

(** [v[0]] *)
Definition first (v : value) : result value :=
  match v with
  | VList (x :: _) => Ok x
  | VList [] => Raise (mk_exn IndexError "list index out of range")
  | VStr (String c _) => Ok (VStr (String c EmptyString))
  | VStr EmptyString => Raise (mk_exn IndexError "string index out of range")
  | VDict _ => Raise (mk_exn KeyError "0")
  | _ => Raise (mk_exn TypeError ("'" ++ type_name v ++ "' object is not subscriptable"))
  end.

(** [l[-1]] for a list *)
Definition last (l : list value) : result value :=
  match l with
  | [] => Raise (mk_exn IndexError "list index out of range")
  | x :: l' => Ok (List.last l' x)
  end.

Fixpoint chars (s : string) : list value :=
  match s with
  | EmptyString => []
  | String c s' => VStr (String c EmptyString) :: chars s'
  end.

(** The elements [for x in v] goes through. *)
Definition iter (v : value) : result (list value) :=
  match v with
  | VList l => Ok l
  | VStr s => Ok (chars s)
  | VDict d => Ok (map (fun kv => VStr (fst kv)) d)
  | _ => Raise (mk_exn TypeError ("'" ++ type_name v ++ "' object is not iterable"))
  end.

Fixpoint take (n : nat) (s : string) : string :=
  match n, s with
  | S n', String c s' => String c (take n' s')
  | _, _ => EmptyString
  end.

(** [v[:n]] *)
Definition slice_to (n : nat) (v : value) : result value :=
  match v with
  | VList l => Ok (VList (firstn n l))
  | VStr s => Ok (VStr (take n s))
  | VDict _ => Raise (mk_exn TypeError "unhashable type: 'slice'")
  | _ => Raise (mk_exn TypeError ("'" ++ type_name v ++ "' object is not subscriptable"))
  end.

(** [s.upper()] on a value *)
Definition upper (v : value) : result string :=
  match v with
  | VStr s => Ok (Str.upper s)
  | _ => Raise (no_attribute v "upper")
  end.

(** [s.split("/")[-1]] on a value *)
Definition split_last (v : value) : result string :=
  match v with
  | VStr s => Ok (Str.last_segment "/"%char s)
  | _ => Raise (no_attribute v "split")
  end.

End Py.

(** ** The outside world *)

(** An absolute [pathlib.Path], as its parts from the root on. A part
    ".." stays in the path as pathlib keeps it: where it leads is for the
    file system to tell. *)
Definition path : Type := list string.

(** [p / name] for a name written in the code, which is one part. *)
Definition path_div (p : path) (name : string) : path := (p ++ [name])%list.

(** The parts of a path given as text: what stands between the slashes,
    without the empty parts and the single dots, which pathlib drops. *)
Definition path_parts (name : string) : list string :=
  filter (fun part => negb (String.eqb part "" || String.eqb part "."))
         (Str.split "/"%char name).

Definition is_absolute (name : string) : bool := String.prefix "/" name.

(** [p / name] for a name that a document gives: its parts are added to
    [p], and an absolute name takes the place of [p]. *)
Definition path_join (p : path) (name : string) : path :=
  if is_absolute name then path_parts name else (p ++ path_parts name)%list.

Declare Scope path_scope.
Delimit Scope path_scope with path.
Notation "p / name" := (path_div p name) : path_scope.

(** [str(p)] *)
Definition path_str (p : path) : string := "/" ++ Str.join "/" p.

Inductive node : Type :=
| Dir
| File (content : string).

(** The JSON body of the chat-completion request. *)
Record request : Type := mk_request {
  req_key : string;
  req_model : value;
  req_system : string;
  req_user : string
}.

(** What [session.post] gives: the connection fails or times out (an
    aiohttp or timeout error, with its text), or a response arrives with
    its status, its text and its JSON, or the text of the decoding error. *)
Inductive http_outcome : Type :=
| Transport_failure (msg : string)
| Response (status : Z) (text : string) (json : string + value).

Record world : Type := mk_world {
  cwd : path;                              (* Path.cwd() *)
  package_dir : path;                      (* Path(__file__).parent *)
  fs : path -> option node;                (* the files and directories *)
  safe_load : string -> string + value;    (* yaml.safe_load, or the YAMLError text *)
  yaml_dump : value -> string;             (* yaml.dump(_, default_flow_style=False) *)
  str_of : value -> string;                (* str() of a value that is not a str *)
  getenv_key : option string;              (* os.getenv("OPENROUTER_API_KEY") *)
  home_dir : path;                         (* Path.home() *)
  http_post : request -> http_outcome      (* the OpenRouter endpoint *)
}.

(** ** loader.py *)

Section Loader.

Variable w : world.

Local Open Scope path_scope.

Definition exists_ (p : path) : bool :=
  match fs w p with Some _ => true | None => false end.

Definition is_dir (p : path) : bool :=
  match fs w p with Some Dir => true | _ => false end.

(** [f"{v}"] *)
Definition py_str (v : value) : string :=
  match v with
  | VStr s => s
  | _ => str_of w v
  end.

(** [dir / v]: only a string names a file. *)
Definition div_value (p : path) (v : value) : result (path * string) :=
  match v with
  | VStr name => Ok (path_join p name, name)
  | _ => Raise (mk_exn TypeError
                 ("unsupported operand type(s) for /: 'PosixPath' and '"
                  ++ Py.type_name v ++ "'"))
  end.

Definition _find_config_root : path :=
  if is_dir (cwd w / "governance") then cwd w else package_dir w.

(** (base, governance, standards, personas) *)
Definition _get_paths : path * path * path * path :=
  let base := _find_config_root in
  (base, base / "governance", base / "standards", base / "personas").

Definition load_yaml (p : path) : result value :=
  if negb (exists_ p) then Ok (VDict [])
  else
    match fs w p with
    | Some (File content) =>
        match safe_load w content with
        | inr doc => Ok (if Py.truthy doc then doc else VDict [])
        | inl msg => Raise (mk_exn YAMLError msg)
        end
    | _ => Raise (mk_exn IsADirectoryError
                   ("[Errno 21] Is a directory: '" ++ path_str p ++ "'"))
    end.

Fixpoint load_governance_from (governance_dir : path) (files : list value)
    (governance : dict) : result dict :=
  match files with
  | [] => Ok governance
  | filename :: rest =>
      pn <- div_value governance_dir filename ;;
      if exists_ (fst pn)
      then
        doc <- load_yaml (fst pn) ;;
        load_governance_from governance_dir rest (Py.dict_set governance (snd pn) doc)
      else load_governance_from governance_dir rest governance
  end.

Definition load_governance (files : value) : result dict :=
  let '(_, governance_dir, _, _) := _get_paths in
  names <- Py.iter files ;;
  load_governance_from governance_dir names [].

Fixpoint load_domains (standard_dir : path) (files : list value)
    (domains : dict) : result dict :=
  match files with
  | [] => Ok domains
  | filename :: rest =>
      pn <- div_value standard_dir filename ;;
      if exists_ (fst pn)
      then
        let domain_name := Str.replace ".yaml" "" (snd pn) in
        doc <- load_yaml (fst pn) ;;
        load_domains standard_dir rest (Py.dict_set domains domain_name doc)
      else load_domains standard_dir rest domains
  end.

Definition load_standard (standard_id : value) : result value :=
  let '(_, _, standards_dir, _) := _get_paths in
  pn <- div_value standards_dir standard_id ;;
  let standard_dir := fst pn in
  if negb (exists_ standard_dir) then Ok (VDict [])
  else
    manifest <- load_yaml (standard_dir / "manifest.yaml") ;;
    if negb (Py.truthy manifest) then Ok (VDict [])
    else
      std <- Py.get manifest "standard" (VDict []) ;;
      files <- Py.get std "files" (VList []) ;;
      names <- Py.iter files ;;
      domains <- load_domains standard_dir names [] ;;
      Ok (VDict [("manifest", manifest); ("domains", VDict domains)]).

Definition load_personas : result value :=
  let '(_, _, _, personas_dir) := _get_paths in
  load_yaml (personas_dir / "personas.yaml").

Definition load_versions : result value :=
  let '(_, _, standards_dir, _) := _get_paths in
  load_yaml (standards_dir / "versions.yaml").

Definition get_persona_config (persona_name : string) : result value :=
  personas <- load_personas ;;
  table <- Py.get personas "personas" (VDict []) ;;
  Py.get table persona_name VNone.

Definition get_persona_governance (persona_name : string) : result dict :=
  config <- get_persona_config persona_name ;;
  if negb (Py.truthy config) then Ok []
  else
    files <- Py.get config "governance" (VList []) ;;
    load_governance files.

Fixpoint load_standards (ids : list value) (standards : dict) : result dict :=
  match ids with
  | [] => Ok standards
  | standard_id :: rest =>
      standard <- load_standard standard_id ;;
      match standard_id with
      | VStr id =>
          if Py.truthy standard
          then load_standards rest (Py.dict_set standards id standard)
          else load_standards rest standards
      | _ => load_standards rest standards  (* not reached: [load_standard] has raised *)
      end
  end.

Definition get_persona_standards (persona_name : string) : result dict :=
  config <- get_persona_config persona_name ;;
  if negb (Py.truthy config) then Ok []
  else
    ids <- Py.get config "standards" (VList []) ;;
    l <- Py.iter ids ;;
    load_standards l [].

Definition no_governance : string := "No specific governance rules loaded.".
Definition no_standards : string := "No regulatory standards applicable.".

Fixpoint governance_sections (governance : dict) : list string :=
  match governance with
  | [] => []
  | (filename, content) :: rest =>
      ("# " ++ filename) :: yaml_dump w content :: governance_sections rest
  end.

Definition format_governance_for_prompt (governance : dict) : string :=
  match governance with
  | [] => no_governance
  | _ => Str.join (nl ++ nl) (governance_sections governance)
  end.

(** One control of a domain, as its line of the prompt. *)
Definition control_line (control : value) : result string :=
  ctrl_id <- Py.get control "id" (VStr "") ;;
  requirement <- Py.get control "requirement" (VStr "") ;;
  severity <- Py.get control "severity" (VStr "") ;;
  Ok ("- [" ++ py_str ctrl_id ++ "] (" ++ py_str severity ++ ") " ++ py_str requirement).

Fixpoint control_lines (controls : list value) : result (list string) :=
  match controls with
  | [] => Ok []
  | control :: rest =>
      line <- control_line control ;;
      lines <- control_lines rest ;;
      Ok (line :: lines)
  end.

Fixpoint domain_sections (domains : dict) : result (list string) :=
  match domains with
  | [] => Ok []
  | (domain_name, domain_content) :: rest =>
      all <- Py.get domain_content "controls" (VList []) ;;
      shown <- Py.slice_to 10 all ;;
      controls <- Py.iter shown ;;
      lines <- control_lines controls ;;
      more <- domain_sections rest ;;
      Ok ((nl ++ "## " ++ domain_name) :: (lines ++ more)%list)
  end.

Fixpoint standard_sections (standards : dict) : result (list string) :=
  match standards with
  | [] => Ok []
  | (standard_id, content) :: rest =>
      m <- Py.get content "manifest" (VDict []) ;;
      manifest <- Py.get m "standard" (VDict []) ;;
      name <- Py.get manifest "name" (VStr standard_id) ;;
      version <- Py.get manifest "version" (VStr "unknown") ;;
      ds <- Py.get content "domains" (VDict []) ;;
      domains <- Py.items ds ;;
      body <- domain_sections domains ;;
      more <- standard_sections rest ;;
      Ok (("# " ++ py_str name ++ " (v" ++ py_str version ++ ")") :: (body ++ more)%list)
  end.

Definition format_standards_for_prompt (standards : dict) : result string :=
  match standards with
  | [] => Ok no_standards
  | _ =>
      sections <- standard_sections standards ;;
      Ok (Str.join nl sections)
  end.

Definition get_routing_rules : result value :=
  personas <- load_personas ;;
  Py.get personas "routing" (VDict []).

Definition get_workflows : result value :=
  personas <- load_personas ;;
  Py.get personas "workflows" (VDict []).

(** The dict [load_all_for_persona] returns for a known persona. *)
Record persona_data : Type := mk_persona_data {
  config : value;
  governance : dict;
  standards : dict;
  governance_text : string;
  standards_text : string
}.

(** [None] stands for the empty dict returned for an unknown persona. *)
Definition load_all_for_persona (persona_name : string) : result (option persona_data) :=
  config <- get_persona_config persona_name ;;
  if negb (Py.truthy config) then Ok None
  else
    gov <- get_persona_governance persona_name ;;
    std <- get_persona_standards persona_name ;;
    std_text <- format_standards_for_prompt std ;;
    Ok (Some (mk_persona_data config gov std (format_governance_for_prompt gov) std_text)).

End Loader.

(** ** personas.py *)

(** One call of [consult_persona], as the trace records it. *)
Record consultation : Type := mk_consultation {
  to_persona : string;
  asked : string;
  given_context : option string
}.

(** The module global [_API_KEY], and two traces kept to state what was
    done: the POST requests sent and the consultations started. *)
Record state : Type := mk_state {
  _API_KEY : option string;
  http_log : list request;
  consult_log : list consultation
}.

(** A coroutine: from a state to its outcome and the state it leaves. *)
Definition M (A : Type) : Type := state -> result A * state.

Definition ret {A} (a : A) : M A := fun s => (Ok a, s).

Definition raise {A} (e : exn) : M A := fun s => (Raise e, s).

Definition bind {A B} (c : M A) (k : A -> M B) : M B :=
  fun s =>
    match c s with
    | (Ok a, s') => k a s'
    | (Raise e, s') => (Raise e, s')
    end.

(** A computation of the loader, run inside a coroutine. *)
Definition lift {A} (c : result A) : M A := fun s => (c, s).

Declare Scope co_scope.
Delimit Scope co_scope with co.
Notation "x <~ c ;; k" := (bind c (fun x => k))
  (at level 61, c at next level, right associativity) : co_scope.

(** [asyncio.gather] with [return_exceptions=True]: every task runs
    to its end and hands back its value or its exception, in the order of
    [tasks]. The tasks share only [_API_KEY] and the answers of the world
    do not depend on time, so they are run one after the other. *)
Fixpoint gather_run {A} (tasks : list (M A)) (s : state) : list (result A) * state :=
  match tasks with
  | [] => ([], s)
  | t :: rest =>
      let (r, s1) := t s in
      let (rs, s2) := gather_run rest s1 in
      (r :: rs, s2)
  end.

Definition gather {A} (tasks : list (M A)) : M (list (result A)) :=
  fun s => let (rs, s') := gather_run tasks s in (Ok rs, s').

(** [bool(x)] for an [Optional[str]] *)
Definition some_text (x : option string) : bool :=
  match x with
  | Some s => Str.nonempty s
  | None => false
  end.

(** [x or ''] for an [Optional[str]] *)
Definition or_empty (x : option string) : string :=
  match x with
  | Some s => s
  | None => ""
  end.

(** *** [get_api_key] (lines 17 to 32)

    A file is its text; [splitlines] and [strip] follow Python on ASCII
    text. *)

Module Env.

(** [c.isspace()] *)
Definition is_space (c : ascii) : bool :=
  let n := nat_of_ascii c in
  (Nat.leb 9 n && Nat.leb n 13) || (Nat.leb 28 n && Nat.leb n 32).

(** The double and the single quote. *)
Definition dquote : ascii := ascii_of_nat 34.
Definition squote : ascii := ascii_of_nat 39.

Definition is_dquote (c : ascii) : bool := Ascii.eqb c dquote.
Definition is_squote (c : ascii) : bool := Ascii.eqb c squote.

(** The characters at which [splitlines] ends a line. *)
Definition is_break (c : ascii) : bool :=
  let n := nat_of_ascii c in
  (Nat.leb 10 n && Nat.leb n 13) || (Nat.leb 28 n && Nat.leb n 30).

Definition is_lf (c : ascii) : bool := Ascii.eqb c "010"%char.
Definition is_cr (c : ascii) : bool := Ascii.eqb c "013"%char.

(** [s.lstrip(chars)], [s.rstrip(chars)] and [s.strip(chars)], for the
    set of characters [p]. *)
Fixpoint lstrip (p : ascii -> bool) (s : string) : string :=
  match s with
  | EmptyString => EmptyString
  | String c s' => if p c then lstrip p s' else s
  end.

Fixpoint rstrip (p : ascii -> bool) (s : string) : string :=
  match s with
  | EmptyString => EmptyString
  | String c s' =>
      match rstrip p s' with
      | EmptyString => if p c then EmptyString else String c EmptyString
      | r => String c r
      end
  end.

Definition strip (p : ascii -> bool) (s : string) : string := rstrip p (lstrip p s).

(** [s.splitlines()]: [cur] is the line being read, [after_cr] tells that
    the character before was a carriage return, whose line feed belongs to
    the same line end. *)
Fixpoint splitlines_from (after_cr : bool) (cur s : string) : list string :=
  match s with
  | EmptyString => match cur with EmptyString => [] | _ => [cur] end
  | String c s' =>
      if after_cr && is_lf c then splitlines_from false EmptyString s'
      else if is_break c then cur :: splitlines_from (is_cr c) EmptyString s'
      else splitlines_from false (cur ++ String c EmptyString) s'
  end.

Definition splitlines (s : string) : list string := splitlines_from false EmptyString s.

(** [s.split(sep, 1)[1]], where there is a [sep] in [s]. *)
Fixpoint after_first (sep : ascii) (s : string) : option string :=
  match s with
  | EmptyString => None
  | String c s' => if Ascii.eqb c sep then Some s' else after_first sep s'
  end.

Definition key_prefix : string := "OPENROUTER_API_KEY=".
Definition placeholder : string := "your_openrouter_api_key_here".

(** The key a line gives, if it gives one (lines 28 to 31). *)
Definition line_value (line : string) : option string :=
  if String.prefix key_prefix line
  then
    match after_first "="%char line with
    | Some rest =>
        let val := strip is_squote (strip is_dquote (strip is_space rest)) in
        if Str.nonempty val && negb (String.eqb val placeholder) then Some val else None
    | None => None  (* not reached: the prefix has an equals sign *)
    end
  else None.

(** The loop over the lines of one file. *)
Fixpoint scan_lines (lines : list string) : option string :=
  match lines with
  | [] => None
  | line :: rest =>
      match line_value line with
      | Some val => Some val
      | None => scan_lines rest
      end
  end.

Section Files.

Variable w : world.

(** The loop over the candidate paths; a path that is a directory makes
    [read_text] raise. *)
Fixpoint scan_paths (paths : list path) : result (option string) :=
  match paths with
  | [] => Ok None
  | env_path :: rest =>
      if exists_ w env_path
      then
        match fs w env_path with
        | Some (File text) =>
            match scan_lines (splitlines text) with
            | Some val => Ok (Some val)
            | None => scan_paths rest
            end
        | _ => Raise (mk_exn IsADirectoryError
                       ("[Errno 21] Is a directory: '" ++ path_str env_path ++ "'"))
        end
      else scan_paths rest
  end.

(** [get_api_key], where [home] is [Path.home()]. *)
Definition get_api_key_scanning (home : path) : result string :=
  let key := getenv_key w in
  if some_text key then Ok (or_empty key)
  else
    (found <- scan_paths [path_div (cwd w) ".env";
                          path_div (path_div home ".gatekeep") ".env"] ;;
     match found with
     | Some val => Ok val
     | None => Raise (mk_exn ValueError
         "OPENROUTER_API_KEY not found. Set it as an environment variable or in a .env file.")
     end)%py.

End Files.

(** A key that survives being written into a .env file, bare or in
    quotes: it is not empty and neither begins nor ends with a space or a
    quote. *)
Definition plain_end (c : ascii) : bool :=
  negb (is_space c || is_dquote c || is_squote c).

Fixpoint last_char (c : ascii) (s : string) : ascii :=
  match s with
  | EmptyString => c
  | String c' s' => last_char c' s'
  end.

Definition plain (k : string) : bool :=
  match k with
  | EmptyString => false
  | String c k' => plain_end c && plain_end (last_char c k')
  end.

End Env.

Section Personas.

Variable w : world.

Local Open Scope co_scope.

Definition get_api_key : result string := Env.get_api_key_scanning w (home_dir w).

Definition unknown_persona (persona_name : string) : exn :=
  mk_exn ValueError ("Unknown persona: " ++ persona_name).

Definition response_style : string :=
  "RESPONSE STYLE:" ++ nl ++
  "- Stay in character with appropriate personality" ++ nl ++
  "- Enforce governance and standards strictly" ++ nl ++
  "- Provide actionable, domain-specific advice" ++ nl ++
  "- Flag violations clearly with control IDs when applicable" ++ nl ++
  "- Be helpful but maintain character voice" ++ nl ++
  "- Keep responses focused and concise" ++ nl.

Definition build_system_prompt (persona_name : string) : result string :=
  (data <- load_all_for_persona w persona_name ;;
   match data with
   | None => Raise (unknown_persona persona_name)
   | Some data =>
       let config := config data in
       character <- Py.getitem config "character" ;;
       domain <- Py.getitem config "domain" ;;
       traits <- Py.getitem config "traits" ;;
       let prompt :=
         "You are " ++ py_str w character ++ ", providing " ++ py_str w domain
         ++ " guidance." ++ nl ++ nl
         ++ "CHARACTER TRAITS:" ++ nl ++ py_str w traits ++ nl ++ nl in
       prompt <-
         (if negb (String.eqb (governance_text data) no_governance)
          then
            mode <- Py.get config "governance_mode" (VStr "standard") ;;
            MODE <- Py.upper mode ;;
            Ok (prompt ++ "ORGANIZATIONAL GOVERNANCE (" ++ MODE ++ " enforcement):" ++ nl
                ++ governance_text data ++ nl ++ nl)
          else Ok prompt) ;;
       let prompt :=
         if negb (String.eqb (standards_text data) no_standards)
         then prompt ++ "REGULATORY STANDARDS (MUST ENFORCE):" ++ nl
              ++ standards_text data ++ nl ++ nl
         else prompt in
       Ok (prompt ++ response_style)
   end)%py.

(** [if not _API_KEY: _API_KEY = get_api_key()] *)
Definition ensure_api_key : M string :=
  fun s =>
    if some_text (_API_KEY s) then (Ok (or_empty (_API_KEY s)), s)
    else
      match get_api_key with
      | Ok key => (Ok key, mk_state (Some key) (http_log s) (consult_log s))
      | Raise e => (Raise e, s)
      end.

(** [session.post(...)]: the request goes out and the world answers. *)
Definition post (r : request) : M http_outcome :=
  fun s => (Ok (http_post w r),
            mk_state (_API_KEY s) (http_log s ++ [r])%list (consult_log s)).

Definition query_llm (model : value) (system_prompt user_prompt : string)
    (context : option string) : M value :=
  key <~ ensure_api_key ;;
  let message :=
    if some_text context
    then "Context: " ++ or_empty context ++ nl ++ nl ++ user_prompt
    else user_prompt in
  response <~ post (mk_request key model system_prompt message) ;;
  match response with
  | Transport_failure msg => raise (mk_exn ClientError msg)
  | Response status text json =>
      if negb (Z.eqb status 200)
      then raise (mk_exn RuntimeError
                    ("OpenRouter API error " ++ Str.of_Z status ++ ": " ++ text))
      else
        match json with
        | inl msg => raise (mk_exn JSONDecodeError msg)
        | inr body =>
            lift (choices <- Py.getitem body "choices" ;;
                  choice <- Py.first choices ;;
                  message <- Py.getitem choice "message" ;;
                  Py.getitem message "content")%py
        end
  end.

(** [str()] of what a gathered task handed back. *)
Definition str_outcome (r : result value) : string :=
  match r with
  | Ok v => py_str w v
  | Raise e => exn_str e
  end.

Definition default_models : value :=
  VList [VStr "anthropic/claude-3.5-sonnet"; VStr "openai/gpt-4o"].

Definition default_emoji : string := "👁️".

(** The loop over [zip(models, responses)]. *)
Fixpoint consensus_sections (pairs : list (value * result value)) (text : string)
    : result string :=
  match pairs with
  | [] => Ok text
  | (model, resp) :: rest =>
      (name <- Py.split_last model ;;
       consensus_sections rest
         (match resp with
          | Raise e => text ++ "**" ++ name ++ "**: Error — " ++ exn_str e ++ nl ++ nl
          | Ok v => text ++ "**" ++ name ++ "**:" ++ nl ++ py_str w v ++ nl ++ nl
          end))%py
  end.

Definition _consensus_review (persona_name question : string)
    (context : option string) : M string :=
  config <~ lift (get_persona_config w persona_name) ;;
  models <~ lift (Py.get config "models" default_models) ;;
  system_prompt <~ lift (build_system_prompt persona_name) ;;
  ms <~ lift (Py.iter models) ;;
  responses <~ gather (map (fun m => query_llm m system_prompt question context) ms) ;;
  emoji <~ lift (Py.get config "emoji" (VStr default_emoji)) ;;
  let text := py_str w emoji ++ " Peer Review (Multi-LLM Consensus)" ++ nl ++ nl in
  text <~ lift (consensus_sections (combine ms responses) text) ;;
  ret (text ++ "---" ++ nl ++ "*Consensus review from multiple perspectives*").

Definition note_consultation (c : consultation) : M unit :=
  fun s => (Ok tt, mk_state (_API_KEY s) (http_log s) (consult_log s ++ [c])%list).

Definition consult_persona (persona_name question : string)
    (context : option string) : M value :=
  _ <~ note_consultation (mk_consultation persona_name question context) ;;
  config <~ lift (get_persona_config w persona_name) ;;
  if negb (Py.truthy config) then raise (unknown_persona persona_name)
  else
    system_prompt <~ lift (build_system_prompt persona_name) ;;
    model <~ lift (Py.get config "model" (VStr "anthropic/claude-3.5-sonnet")) ;;
    if Py.eq_str model "consensus"
    then
      text <~ _consensus_review persona_name question context ;;
      ret (VStr text)
    else query_llm model system_prompt question context.

(** The loop over [keywords.items()], for the lowercased question [q]. *)
Fixpoint route_keywords (q : string) (keywords : dict) : result value :=
  match keywords with
  | [] => Ok (VStr "reviewer")
  | (keyword, persona) :: rest =>
      if Str.str_in keyword q
      then
        match persona with
        | VList l =>
            if Str.str_in "production" q || Str.str_in "prod" q
            then Py.last l
            else Py.first persona
        | _ => Ok persona
        end
      else route_keywords q rest
  end.

Definition route_question (question : string) : result value :=
  (rules <- get_routing_rules w ;;
   keywords <- Py.get rules "keywords" (VDict []) ;;
   let q := Str.lower question in
   items <- Py.items keywords ;;
   route_keywords q items)%py.

(** What [team_review] stores for one gathered response. *)
Definition review_entry (resp : result value) : value :=
  match resp with
  | Raise e => VStr ("Error: " ++ exn_str e)
  | Ok v => v
  end.

Definition team_review (content : string) (context : option string) : M dict :=
  personas_config <~ lift (load_personas w) ;;
  workflows <~ lift (Py.get personas_config "workflows" (VDict [])) ;;
  workflow <~ lift (Py.get workflows "team_review" (VDict [])) ;;
  personas <~ lift (Py.get workflow "personas" (VDict [])) ;;
  members <~ lift (Py.items personas) ;;
  let tasks :=
    Py.dict_of
      (map (fun m => (fst m,
                      consult_persona (fst m) (py_str w (snd m) ++ ": " ++ content) context))
           members) in
  responses <~ gather (map snd tasks) ;;
  ret (Py.dict_of
         (map (fun nr => (fst nr, review_entry (snd nr)))
              (combine (map fst tasks) responses))).

Record gate_result : Type := mk_gate_result {
  checks : list (string * result value);
  approver : string;
  approval : value;
  environment : string
}.

(** [checks.get(name, 'Error')] inside the f-string *)
Definition check_text (checks : list (string * result value)) (name : string) : string :=
  match Py.dict_get checks name with
  | Some r => str_outcome r
  | None => "Error"
  end.

Definition deployment_gate (deployment_plan environment : string)
    (context : option string) : M gate_result :=
  let check_tasks :=
    Py.dict_of
      [("auditor",
        consult_persona "auditor" ("Cost check for deployment: " ++ deployment_plan) context);
       ("sentinel",
        consult_persona "sentinel" ("Security check for deployment: " ++ deployment_plan) context)] in
  check_responses <~ gather (map snd check_tasks) ;;
  let checks := Py.dict_of (combine (map fst check_tasks) check_responses) in
  let approver :=
    if String.eqb (Str.lower environment) "production" then "guardian" else "tester" in
  let approval_ctx :=
    "Cost: " ++ check_text checks "auditor" ++ nl
    ++ "Security: " ++ check_text checks "sentinel" ++ nl
    ++ or_empty context in
  approval <~ consult_persona approver
                ("Approve deployment to " ++ environment ++ "?" ++ nl ++ nl
                 ++ "Plan: " ++ deployment_plan)
                (Some approval_ctx) ;;
  ret (mk_gate_result checks approver approval environment).

End Personas.

(** ** Notions the properties are stated with *)

(** [k] occurs in [q] as a substring. *)
Definition occurs_in (k q : string) : Prop := exists a b, q = a ++ k ++ b.

(** [p] lies in the tree below [root]. *)
Definition below (root p : path) : Prop := exists rest, p = (root ++ rest)%list.

(** The key a query started in state [s] sends, or the error of the lookup. *)
Definition api_key_of (w : world) (s : state) : result string :=
  if some_text (_API_KEY s) then Ok (or_empty (_API_KEY s)) else get_api_key w.

(** Every run of [c] takes a state to one related to it by [R]. *)
Definition keeps (R : state -> state -> Prop) {A} (c : M A) : Prop :=
  forall s, R s (snd (c s)).

(** Two states from which a query sends the same key, or fails alike. *)
Definition same_key (w : world) (s s' : state) : Prop :=
  api_key_of w s = api_key_of w s'.

(** A run that depends on the state through the API key only, and leaves
    the key a query would send as it was. *)
Definition key_only (w : world) {A} (c : M A) : Prop :=
  forall s,
    same_key w s (snd (c s))
    /\ forall s', same_key w s s' -> fst (c s) = fst (c s').

(** A computation of the loader that does not raise a ValueError. *)
Definition not_value_error {A} (r : result A) : Prop :=
  forall e, r = Raise e -> exn_cls e <> ValueError.

(** A coroutine that does not raise the error [e], whatever state it
    starts from. *)
Definition never_raises (e : exn) {A} (c : M A) : Prop :=
  forall s, fst (c s) <> Raise e.

(** The second state has the consultations of the first and no more. *)
Definition same_consults (s s' : state) : Prop := consult_log s' = consult_log s.

(** Two worlds with the same YAML parser and the same files below [root]. *)
Definition agree_below (root : path) (w w' : world) : Prop :=
  (forall content, safe_load w content = safe_load w' content)
  /\ (forall p, below root p -> fs w p = fs w' p).

(** A name that stays in the directory it is joined to: it is not
    absolute and none of its parts is "..". *)
Definition inside (name : string) : bool :=
  negb (is_absolute name) && negb (existsb (String.eqb "..") (path_parts name)).

Definition inside_value (v : value) : Prop :=
  match v with
  | VStr name => inside name = true
  | _ => True
  end.

(** Every name that the loop over [files] meets stays inside. *)
Definition names_inside (files : value) : Prop :=
  forall names f, Py.iter files = Ok names -> In (VStr f) names -> inside f = true.

(** The path [rest] steps up somewhere. *)
Definition steps_up (rest : path) : bool := existsb (String.eqb "..") rest.

(** Two worlds with the same YAML parser and the same tree at [root]:
    the same files at every path that goes down from [root] and never
    steps up. *)
Definition agree_inside (root : path) (w w' : world) : Prop :=
  (forall content, safe_load w content = safe_load w' content)
  /\ (forall rest, steps_up rest = false ->
                   fs w (root ++ rest)%list = fs w' (root ++ rest)%list).

(** The file names that the manifest of a standard lists. *)
Definition manifest_files (w : world) (standard_id : string) : value :=
  let '(_, _, standards_dir, _) := _get_paths w in
  match (manifest <- load_yaml w (path_div (path_join standards_dir standard_id)
                                           "manifest.yaml") ;;
         std <- Py.get manifest "standard" (VDict []) ;;
         Py.get std "files" (VList []))%py with
  | Ok files => files
  | Raise _ => VList []
  end.

(** Every name that the configuration of a persona gives, for a
    governance file, for a standard or, in the manifest of such a
    standard, for a file of it, stays inside. *)
Definition persona_inside (w : world) (persona_name : string) : Prop :=
  forall config,
    get_persona_config w persona_name = Ok config ->
    (forall files, Py.get config "governance" (VList []) = Ok files -> names_inside files)
    /\ (forall ids names standard_id,
          Py.get config "standards" (VList []) = Ok ids ->
          Py.iter ids = Ok names ->
          In (VStr standard_id) names ->
          inside standard_id = true /\ names_inside (manifest_files w standard_id)).

(** The content of the first choice of a response body. *)
Definition first_choice_content (body content : value) : Prop :=
  exists fields choice others message,
    body = VDict fields
    /\ Py.dict_get fields "choices" = Some (VList (VDict choice :: others))
    /\ Py.dict_get choice "message" = Some (VDict message)
    /\ Py.dict_get message "content" = Some content.

(** A domain document, a standard and a set of standards with every list
    of controls cut after its tenth element. *)
Definition cap_controls (v : value) : value :=
  match v with
  | VList l => VList (firstn 10 l)
  | _ => v
  end.

(** [d] with the value under the key [k] replaced by its image under [f]. *)
Definition map_at (k : string) (f : value -> value) (d : dict) : dict :=
  map (fun kv => if String.eqb (fst kv) k then (fst kv, f (snd kv)) else kv) d.

Definition cap_domain (domain_content : value) : value :=
  match domain_content with
  | VDict d => VDict (map_at "controls" cap_controls d)
  | _ => domain_content
  end.

Definition cap_domains (domains : value) : value :=
  match domains with
  | VDict ds => VDict (map (fun nd => (fst nd, cap_domain (snd nd))) ds)
  | _ => domains
  end.

Definition cap_standard (content : value) : value :=
  match content with
  | VDict d => VDict (map_at "domains" cap_domains d)
  | _ => content
  end.

Definition cap_standards (standards : dict) : dict :=
  map (fun ic => (fst ic, cap_standard (snd ic))) standards.

(** ** A small installation to run the model on

    Five personas of the shipped configuration with the routing table and
    the team review the tests rely on (the architect is left out, as an
    unknown persona to consult), one governance file and one standard
    whose single domain has twelve controls. File contents are labels;
    [parse] maps each label to its document. *)

Module Sample.

Definition persona (character domain model traits : string) (more : dict) : value :=
  VDict ([("character", VStr character); ("domain", VStr domain);
          ("role", VStr "specialist"); ("model", VStr model);
          ("emoji", VStr "*"); ("traits", VStr traits)] ++ more)%list.

Definition personas_doc : value :=
  VDict
    [("personas", VDict
        [("sentinel", persona "The Sentinel" "security" "anthropic/claude-3.5-sonnet"
                        "Vigilant and precise"
                        [("governance", VList [VStr "security.yaml"; VStr "absent.yaml"]);
                         ("standards", VList [VStr "owasp-top10"]);
                         ("governance_mode", VStr "strict")]);
         ("auditor", persona "The Auditor" "cost" "openai/gpt-4o" "Frugal" []);
         ("reviewer", persona "The Reviewer" "code review" "consensus" "Balanced"
                        [("models", VList [VStr "anthropic/claude-3.5-sonnet";
                                           VStr "openai/gpt-4o"])]);
         ("tester", persona "The Tester" "testing" "anthropic/claude-3.5-sonnet" "Curious" []);
         ("guardian", persona "The Guardian" "release" "anthropic/claude-3.5-sonnet" "Careful" [])]);
     ("routing", VDict
        [("keywords", VDict
            [("security", VStr "sentinel");
             ("cost", VStr "auditor");
             ("design", VStr "architect");
             ("deploy", VList [VStr "tester"; VStr "guardian"])])]);
     ("workflows", VDict
        [("team_review", VDict
            [("personas", VDict
                [("auditor", VStr "Cost review");
                 ("sentinel", VStr "Security review");
                 ("architect", VStr "Architecture review")])])])].

Definition security_doc : value :=
  VDict [("principles", VList [VStr "least privilege"; VStr "encrypt at rest"])].

Definition manifest_doc : value :=
  VDict [("standard", VDict [("id", VStr "owasp-top10"); ("name", VStr "OWASP Top 10");
                             ("version", VStr "2021");
                             ("files", VList [VStr "injection.yaml"])])].

Definition control (n : nat) : value :=
  VDict [("id", VStr ("A03-" ++ Str.of_Z (Z.of_nat n)));
         ("requirement", VStr "Validate input");
         ("severity", VStr "high")].

Definition injection_doc : value :=
  VDict [("controls", VList (map control (seq 1 12)))].

Definition parse (content : string) : string + value :=
  if String.eqb content "" then inr VNone
  else if String.eqb content "personas" then inr personas_doc
  else if String.eqb content "security" then inr security_doc
  else if String.eqb content "manifest" then inr manifest_doc
  else if String.eqb content "injection" then inr injection_doc
  else inl "could not parse".

Fixpoint path_eqb (p q : path) : bool :=
  match p, q with
  | [], [] => true
  | a :: p', b :: q' => String.eqb a b && path_eqb p' q'
  | _, _ => false
  end.

Fixpoint lookup (table : list (path * node)) (p : path) : option node :=
  match table with
  | [] => None
  | (q, n) :: rest => if path_eqb q p then Some n else lookup rest p
  end.

(** The configuration tree, placed under [root]. *)
Definition tree (root : path) : list (path * node) :=
  [(root ++ ["governance"], Dir);
   (root ++ ["governance"; "security.yaml"], File "security");
   (root ++ ["governance"; "blank.yaml"], File "");
   (root ++ ["standards"], Dir);
   (root ++ ["standards"; "owasp-top10"], Dir);
   (root ++ ["standards"; "owasp-top10"; "manifest.yaml"], File "manifest");
   (root ++ ["standards"; "owasp-top10"; "injection.yaml"], File "injection");
   (root ++ ["personas"], Dir);
   (root ++ ["personas"; "personas.yaml"], File "personas")]%list.

Definition reply (text : string) : value :=
  VDict [("id", VStr "gen-1");
         ("choices", VList [VDict [("index", VInt 0);
                                   ("message", VDict [("role", VStr "assistant");
                                                      ("content", VStr text)])]])].

(** One model is overloaded, the others echo the user message. *)
Definition endpoint (r : request) : http_outcome :=
  if Py.eq_str (req_model r) "openai/gpt-4o"
  then Response 503 "overloaded" (inl "not JSON")
  else Response 200 "" (inr (reply ("re: " ++ req_user r))).

Definition home : path := ["home"; "project"].
Definition site : path := ["site-packages"; "gatekeep"].

Definition make (files : list (path * node)) (key : option string) : world :=
  mk_world home site (lookup files) parse (fun _ => "<yaml>") Py.type_name
           key ["home"; "user"] endpoint.

(** The bundled configuration only, with an API key in the environment. *)
Definition bundled : world := make (tree site) (Some "sk-test").

(** A project with its own [governance] directory. *)
Definition project : world := make (tree home ++ tree site)%list (Some "sk-test").

(** The same project on a machine where the package ships no files. *)
Definition bare_project : world := make (tree home) (Some "sk-test").

(** The bundled configuration, with files of the user lying about. *)
Definition cluttered : world :=
  make (tree site ++ [(home ++ ["notes"], Dir); (home ++ ["notes"; "todo.yaml"], File "")])%list
       (Some "sk-test").

(** No API key anywhere. *)
Definition keyless : world := make (tree site) None.

(** No API key in the environment, and a directory named .env in the
    working directory. *)
Definition blocked : world := make ((home ++ [".env"], Dir) :: tree site)%list None.

Definition fresh : state := mk_state None [] [].

End Sample.

(** ** Further notions, for the properties beyond the claims *)

Module Chars.

(** Some character of [s] satisfies [p]. *)
Fixpoint any (p : ascii -> bool) (s : string) : bool :=
  match s with
  | EmptyString => false
  | String c s' => p c || any p s'
  end.

(** Every character of [s] satisfies [p]. *)
Fixpoint all (p : ascii -> bool) (s : string) : bool :=
  match s with
  | EmptyString => true
  | String c s' => p c && all p s'
  end.

End Chars.

(** A project whose configuration names a governance file by an absolute
    path, on a machine that has this file and on one that has not. *)
Module DemoPaths.

Definition policy : value := VList [VStr "/etc/policy.yaml"].

Definition here : world :=
  Sample.make ((["etc"; "policy.yaml"], File "security") :: Sample.tree Sample.home)
              (Some "sk-test").

Definition there : world := Sample.make (Sample.tree Sample.home) (Some "sk-test").

End DemoPaths.

(** Further installations to run the model on. *)
Module Demo.

(** Nothing installed at all, but an API key in the environment. *)
Definition empty : world := Sample.make [] (Some "sk-test").

(** The routing table of the sample with one rule spelled in capitals. *)
Definition shouting_doc : value :=
  VDict
    [("routing", VDict
        [("keywords", VDict
            [("Security", VStr "sentinel");
             ("cost", VStr "auditor")])])].

Definition shouting : world :=
  mk_world Sample.home Sample.site
    (Sample.lookup [((Sample.site ++ ["personas"; "personas.yaml"])%list, File "shouting")])
    (fun content => if String.eqb content "shouting" then inr shouting_doc else inl "bad")
    (fun _ => "<yaml>") Py.type_name (Some "sk-test") ["home"; "user"] Sample.endpoint.

(** An installation whose only file is a personas document. *)
Definition only_personas (doc : value) : world :=
  mk_world Sample.home Sample.site
    (Sample.lookup [((Sample.site ++ ["personas"; "personas.yaml"])%list, File "personas")])
    (fun content => if String.eqb content "personas" then inr doc else inl "bad")
    (fun _ => "<yaml>") Py.type_name (Some "sk-test") ["home"; "user"] Sample.endpoint.

(** A persona entered with its character and traits but no domain. *)
Definition incomplete : world :=
  only_personas
    (VDict [("personas", VDict
               [("ghost", VDict [("character", VStr "The Ghost");
                                 ("traits", VStr "Elusive")])])]).

End Demo.

Module DemoEnv.

Definition home_dir : path := ["home"; "user"].

(** A .env file with a comment, the line of the template and a key in
    single quotes. *)
Definition dotenv_text : string :=
  "# keys" ++ nl
  ++ "OPENROUTER_API_KEY=your_openrouter_api_key_here" ++ nl
  ++ "OPENROUTER_API_KEY='sk-or-123'" ++ nl.

(** The bundled configuration and that file in the working directory; no
    key in the environment. *)
Definition project : world :=
  mk_world Sample.home Sample.site
    (Sample.lookup ((Sample.home ++ [".env"], File dotenv_text) :: Sample.tree Sample.site)%list)
    Sample.parse (fun _ => "<yaml>") Py.type_name None home_dir Sample.endpoint.

End DemoEnv.

(** An installation whose only persona is the tester. *)
Module DemoGate.

Definition lone_tester : world :=
  Demo.only_personas
    (VDict [("personas", VDict
               [("tester", Sample.persona "The Tester" "testing"
                             "anthropic/claude-3.5-sonnet" "Curious" [])])]).

End DemoGate.

(** ** cli.py: the command [init]

    [init] (lines 186 to 219) copies the bundled directories into the
    working directory and writes two files there. The file system is the
    field [fs] of the world, [copytree] and [write_text] give the file
    system after the call, and what [console.print] is given is kept as a
    list. The package directory of [cli.py] is that of [loader.py]. *)

Module Cli.

(** [p.relative_to(d)], where [p] lies in the tree below [d]. *)
Fixpoint relative_to (d p : path) : option path :=
  match d, p with
  | [], _ => Some p
  | a :: d', b :: p' => if String.eqb a b then relative_to d' p' else None
  | _ :: _, [] => None
  end.

(** [shutil.copytree(src, dst)] for a directory [src] and a [dst] that
    does not exist and does not lie inside [src]: below [dst] lies what
    lies below [src]. Metadata and symbolic links are not represented. *)
Definition copytree (files : path -> option node) (src dst : path) : path -> option node :=
  fun p =>
    match relative_to dst p with
    | Some rest => files (src ++ rest)%list
    | None => files p
    end.

(** [target.write_text(text)] for a [target] that does not exist, in a
    directory that does. *)
Definition write_text (files : path -> option node) (target : path) (text : string)
    : path -> option node :=
  fun p => if list_eq_dec string_dec target p then Some (File text) else files p.

(** The file system and what has been printed so far. *)
Record run : Type := mk_run {
  disk : path -> option node;
  console : list string
}.

(** What [shutil.copytree] raises when [src] is a file. *)
Inductive failure : Type :=
| NotADirectoryError (src : path).

Definition present (r : run) (p : path) : bool :=
  match disk r p with Some _ => true | None => false end.

Definition print (msg : string) (r : run) : run :=
  mk_run (disk r) (console r ++ [msg])%list.

Definition subdirs : list string := ["governance"; "personas"; "standards"].

Definition created (name : string) : string := "  ✓ Created " ++ name.
Definition skipped (subdir : string) : string :=
  "  · " ++ subdir ++ "/ already exists, skipping".

(** The loop over the directories (lines 196 to 203). *)
Fixpoint copy_defaults (pkg_dir cwd : path) (names : list string) (r : run)
    : option failure * run :=
  match names with
  | [] => (None, r)
  | subdir :: rest =>
      let src := path_div pkg_dir subdir in
      let dst := path_div cwd subdir in
      if present r src && negb (present r dst)
      then
        match disk r src with
        | Some Dir =>
            copy_defaults pkg_dir cwd rest
              (print (created (subdir ++ "/"))
                     (mk_run (copytree (disk r) src dst) (console r)))
        | _ => (Some (NotADirectoryError src), r)
        end
      else
        if present r dst
        then copy_defaults pkg_dir cwd rest (print (skipped subdir) r)
        else copy_defaults pkg_dir cwd rest r
  end.

Definition gatekeep_yaml : string :=
  "project:" ++ nl
  ++ "  name: " ++ String Env.dquote "my-project" ++ String Env.dquote nl
  ++ "  standards:" ++ nl
  ++ "    - owasp-top10" ++ nl
  ++ "    - cis-aws-2.0" ++ nl
  ++ "  governance:" ++ nl
  ++ "    budget_limit: 30" ++ nl.

Definition env_example : string :=
  "OPENROUTER_API_KEY=your_openrouter_api_key_here" ++ nl.

(** [if not path.exists(): path.write_text(text); console.print(...)] *)
Definition create (cwd : path) (name text : string) (r : run) : run :=
  let target := path_div cwd name in
  if negb (present r target)
  then print (created name) (mk_run (write_text (disk r) target text) (console r))
  else r.

Definition initialized : string :=
  nl ++ "🎯 Gatekeep initialized. Set your OPENROUTER_API_KEY and run "
  ++ "[bold]gatekeep personas[/bold].".

Definition init (w : world) : option failure * run :=
  match copy_defaults (package_dir w) (cwd w) subdirs (mk_run (fs w) []) with
  | (Some e, r) => (Some e, r)
  | (None, r) =>
      let r := create (cwd w) "gatekeep.yaml" gatekeep_yaml r in
      let r := create (cwd w) ".env.example" env_example r in
      (None, print initialized r)
  end.

(** The world a run of [init] leaves: the files are those of the run,
    everything else is as it was. *)
Definition after (w : world) (r : run) : world :=
  mk_world (cwd w) (package_dir w) (disk r) (safe_load w) (yaml_dump w) (str_of w)
           (getenv_key w) (home_dir w) (http_post w).

(** A file system in which whatever has an entry lies in a directory. *)
Definition closed (files : path -> option node) : Prop :=
  forall p name, files (path_div p name) <> None -> files p = Some Dir.

(** The working directory and the directory of the package are
    directories of a closed file system. *)
Definition sound (files : path -> option node) (pkg_dir cwd : path) : Prop :=
  closed files /\ files cwd = Some Dir /\ files pkg_dir = Some Dir.

(** The working directory does not lie inside the bundled directory
    [name], which [copytree] would then copy into itself. *)
Definition apart (pkg_dir cwd : path) (name : string) : Prop :=
  ~ below (path_div pkg_dir name) cwd.

(** The worlds [init] is modelled for. *)
Definition well_formed (w : world) : Prop :=
  sound (fs w) (package_dir w) (cwd w)
  /\ forall subdir, In subdir subdirs -> apart (package_dir w) (cwd w) subdir.

(** The bundled directory [name] is there to copy and the project has
    none of that name. *)
Definition to_copy (files : path -> option node) (pkg_dir cwd : path) (name : string)
    : bool :=
  match files (path_div pkg_dir name), files (path_div cwd name) with
  | Some Dir, None => true
  | _, _ => false
  end.

(** The files after the copies of the directories [names], read off the
    files before them. *)
Definition overlay (pkg_dir cwd : path) (names : list string)
    (files : path -> option node) : path -> option node :=
  fun p =>
    match relative_to cwd p with
    | Some (name :: rest) =>
        if existsb (String.eqb name) names && to_copy files pkg_dir cwd name
        then files (path_div pkg_dir name ++ rest)%list
        else files p
    | _ => files p
    end.

End Cli.

(** Two outcomes of the loader that are the same value, or errors of the
    same class: the text of an error can name the path it is about. *)
Definition same_outcome {A} (r r' : result A) : Prop :=
  match r, r' with
  | Ok a, Ok a' => a = a'
  | Raise e, Raise e' => exn_cls e = exn_cls e'
  | _, _ => False
  end.

(** A machine with the package installed and an empty project. *)
Module DemoCli.

Definition parents : list (path * node) :=
  [([], Dir); (["home"], Dir); (Sample.home, Dir);
   (["site-packages"], Dir); (Sample.site, Dir)].

Definition fresh : world :=
  Sample.make (parents ++ Sample.tree Sample.site)%list (Some "sk-test").

(** The project has its own personas already, and a file where the
    package would have its standards. *)
Definition broken : world :=
  Sample.make (parents ++ [(Sample.home ++ ["personas"], Dir);
                           (Sample.home ++ ["personas"; "personas.yaml"], File "");
                           (Sample.site ++ ["governance"], Dir);
                           (Sample.site ++ ["standards"], File "")])%list
              (Some "sk-test").

(** Every entry of the table but the root has its parent in the table, as
    a directory. *)
Definition table_closed (table : list (path * node)) : bool :=
  forallb (fun entry =>
             match rev (fst entry) with
             | [] => true
             | _ :: parent =>
                 match Sample.lookup table (rev parent) with
                 | Some Dir => true
                 | _ => false
                 end
             end) table.

End DemoCli.

(** * Properties *)

(** ** Strings *)

Section StringFacts.

Lemma append_assoc (a b c : string) : (a ++ b) ++ c = a ++ (b ++ c).
Proof.
  induction a as [|x a IH]; simpl; [reflexivity | now rewrite IH].
Qed.

Lemma append_empty_r (a : string) : a ++ "" = a.
Proof.
  induction a as [|x a IH]; simpl; [reflexivity | now rewrite IH].
Qed.

Lemma prefix_starts (k q : string) :
  String.prefix k q = true <-> exists b, q = k ++ b.
Proof.
  revert q; induction k as [|x k IH]; intros q; destruct q as [|y q]; simpl.
  - split; [intros _; now exists "" | reflexivity].
  - split; [intros _; now exists (String y q) | reflexivity].
  - split; [discriminate | intros [b Hb]; discriminate].
  - destruct (ascii_dec x y) as [->|Hne].
    + rewrite IH. split; intros [b Hb]; exists b.
      * now rewrite Hb.
      * now injection Hb.
    + split; [discriminate | intros [b Hb]; injection Hb; congruence].
Qed.

(** [str_in] decides the occurrence of a substring. *)
Lemma str_in_occurs (k q : string) : Str.str_in k q = true <-> occurs_in k q.
Proof.
  unfold occurs_in. induction q as [|y q IH]; cbn [Str.str_in].
  - rewrite orb_false_r, prefix_starts. split.
    + intros [b Hb]. now exists "", b.
    + intros [a [b Hab]]. destruct a; simpl in Hab.
      * now exists b.
      * discriminate.
  - rewrite orb_true_iff, IH, prefix_starts. split.
    + intros [[b Hb] | [a [b Hab]]].
      * now exists "", b.
      * exists (String y a), b. simpl. now rewrite Hab.
    + intros [a [b Hab]]. destruct a as [|x a]; simpl in Hab.
      * left. now exists b.
      * right. exists a, b. now injection Hab.
Qed.

Lemma str_in_absent (k q : string) : Str.str_in k q = false <-> ~ occurs_in k q.
Proof.
  rewrite <- str_in_occurs. destruct (Str.str_in k q); split; congruence.
Qed.

End StringFacts.

(** ** The model on the inputs of the test suite *)

Example lower_mixed : Str.lower "Deploy to PRODUCTION, please!" = "deploy to production, please!".
Proof. reflexivity. Qed.

Example upper_mode : Str.upper "strict-1" = "STRICT-1".
Proof. reflexivity. Qed.

Example str_in_yes : Str.str_in "prod" "deploy to production" = true.
Proof. reflexivity. Qed.

Example str_in_no : Str.str_in "cost" "deploy to production" = false.
Proof. reflexivity. Qed.

Example replace_yaml : Str.replace ".yaml" "" "iam.yaml" = "iam".
Proof. reflexivity. Qed.

Example replace_twice : Str.replace ".yaml" "-" "a.yaml.yamlb" = "a--b".
Proof. reflexivity. Qed.

Example last_segment_model : Str.last_segment "/"%char "openai/gpt-4o" = "gpt-4o".
Proof. reflexivity. Qed.

Example last_segment_plain : Str.last_segment "/"%char "consensus" = "consensus".
Proof. reflexivity. Qed.

Example of_Z_status : Str.of_Z 404 = "404" /\ Str.of_Z 0 = "0" /\ Str.of_Z (-7) = "-7".
Proof. repeat split; reflexivity. Qed.

Example join_three : Str.join ", " ["a"; "b"; "c"] = "a, b, c".
Proof. reflexivity. Qed.

Example test_route_security_to_sentinel :
  route_question Sample.bundled "Is this security configuration safe?" = Ok (VStr "sentinel").
Proof. vm_compute. reflexivity. Qed.

Example test_route_design_to_architect :
  route_question Sample.bundled "How should I design this API?" = Ok (VStr "architect").
Proof. vm_compute. reflexivity. Qed.

Example test_route_code_to_reviewer :
  route_question Sample.bundled "Can you review this code?" = Ok (VStr "reviewer").
Proof. vm_compute. reflexivity. Qed.

Example test_get_persona_config_unknown :
  get_persona_config Sample.bundled "nonexistent" = Ok VNone.
Proof. vm_compute. reflexivity. Qed.

Example test_load_governance_missing_file :
  load_governance Sample.bundled (VList [VStr "does-not-exist.yaml"]) = Ok [].
Proof. vm_compute. reflexivity. Qed.

Example test_load_standard_unknown :
  load_standard Sample.bundled (VStr "fake-standard") = Ok (VDict []).
Proof. vm_compute. reflexivity. Qed.

Example test_format_governance_empty :
  format_governance_for_prompt Sample.bundled [] = "No specific governance rules loaded.".
Proof. reflexivity. Qed.

Example test_format_standards_empty :
  format_standards_for_prompt Sample.bundled [] = Ok "No regulatory standards applicable.".
Proof. reflexivity. Qed.

Example test_load_all_unknown : load_all_for_persona Sample.bundled "nobody" = Ok None.
Proof. vm_compute. reflexivity. Qed.

Example test_deployment_gate_test :
  option_map approver
    (match fst (deployment_gate Sample.bundled "API v2" "test" None Sample.fresh) with
     | Ok r => Some r
     | Raise _ => None
     end) = Some "tester".
Proof. vm_compute. reflexivity. Qed.

(** ** Routing *)

Section Routing.

Variable w : world.
Variable question : string.
Variable rules : value.
Variable keywords : dict.

Hypothesis rules_loaded : get_routing_rules w = Ok rules.
Hypothesis keywords_found : Py.get rules "keywords" (VDict []) = Ok (VDict keywords).

Lemma route_question_loop : route_question w question = route_keywords (Str.lower question) keywords.
Proof.
  unfold route_question. rewrite rules_loaded. simpl.
  rewrite keywords_found. reflexivity.
Qed.

(** Keywords that do not occur in the question are passed over. *)
Lemma route_keywords_skip (before rest : dict) :
  (forall k p, In (k, p) before -> ~ occurs_in k (Str.lower question)) ->
  route_keywords (Str.lower question) (before ++ rest)%list = route_keywords (Str.lower question) rest.
Proof.
  induction before as [|[k p] before IH]; intros Hnone; simpl.
  - reflexivity.
  - assert (Hk : Str.str_in k (Str.lower question) = false).
    { apply str_in_absent. apply (Hnone k p). now left. }
    rewrite Hk. apply IH. intros k' p' Hin. apply (Hnone k' p'). now right.
Qed.

Lemma route_keywords_none :
  (forall k p, In (k, p) keywords -> ~ occurs_in k (Str.lower question)) ->
  route_keywords (Str.lower question) keywords = Ok (VStr "reviewer").
Proof.
  intros Hnone. rewrite <- (app_nil_r keywords).
  now rewrite route_keywords_skip.
Qed.

Lemma route_keywords_first (before after : dict) (keyword : string) (persona : value) :
  (forall k p, In (k, p) before -> ~ occurs_in k (Str.lower question)) ->
  occurs_in keyword (Str.lower question) ->
  route_keywords (Str.lower question) (before ++ (keyword, persona) :: after)%list
  = match persona with
    | VList l =>
        if Str.str_in "production" (Str.lower question) || Str.str_in "prod" (Str.lower question)
        then Py.last l else Py.first persona
    | _ => Ok persona
    end.
Proof.
  intros Hnone Hocc. rewrite route_keywords_skip by assumption.
  simpl. apply str_in_occurs in Hocc. now rewrite Hocc.
Qed.

Lemma last_names (first : string) (others : list string) :
  List.last (map VStr others) (VStr first) = VStr (List.last others first).
Proof.
  induction others as [|a others IH]; simpl; [reflexivity|].
  destruct others; [reflexivity | exact IH].
Qed.

(** A keyword that maps to an empty list makes the routing raise. *)
Lemma route_question_empty_list (before after : dict) (keyword : string) :
  keywords = (before ++ (keyword, VList []) :: after)%list ->
  (forall k p, In (k, p) before -> ~ occurs_in k (Str.lower question)) ->
  occurs_in keyword (Str.lower question) ->
  route_question w question = Raise (mk_exn IndexError "list index out of range").
Proof.
  intros Hkw Hnone Hocc.
  rewrite route_question_loop, Hkw, route_keywords_first by assumption.
  now destruct (Str.str_in "production" (Str.lower question) || Str.str_in "prod" (Str.lower question)).
Qed.

(** C1. The question is routed to the persona of the first keyword, in
    the order of the routing rules, that occurs in the lowercased
    question as a substring, and to "reviewer" when none occurs. *)
Theorem route_question_first_keyword :
  (forall before keyword persona after,
      keywords = (before ++ (keyword, persona) :: after)%list ->
      (forall k p, In (k, p) before -> ~ occurs_in k (Str.lower question)) ->
      occurs_in keyword (Str.lower question) ->
      Py.is_list persona = false ->
      route_question w question = Ok persona)
  /\ ((forall k p, In (k, p) keywords -> ~ occurs_in k (Str.lower question)) ->
      route_question w question = Ok (VStr "reviewer")).
Proof.
  split.
  - intros before keyword persona after Hkw Hnone Hocc Hsingle.
    rewrite route_question_loop, Hkw, route_keywords_first by assumption.
    now destruct persona.
  - intros Hnone. rewrite route_question_loop. now apply route_keywords_none.
Qed.

(** C8. When the first keyword that occurs maps to a list of persona
    names, the last name is returned if the lowercased question contains
    "production" or "prod", and the first name otherwise: one name, not
    the list. *)
Theorem route_question_list_target :
  forall before keyword first others after,
    keywords = (before ++ (keyword, VList (map VStr (first :: others))) :: after)%list ->
    (forall k p, In (k, p) before -> ~ occurs_in k (Str.lower question)) ->
    occurs_in keyword (Str.lower question) ->
    (occurs_in "production" (Str.lower question) \/ occurs_in "prod" (Str.lower question) ->
     route_question w question = Ok (VStr (List.last others first)))
    /\ (~ (occurs_in "production" (Str.lower question)
           \/ occurs_in "prod" (Str.lower question)) ->
        route_question w question = Ok (VStr first)).
Proof.
  intros before keyword first others after Hkw Hnone Hocc.
  rewrite route_question_loop, Hkw, route_keywords_first by assumption.
  fold (Str.lower question). split; intros Hprod.
  - assert (Hb : Str.str_in "production" (Str.lower question) || Str.str_in "prod" (Str.lower question) = true).
    { apply orb_true_iff. now rewrite !str_in_occurs. }
    rewrite Hb. simpl. now rewrite last_names.
  - assert (Hb : Str.str_in "production" (Str.lower question) || Str.str_in "prod" (Str.lower question) = false).
    { apply not_true_is_false. rewrite orb_true_iff, !str_in_occurs. exact Hprod. }
    now rewrite Hb.
Qed.

End Routing.

Ltac by_computation := vm_compute; reflexivity.

Ltac absent_in_one :=
  let k := fresh "k" in
  let p := fresh "p" in
  let H := fresh "H" in
  intros k p H; simpl in H;
  repeat (destruct H as [H | H]; [injection H as <- <-; apply str_in_absent; by_computation|]);
  contradiction.

Lemma route_question_first_keyword_witness :
  route_question Sample.bundled "What will this COST?" = Ok (VStr "auditor")
  /\ route_question Sample.bundled "Good morning" = Ok (VStr "reviewer").
Proof.
  split.
  - edestruct (route_question_first_keyword Sample.bundled "What will this COST?")
      as [Hfirst _]; [by_computation | by_computation |].
    apply (Hfirst [("security", VStr "sentinel")] "cost" (VStr "auditor")
                  [("design", VStr "architect");
                   ("deploy", VList [VStr "tester"; VStr "guardian"])]).
    + reflexivity.
    + absent_in_one.
    + apply str_in_occurs; by_computation.
    + reflexivity.
  - edestruct (route_question_first_keyword Sample.bundled "Good morning")
      as [_ Hnone]; [by_computation | by_computation |].
    apply Hnone. absent_in_one.
Defined.

Lemma route_question_list_target_witness :
  route_question Sample.bundled "Deploy to production please" = Ok (VStr "guardian")
  /\ route_question Sample.bundled "Can I deploy to staging?" = Ok (VStr "tester").
Proof.
  split.
  - edestruct (route_question_list_target Sample.bundled "Deploy to production please")
      with (before := [("security", VStr "sentinel"); ("cost", VStr "auditor");
                       ("design", VStr "architect")])
           (keyword := "deploy") (first := "tester") (others := ["guardian"])
           (after := @nil (string * value))
      as [Hprod _];
      [by_computation | by_computation | reflexivity | absent_in_one
      | apply str_in_occurs; by_computation |].
    apply Hprod. left. apply str_in_occurs; by_computation.
  - edestruct (route_question_list_target Sample.bundled "Can I deploy to staging?")
      with (before := [("security", VStr "sentinel"); ("cost", VStr "auditor");
                       ("design", VStr "architect")])
           (keyword := "deploy") (first := "tester") (others := ["guardian"])
           (after := @nil (string * value))
      as [_ Hother];
      [by_computation | by_computation | reflexivity | absent_in_one
      | apply str_in_occurs; by_computation |].
    apply Hother. intros [H | H]; apply str_in_occurs in H; vm_compute in H; discriminate.
Defined.

(** ** Coroutines: what a run leaves unchanged *)

Section Footprint.

Variable R : state -> state -> Prop.
Hypothesis R_refl : forall s, R s s.
Hypothesis R_trans : forall s1 s2 s3, R s1 s2 -> R s2 s3 -> R s1 s3.

Lemma keeps_ret {A} (a : A) : keeps R (ret a).
Proof. intros s. apply R_refl. Qed.

Lemma keeps_raise {A} (e : exn) : keeps R (@raise A e).
Proof. intros s. apply R_refl. Qed.

Lemma keeps_lift {A} (c : result A) : keeps R (lift c).
Proof. intros s. apply R_refl. Qed.

Lemma keeps_bind {A B} (c : M A) (k : A -> M B) :
  keeps R c -> (forall a, keeps R (k a)) -> keeps R (bind c k).
Proof.
  intros Hc Hk s. unfold bind. specialize (Hc s).
  destruct (c s) as [[a|e] s1]; simpl in *.
  - eapply R_trans; [exact Hc | apply Hk].
  - exact Hc.
Qed.

Lemma keeps_gather_run {A} (tasks : list (M A)) :
  Forall (keeps R) tasks -> forall s, R s (snd (gather_run tasks s)).
Proof.
  induction 1 as [|t rest Ht _ IH]; intros s; simpl.
  - apply R_refl.
  - specialize (Ht s). destruct (t s) as [r s1]; simpl in *.
    specialize (IH s1). destruct (gather_run rest s1) as [rs s2]; simpl in *.
    eapply R_trans; eassumption.
Qed.

Lemma keeps_gather {A} (tasks : list (M A)) :
  Forall (keeps R) tasks -> keeps R (gather tasks).
Proof.
  intros H s. unfold gather. pose proof (keeps_gather_run H s) as Hs.
  now destruct (gather_run tasks s).
Qed.

End Footprint.

(** A gathered list has one outcome per task and never raises. *)
Lemma gather_ok {A} (tasks : list (M A)) (s : state) :
  fst (gather tasks s) = Ok (fst (gather_run tasks s)).
Proof. unfold gather. now destruct (gather_run tasks s). Qed.

Lemma gather_state {A} (tasks : list (M A)) (s : state) :
  snd (gather tasks s) = snd (gather_run tasks s).
Proof. unfold gather. now destruct (gather_run tasks s). Qed.

Lemma gather_run_length {A} (tasks : list (M A)) (s : state) :
  List.length (fst (gather_run tasks s)) = List.length tasks.
Proof.
  revert s; induction tasks as [|t rest IH]; intros s; simpl; [reflexivity|].
  destruct (t s) as [r s1]. specialize (IH s1).
  destruct (gather_run rest s1); simpl in *. now rewrite IH.
Qed.

(** Runs that depend on the state through the API key only, and leave
    the key they would send as it was. *)
Section KeyOnly.

Variable w : world.

Lemma key_only_ret {A} (a : A) : key_only w (ret a).
Proof. intros s; split; [reflexivity | intros; reflexivity]. Qed.

Lemma key_only_raise {A} (e : exn) : key_only w (@raise A e).
Proof. intros s; split; [reflexivity | intros; reflexivity]. Qed.

Lemma key_only_lift {A} (c : result A) : key_only w (lift c).
Proof. intros s; split; [reflexivity | intros; reflexivity]. Qed.

Lemma key_only_bind {A B} (c : M A) (k : A -> M B) :
  key_only w c -> (forall a, key_only w (k a)) -> key_only w (bind c k).
Proof.
  intros Hc Hk s. unfold bind.
  destruct (Hc s) as [Hs Hres]. split.
  - destruct (c s) as [[a|e] s1]; simpl in *; [|exact Hs].
    destruct (Hk a s1) as [Hs1 _]. unfold same_key in *. congruence.
  - intros s' Hss'. specialize (Hres s' Hss').
    destruct (Hc s') as [Hs' _].
    destruct (c s) as [[a|e] s1]; destruct (c s') as [[a'|e'] s1']; simpl in *;
      try discriminate; [|now injection Hres as ->].
    injection Hres as <-.
    destruct (Hk a s1) as [_ Hk1]. apply Hk1. unfold same_key in *. congruence.
Qed.

(** Gathered tasks of that kind answer as each would alone. *)
Lemma key_only_gather_run {A} (tasks : list (M A)) :
  Forall (key_only w) tasks ->
  forall s s', same_key w s' s ->
    fst (gather_run tasks s) = map (fun t => fst (t s')) tasks
    /\ same_key w s (snd (gather_run tasks s)).
Proof.
  induction 1 as [|t rest Ht _ IH]; intros s s' Hss'; simpl.
  - split; reflexivity.
  - destruct (Ht s) as [Hs Hres]. destruct (Ht s') as [_ Hres'].
    specialize (Hres' s Hss').
    destruct (t s) as [r s1]; simpl in *.
    assert (H1 : same_key w s' s1) by (unfold same_key in *; congruence).
    destruct (IH s1 s' H1) as [Hrs Hkey].
    destruct (gather_run rest s1) as [rs s2]; simpl in *. split.
    + now rewrite Hres', Hrs.
    + unfold same_key in *. congruence.
Qed.

Lemma key_only_gather {A} (tasks : list (M A)) :
  Forall (key_only w) tasks -> key_only w (gather tasks).
Proof.
  intros H s. split.
  - rewrite gather_state. now apply (key_only_gather_run H (s := s) (s' := s)).
  - intros s' Hss'. rewrite !gather_ok. f_equal.
    destruct (key_only_gather_run H (s := s) (s' := s) eq_refl) as [-> _].
    destruct (key_only_gather_run H (s := s') (s' := s) Hss') as [-> _]. reflexivity.
Qed.

End KeyOnly.

(** ** query_llm *)

Section Query.

Variable w : world.

Lemma ensure_api_key_result (s : state) : fst (ensure_api_key w s) = api_key_of w s.
Proof.
  unfold ensure_api_key, api_key_of.
  destruct (some_text (_API_KEY s)); [reflexivity|].
  now destruct (get_api_key w).
Qed.

Lemma ensure_api_key_logs (s : state) :
  http_log (snd (ensure_api_key w s)) = http_log s
  /\ consult_log (snd (ensure_api_key w s)) = consult_log s.
Proof.
  unfold ensure_api_key.
  destruct (some_text (_API_KEY s)); [now split|].
  destruct (get_api_key w); now split.
Qed.

Lemma ensure_api_key_same_key (s : state) : same_key w s (snd (ensure_api_key w s)).
Proof.
  unfold same_key, ensure_api_key, api_key_of.
  destruct (some_text (_API_KEY s)) eqn:Hc; simpl; [now rewrite Hc|].
  destruct (get_api_key w) as [key|e] eqn:Hk; simpl.
  - now destruct (Str.nonempty key).
  - now rewrite Hc.
Qed.

Lemma key_only_ensure_api_key : key_only w (ensure_api_key w).
Proof.
  intros s. split; [apply ensure_api_key_same_key|].
  intros s' Hss'. now rewrite !ensure_api_key_result.
Qed.

Lemma key_only_post (r : request) : key_only w (post w r).
Proof. intros s. split; [reflexivity | intros; reflexivity]. Qed.

Lemma key_only_query_llm (model : value) (system_prompt user_prompt : string)
    (context : option string) :
  key_only w (query_llm w model system_prompt user_prompt context).
Proof.
  unfold query_llm. apply key_only_bind; [apply key_only_ensure_api_key|].
  intros key. apply key_only_bind; [apply key_only_post|].
  intros [msg|status text [msg|body]].
  - apply key_only_raise.
  - destruct (negb (status =? 200)%Z); apply key_only_raise.
  - destruct (negb (status =? 200)%Z); [apply key_only_raise | apply key_only_lift].
Qed.

Lemma query_llm_no_key (model : value) (system_prompt user_prompt : string)
    (context : option string) (s : state) (e : exn) :
  api_key_of w s = Raise e ->
  query_llm w model system_prompt user_prompt context s = (Raise e, s).
Proof.
  intros Hkey. unfold query_llm, bind.
  pose proof (ensure_api_key_result s) as Hres. rewrite Hkey in Hres.
  unfold ensure_api_key in *. unfold api_key_of in Hkey.
  destruct (some_text (_API_KEY s)); [discriminate|].
  destruct (get_api_key w); [discriminate|]. simpl in Hres. now injection Hres as ->.
Qed.

Lemma query_llm_with_key (model : value) (system_prompt user_prompt : string)
    (context : option string) (s : state) (key : string) :
  api_key_of w s = Ok key ->
  let message :=
    if some_text context
    then "Context: " ++ or_empty context ++ nl ++ nl ++ user_prompt
    else user_prompt in
  let req := mk_request key model system_prompt message in
  http_log (snd (query_llm w model system_prompt user_prompt context s))
  = (http_log s ++ [req])%list
  /\ consult_log (snd (query_llm w model system_prompt user_prompt context s))
     = consult_log s
  /\ fst (query_llm w model system_prompt user_prompt context s)
     = match http_post w req with
       | Transport_failure msg => Raise (mk_exn ClientError msg)
       | Response status text json =>
           if negb (status =? 200)%Z
           then Raise (mk_exn RuntimeError
                         ("OpenRouter API error " ++ Str.of_Z status ++ ": " ++ text))
           else
             match json with
             | inl msg => Raise (mk_exn JSONDecodeError msg)
             | inr body =>
                 (choices <- Py.getitem body "choices" ;;
                  choice <- Py.first choices ;;
                  message <- Py.getitem choice "message" ;;
                  Py.getitem message "content")%py
             end
       end.
Proof.
  intros Hkey message req. unfold query_llm, bind.
  pose proof (ensure_api_key_result s) as Hres. rewrite Hkey in Hres.
  destruct (ensure_api_key_logs s) as [Hhttp Hcons].
  destruct (ensure_api_key w s) as [r s1]. simpl in Hres, Hhttp, Hcons. subst r.
  fold message. fold req. unfold post. cbn [fst snd].
  destruct (http_post w req) as [msg|status text [msg|body]]; cbn.
  - now rewrite Hhttp, Hcons.
  - destruct (negb (status =? 200)%Z); cbn; now rewrite Hhttp, Hcons.
  - destruct (negb (status =? 200)%Z); cbn; now rewrite Hhttp, Hcons.
Qed.

Lemma first_choice_read (body content : value) :
  first_choice_content body content ->
  (choices <- Py.getitem body "choices" ;;
   choice <- Py.first choices ;;
   message <- Py.getitem choice "message" ;;
   Py.getitem message "content")%py = Ok content.
Proof.
  intros (fields & choice & others & message & -> & Hc & Hm & Hcontent).
  simpl. rewrite Hc. simpl. rewrite Hm. simpl. now rewrite Hcontent.
Qed.

(** The errors of the key lookup: no key anywhere, or a .env path that is
    a directory and cannot be read. *)
Lemma scan_paths_error (paths : list path) (e : exn) :
  Env.scan_paths w paths = Raise e ->
  exn_cls e = IsADirectoryError
  /\ exists env_path, In env_path paths /\ fs w env_path = Some Dir.
Proof.
  induction paths as [|env_path paths IH]; cbn [Env.scan_paths]; [discriminate|].
  unfold exists_. destruct (fs w env_path) as [[|text]|] eqn:Hpath.
  - intros H. injection H as <-. split; [reflexivity|].
    exists env_path. split; [now left | exact Hpath].
  - destruct (Env.scan_lines (Env.splitlines text)); [discriminate|].
    intros H. destruct (IH H) as (Hcls & q & Hq & Hdir).
    split; [exact Hcls|]. exists q. split; [now right | exact Hdir].
  - intros H. destruct (IH H) as (Hcls & q & Hq & Hdir).
    split; [exact Hcls|]. exists q. split; [now right | exact Hdir].
Qed.

Lemma get_api_key_error (e : exn) :
  get_api_key w = Raise e ->
  e = mk_exn ValueError
        "OPENROUTER_API_KEY not found. Set it as an environment variable or in a .env file."
  \/ (exn_cls e = IsADirectoryError
      /\ exists env_path,
           In env_path [path_div (cwd w) ".env";
                        path_div (path_div (home_dir w) ".gatekeep") ".env"]
           /\ fs w env_path = Some Dir).
Proof.
  unfold get_api_key, Env.get_api_key_scanning.
  destruct (some_text (getenv_key w)); [discriminate|].
  destruct (Env.scan_paths w [path_div (cwd w) ".env";
                              path_div (path_div (home_dir w) ".gatekeep") ".env"])
    as [[val|]|e'] eqn:Hscan; cbn [rbind]; [discriminate | |].
  - intros H. injection H as <-. now left.
  - intros H. injection H as <-. right. now apply scan_paths_error.
Qed.

Lemma api_key_of_error (s : state) (e : exn) :
  api_key_of w s = Raise e -> get_api_key w = Raise e.
Proof.
  unfold api_key_of. now destruct (some_text (_API_KEY s)).
Qed.

End Query.

(** C6, as the code has it. A call of [query_llm] sends at most one POST
    request and never repeats it. When no API key is cached and the lookup
    fails, the error of the lookup is raised and nothing is sent: the
    ValueError that no key was found, or the IsADirectoryError of a .env
    path that is a directory. Otherwise exactly one request is sent: a
    response whose status is not 200 raises a RuntimeError whose text
    carries the status and the response text, a 200 response gives back
    the content of the first choice of its body, and a failed connection
    raises. *)
Theorem query_llm_single_call :
  forall (w : world) (model : value) (system_prompt user_prompt : string)
         (context : option string) (s : state),
    let run := query_llm w model system_prompt user_prompt context s in
    let message :=
      if some_text context
      then "Context: " ++ or_empty context ++ nl ++ nl ++ user_prompt
      else user_prompt in
    (forall e, api_key_of w s = Raise e ->
       (e = mk_exn ValueError
              "OPENROUTER_API_KEY not found. Set it as an environment variable or in a .env file."
        \/ (exn_cls e = IsADirectoryError
            /\ exists env_path,
                 In env_path [path_div (cwd w) ".env";
                              path_div (path_div (home_dir w) ".gatekeep") ".env"]
                 /\ fs w env_path = Some Dir))
       /\ fst run = Raise e /\ http_log (snd run) = http_log s)
    /\ (forall key, api_key_of w s = Ok key ->
          let req := mk_request key model system_prompt message in
          http_log (snd run) = (http_log s ++ [req])%list
          /\ (forall status text json,
                http_post w req = Response status text json -> status <> 200%Z ->
                fst run = Raise (mk_exn RuntimeError
                                   ("OpenRouter API error " ++ Str.of_Z status ++ ": " ++ text)))
          /\ (forall text body content,
                http_post w req = Response 200 text (inr body) ->
                first_choice_content body content ->
                fst run = Ok content)
          /\ (forall msg,
                http_post w req = Transport_failure msg ->
                fst run = Raise (mk_exn ClientError msg))).
Proof.
  intros w model system_prompt user_prompt context s run message. split.
  - intros e Hkey. unfold run.
    rewrite (@query_llm_no_key w model system_prompt user_prompt context s e Hkey).
    cbn [fst snd]. split; [|now split].
    now apply get_api_key_error, (@api_key_of_error w s).
  - intros key Hkey req.
    destruct (@query_llm_with_key w model system_prompt user_prompt context s key Hkey)
      as (Hlog & _ & Hres).
    fold run message req in Hlog, Hres. split; [exact Hlog|].
    repeat split.
    + intros status text json Hpost Hstatus. rewrite Hres, Hpost.
      apply Z.eqb_neq in Hstatus. now rewrite Hstatus.
    + intros text body content Hpost Hcontent. rewrite Hres, Hpost. simpl.
      now apply first_choice_read.
    + intros msg Hpost. now rewrite Hres, Hpost.
Qed.

Lemma query_llm_single_call_witness :
  fst (query_llm Sample.bundled (VStr "anthropic/claude-3.5-sonnet") "system" "hello"
         (Some "ctx") Sample.fresh)
  = Ok (VStr ("re: Context: ctx" ++ nl ++ nl ++ "hello"))
  /\ fst (query_llm Sample.bundled (VStr "openai/gpt-4o") "system" "hello" None Sample.fresh)
     = Raise (mk_exn RuntimeError "OpenRouter API error 503: overloaded")
  /\ List.length (http_log (snd (query_llm Sample.bundled (VStr "openai/gpt-4o") "system"
                                   "hello" None Sample.fresh))) = 1
  /\ http_log (snd (query_llm Sample.keyless (VStr "openai/gpt-4o") "system" "hello" None
                      Sample.fresh)) = []
  /\ fst (query_llm Sample.blocked (VStr "openai/gpt-4o") "system" "hello" None Sample.fresh)
     = Raise (mk_exn IsADirectoryError "[Errno 21] Is a directory: '/home/project/.env'")
  /\ http_log (snd (query_llm Sample.blocked (VStr "openai/gpt-4o") "system" "hello" None
                      Sample.fresh)) = [].
Proof.
  split; [|split; [|split; [|split]]].
  - destruct (query_llm_single_call Sample.bundled (VStr "anthropic/claude-3.5-sonnet")
                "system" "hello" (Some "ctx") Sample.fresh) as [_ Hsent].
    destruct (Hsent "sk-test" eq_refl) as (_ & _ & Hok & _).
    apply (Hok "" (Sample.reply ("re: Context: ctx" ++ nl ++ nl ++ "hello"))).
    + by_computation.
    + unfold first_choice_content, Sample.reply.
      do 4 eexists. repeat split; by_computation.
  - destruct (query_llm_single_call Sample.bundled (VStr "openai/gpt-4o")
                "system" "hello" None Sample.fresh) as [_ Hsent].
    destruct (Hsent "sk-test" eq_refl) as (_ & Herr & _).
    apply (Herr 503%Z "overloaded" (inl "not JSON")); [by_computation | discriminate].
  - destruct (query_llm_single_call Sample.bundled (VStr "openai/gpt-4o")
                "system" "hello" None Sample.fresh) as [_ Hsent].
    destruct (Hsent "sk-test" eq_refl) as (Hlog & _). now rewrite Hlog.
  - destruct (query_llm_single_call Sample.keyless (VStr "openai/gpt-4o")
                "system" "hello" None Sample.fresh) as [Hnone _].
    now destruct (Hnone _ eq_refl) as (_ & _ & ->).
  - destruct (query_llm_single_call Sample.blocked (VStr "openai/gpt-4o")
                "system" "hello" None Sample.fresh) as [Hnone _].
    destruct (Hnone (mk_exn IsADirectoryError
                       "[Errno 21] Is a directory: '/home/project/.env'") eq_refl)
      as (_ & Hraised & Hlog).
    split; [exact Hraised | exact Hlog].
Defined.

(** With no API key to be found, a call of [query_llm] sends no request. *)
Lemma query_llm_exactly_one_call_counterexample :
  fst (query_llm Sample.keyless (VStr "anthropic/claude-3.5-sonnet") "system" "hello" None
         Sample.fresh)
  = Raise (mk_exn ValueError
             "OPENROUTER_API_KEY not found. Set it as an environment variable or in a .env file.")
  /\ http_log (snd (query_llm Sample.keyless (VStr "anthropic/claude-3.5-sonnet") "system"
                      "hello" None Sample.fresh)) = []
  /\ ~ (exists r : request,
          http_log (snd (query_llm Sample.keyless (VStr "anthropic/claude-3.5-sonnet")
                           "system" "hello" None Sample.fresh))
          = (http_log Sample.fresh ++ [r])%list).
Proof.
  repeat split.
  intros [r Hr]. vm_compute in Hr. discriminate.
Qed.

(** ** The loader raises no ValueError *)

Section LoaderErrors.

Lemma nve_ok {A} (a : A) : not_value_error (Ok a).
Proof. intros e H; discriminate. Qed.

Lemma nve_raise {A} (e : exn) : exn_cls e <> ValueError -> not_value_error (@Raise A e).
Proof. intros Hcls e' H. now injection H as <-. Qed.

Lemma nve_bind {A B} (c : result A) (k : A -> result B) :
  not_value_error c -> (forall a, c = Ok a -> not_value_error (k a)) ->
  not_value_error (rbind c k).
Proof.
  intros Hc Hk e. destruct c as [a|e']; simpl.
  - now apply Hk.
  - intros H. injection H as <-. now apply Hc.
Qed.

Lemma nve_get (v : value) (k : string) (default : value) :
  not_value_error (Py.get v k default).
Proof. destruct v; (apply nve_ok || (apply nve_raise; discriminate)). Qed.

Lemma nve_items (v : value) : not_value_error (Py.items v).
Proof. destruct v; (apply nve_ok || (apply nve_raise; discriminate)). Qed.

Lemma nve_iter (v : value) : not_value_error (Py.iter v).
Proof. destruct v; (apply nve_ok || (apply nve_raise; discriminate)). Qed.

Lemma nve_slice_to (n : nat) (v : value) : not_value_error (Py.slice_to n v).
Proof. destruct v; (apply nve_ok || (apply nve_raise; discriminate)). Qed.

Lemma nve_upper (v : value) : not_value_error (Py.upper v).
Proof. destruct v; (apply nve_ok || (apply nve_raise; discriminate)). Qed.

Lemma nve_split_last (v : value) : not_value_error (Py.split_last v).
Proof. destruct v; (apply nve_ok || (apply nve_raise; discriminate)). Qed.

Lemma nve_getitem (v : value) (k : string) : not_value_error (Py.getitem v k).
Proof.
  destruct v; simpl; try (apply nve_raise; discriminate).
  destruct (Py.dict_get d k); [apply nve_ok | apply nve_raise; discriminate].
Qed.

Lemma nve_first (v : value) : not_value_error (Py.first v).
Proof.
  destruct v as [| | |s|l|d]; simpl; try (apply nve_raise; discriminate).
  - destruct s; [apply nve_raise; discriminate | apply nve_ok].
  - destruct l; [apply nve_raise; discriminate | apply nve_ok].
Qed.

Lemma nve_div_value (p : path) (v : value) : not_value_error (div_value p v).
Proof. destruct v; (apply nve_ok || (apply nve_raise; discriminate)). Qed.

End LoaderErrors.

Create HintDb nve discriminated.

#[export] Hint Resolve nve_ok nve_get nve_items nve_iter nve_slice_to nve_upper
  nve_split_last nve_getitem nve_first nve_div_value : nve.

(** One step through a computation of the loader. *)
Ltac nve_step :=
  match goal with
  | |- not_value_error (rbind _ _) => apply nve_bind; [|intros ? ?]
  | |- not_value_error (Raise _) => apply nve_raise; discriminate
  | |- not_value_error (if ?b then _ else _) => destruct b
  | |- not_value_error (match ?x with _ => _ end) => destruct x
  | |- not_value_error _ => solve [auto with nve]
  end.

Ltac nve := repeat nve_step.

Section LoaderNeverValueError.

Variable w : world.

Lemma nve_load_yaml (p : path) : not_value_error (load_yaml w p).
Proof. unfold load_yaml. nve. Qed.

Hint Resolve nve_load_yaml : nve.

Lemma nve_load_governance_from (dir : path) (files : list value) :
  forall governance, not_value_error (load_governance_from w dir files governance).
Proof.
  induction files as [|f files IH]; intros governance; simpl; nve.
Qed.

Hint Resolve nve_load_governance_from : nve.

Lemma nve_load_governance (files : value) : not_value_error (load_governance w files).
Proof. unfold load_governance. destruct (_get_paths w) as [[[? ?] ?] ?]. nve. Qed.

Lemma nve_load_domains (dir : path) (files : list value) :
  forall domains, not_value_error (load_domains w dir files domains).
Proof.
  induction files as [|f files IH]; intros domains; simpl; nve.
Qed.

Hint Resolve nve_load_governance nve_load_domains : nve.

Lemma nve_load_standard (standard_id : value) : not_value_error (load_standard w standard_id).
Proof. unfold load_standard. destruct (_get_paths w) as [[[? ?] ?] ?]. nve. Qed.

Lemma nve_load_personas : not_value_error (load_personas w).
Proof. unfold load_personas. destruct (_get_paths w) as [[[? ?] ?] ?]. nve. Qed.

Hint Resolve nve_load_standard nve_load_personas : nve.

Lemma nve_get_persona_config (name : string) : not_value_error (get_persona_config w name).
Proof. unfold get_persona_config. nve. Qed.

Hint Resolve nve_get_persona_config : nve.

Lemma nve_get_persona_governance (name : string) :
  not_value_error (get_persona_governance w name).
Proof. unfold get_persona_governance. nve. Qed.

Lemma nve_load_standards (ids : list value) :
  forall standards, not_value_error (load_standards w ids standards).
Proof.
  induction ids as [|i ids IH]; intros standards; simpl; nve.
Qed.

Hint Resolve nve_get_persona_governance nve_load_standards : nve.

Lemma nve_get_persona_standards (name : string) :
  not_value_error (get_persona_standards w name).
Proof. unfold get_persona_standards. nve. Qed.

Lemma nve_control_line (control : value) : not_value_error (control_line w control).
Proof. unfold control_line. nve. Qed.

Hint Resolve nve_get_persona_standards nve_control_line : nve.

Lemma nve_control_lines (controls : list value) : not_value_error (control_lines w controls).
Proof. induction controls as [|c controls IH]; simpl; nve. Qed.

Hint Resolve nve_control_lines : nve.

Lemma nve_domain_sections (domains : dict) : not_value_error (domain_sections w domains).
Proof. induction domains as [|[n c] domains IH]; simpl; nve. Qed.

Hint Resolve nve_domain_sections : nve.

Lemma nve_standard_sections (standards : dict) :
  not_value_error (standard_sections w standards).
Proof. induction standards as [|[n c] standards IH]; simpl; nve. Qed.

Hint Resolve nve_standard_sections : nve.

Lemma nve_format_standards_for_prompt (standards : dict) :
  not_value_error (format_standards_for_prompt w standards).
Proof. unfold format_standards_for_prompt. nve. Qed.

Lemma nve_load_all_for_persona (name : string) :
  not_value_error (load_all_for_persona w name).
Proof.
  pose proof nve_format_standards_for_prompt.
  unfold load_all_for_persona. nve.
Qed.

End LoaderNeverValueError.

#[export] Hint Resolve nve_load_yaml nve_load_governance nve_load_standard nve_load_personas
  nve_get_persona_config nve_get_persona_governance nve_get_persona_standards
  nve_format_standards_for_prompt nve_load_all_for_persona : nve.

(** ** Unknown and configured personas *)

Section Consulting.

Variable w : world.

Lemma never_raises_ret (e : exn) {A} (a : A) : never_raises e (ret a).
Proof. intros s; discriminate. Qed.

Lemma never_raises_lift (e : exn) {A} (c : result A) :
  c <> Raise e -> never_raises e (lift c).
Proof. intros H s. exact H. Qed.

Lemma never_raises_bind (e : exn) {A B} (c : M A) (k : A -> M B) :
  never_raises e c -> (forall a, never_raises e (k a)) -> never_raises e (bind c k).
Proof.
  intros Hc Hk s. unfold bind. specialize (Hc s).
  destruct (c s) as [[a|e'] s1]; simpl in *; [apply Hk|].
  intros H. apply Hc. now injection H as ->.
Qed.

Lemma never_raises_gather (e : exn) {A} (tasks : list (M A)) :
  never_raises e (gather tasks).
Proof. intros s. rewrite gather_ok. discriminate. Qed.

Lemma never_raises_loader (name : string) {A} (c : result A) :
  not_value_error c -> never_raises (unknown_persona name) (lift c).
Proof.
  intros Hc. apply never_raises_lift. intros H. now apply (Hc _ H).
Qed.

Lemma never_unknown_query_llm (name : string) (model : value)
    (system_prompt user_prompt : string) (context : option string) :
  never_raises (unknown_persona name)
    (query_llm w model system_prompt user_prompt context).
Proof.
  intros s. destruct (api_key_of w s) as [key|e] eqn:Hkey.
  - destruct (@query_llm_with_key w model system_prompt user_prompt context s key Hkey)
      as (_ & _ & ->).
    match goal with |- context [http_post w ?r] => destruct (http_post w r)
      as [msg|status text [msg|body]] end; try discriminate.
    + destruct (negb (status =? 200)%Z); discriminate.
    + destruct (negb (status =? 200)%Z); [discriminate|].
      intros H. refine ((_ : not_value_error _) _ H eq_refl). nve.
  - rewrite (@query_llm_no_key w model system_prompt user_prompt context s e Hkey). simpl.
    intros H. injection H as ->.
    destruct (@get_api_key_error w _ (@api_key_of_error w s _ Hkey)) as [Hmissing|[Hcls _]];
      discriminate.
Qed.

(** What [load_all_for_persona] does with a usable configuration. *)
Lemma load_all_configured (name : string) (config : value) :
  get_persona_config w name = Ok config -> Py.truthy config = true ->
  load_all_for_persona w name
  = (gov <- get_persona_governance w name ;;
     std <- get_persona_standards w name ;;
     std_text <- format_standards_for_prompt w std ;;
     Ok (Some (mk_persona_data config gov std (format_governance_for_prompt w gov) std_text)))%py.
Proof.
  intros Hconfig Htruthy. unfold load_all_for_persona.
  rewrite Hconfig. simpl. now rewrite Htruthy.
Qed.

Lemma load_all_unknown (name : string) (config : value) :
  get_persona_config w name = Ok config -> Py.truthy config = false ->
  load_all_for_persona w name = Ok None.
Proof.
  intros Hconfig Hfalsy. unfold load_all_for_persona.
  rewrite Hconfig. simpl. now rewrite Hfalsy.
Qed.

Lemma build_system_prompt_configured (name : string) (config : value) :
  get_persona_config w name = Ok config -> Py.truthy config = true ->
  not_value_error (build_system_prompt w name).
Proof.
  intros Hconfig Htruthy. unfold build_system_prompt.
  apply nve_bind; [apply nve_load_all_for_persona|].
  intros [data|] Hdata; [nve|].
  rewrite (load_all_configured name Hconfig Htruthy) in Hdata.
  destruct (get_persona_governance w name) as [gov|e]; [|discriminate].
  destruct (get_persona_standards w name) as [std|e]; [|discriminate].
  simpl in Hdata.
  destruct (format_standards_for_prompt w std) as [text|e]; discriminate.
Qed.

Lemma build_system_prompt_unknown (name : string) (config : value) :
  get_persona_config w name = Ok config -> Py.truthy config = false ->
  build_system_prompt w name = Raise (unknown_persona name).
Proof.
  intros Hconfig Hfalsy. unfold build_system_prompt.
  now rewrite (load_all_unknown name Hconfig Hfalsy).
Qed.

Lemma consult_persona_unknown (name question : string) (context : option string)
    (s : state) (config : value) :
  get_persona_config w name = Ok config -> Py.truthy config = false ->
  consult_persona w name question context s
  = (Raise (unknown_persona name),
     mk_state (_API_KEY s) (http_log s)
              (consult_log s ++ [mk_consultation name question context])%list).
Proof.
  intros Hconfig Hfalsy. unfold consult_persona, bind, note_consultation, lift.
  cbn [fst snd]. rewrite Hconfig, Hfalsy. reflexivity.
Qed.

Lemma nve_consensus_sections (pairs : list (value * result value)) :
  forall text, not_value_error (consensus_sections w pairs text).
Proof.
  induction pairs as [|[m r] pairs IH]; intros text; simpl; nve.
Qed.

(** A configured persona is never reported as unknown, under any name. *)
Lemma never_unknown_consensus (name other question : string) (context : option string)
    (config : value) :
  get_persona_config w name = Ok config -> Py.truthy config = true ->
  never_raises (unknown_persona other) (_consensus_review w name question context).
Proof.
  intros Hconfig Htruthy. unfold _consensus_review.
  repeat first
    [ apply never_raises_bind; [|intros ?]
    | apply never_raises_gather
    | apply never_raises_ret
    | apply never_raises_loader; solve [nve]
    | apply never_raises_loader; now apply (build_system_prompt_configured name Hconfig)
    | apply never_raises_loader; now apply nve_consensus_sections ].
Qed.

Lemma never_unknown_consult_persona (name other question : string)
    (context : option string) (config : value) :
  get_persona_config w name = Ok config -> Py.truthy config = true ->
  never_raises (unknown_persona other) (consult_persona w name question context).
Proof.
  intros Hconfig Htruthy s. unfold consult_persona, bind at 1, note_consultation.
  cbn [fst snd]. unfold bind at 1, lift at 1. rewrite Hconfig, Htruthy. cbn [negb].
  revert s. match goal with |- forall s, fst (?c _) <> _ =>
    enough (Hc : never_raises (unknown_persona other) c) by (intros s; apply Hc) end.
  apply never_raises_bind;
    [apply never_raises_loader; now apply (build_system_prompt_configured name Hconfig)|].
  intros system_prompt. apply never_raises_bind; [apply never_raises_loader; nve|].
  intros model. destruct (Py.eq_str model "consensus").
  - apply never_raises_bind; [now apply (never_unknown_consensus _ _ _ Hconfig)|].
    intros text. apply never_raises_ret.
  - apply never_unknown_query_llm.
Qed.

(** The entry of a persona in the table of [personas.yaml]. *)
Lemma get_persona_config_entry (name : string) (doc : value) (table : dict) :
  load_personas w = Ok doc ->
  Py.get doc "personas" (VDict []) = Ok (VDict table) ->
  get_persona_config w name
  = Ok (match Py.dict_get table name with Some config => config | None => VNone end).
Proof.
  intros Hdoc Htable. unfold get_persona_config.
  rewrite Hdoc. simpl. rewrite Htable. reflexivity.
Qed.

End Consulting.

(** C10. For a name with no entry in the persona table,
    [build_system_prompt] and [consult_persona] raise the ValueError
    "Unknown persona: <name>", and [consult_persona] sends no request to
    the model. For a persona with a configuration neither of them raises
    that error. *)
Theorem unknown_persona_rejected :
  forall (w : world) (name : string) (doc : value) (table : dict),
    load_personas w = Ok doc ->
    Py.get doc "personas" (VDict []) = Ok (VDict table) ->
    (Py.dict_get table name = None ->
       build_system_prompt w name = Raise (mk_exn ValueError ("Unknown persona: " ++ name))
       /\ forall question context s,
            fst (consult_persona w name question context s)
            = Raise (mk_exn ValueError ("Unknown persona: " ++ name))
            /\ http_log (snd (consult_persona w name question context s)) = http_log s)
    /\ (forall config,
          Py.dict_get table name = Some config -> Py.truthy config = true ->
          build_system_prompt w name <> Raise (mk_exn ValueError ("Unknown persona: " ++ name))
          /\ forall question context s,
               fst (consult_persona w name question context s)
               <> Raise (mk_exn ValueError ("Unknown persona: " ++ name))).
Proof.
  intros w name doc table Hdoc Htable.
  pose proof (@get_persona_config_entry w name doc table Hdoc Htable) as Hconfig. split.
  - intros Hnone. rewrite Hnone in Hconfig. split.
    + eapply build_system_prompt_unknown; [exact Hconfig | reflexivity].
    + intros question context s.
      erewrite consult_persona_unknown; [split; reflexivity | exact Hconfig | reflexivity].
  - intros config Hsome Htruthy. rewrite Hsome in Hconfig. split.
    + intros H. eapply build_system_prompt_configured; [exact Hconfig | exact Htruthy | exact H | reflexivity].
    + intros question context s.
      eapply never_unknown_consult_persona; [exact Hconfig | exact Htruthy].
Qed.

Lemma unknown_persona_rejected_witness :
  (build_system_prompt Sample.bundled "nobody"
   = Raise (mk_exn ValueError "Unknown persona: nobody")
   /\ fst (consult_persona Sample.bundled "nobody" "Hello?" None Sample.fresh)
      = Raise (mk_exn ValueError "Unknown persona: nobody")
   /\ http_log (snd (consult_persona Sample.bundled "nobody" "Hello?" None Sample.fresh)) = [])
  /\ build_system_prompt Sample.bundled "auditor"
     <> Raise (mk_exn ValueError "Unknown persona: auditor")
  /\ fst (consult_persona Sample.bundled "auditor" "Cost?" None Sample.fresh)
     <> Raise (mk_exn ValueError "Unknown persona: auditor").
Proof.
  split.
  - edestruct (unknown_persona_rejected Sample.bundled "nobody") as [Hunknown _];
      [by_computation | by_computation |].
    destruct (Hunknown eq_refl) as [Hprompt Hconsult].
    split; [exact Hprompt|]. apply (Hconsult "Hello?" None Sample.fresh).
  - edestruct (unknown_persona_rejected Sample.bundled "auditor") as [_ Hknown];
      [by_computation | by_computation |].
    edestruct Hknown as [Hprompt Hconsult]; [by_computation | by_computation |].
    split; [exact Hprompt|]. apply (Hconsult "Cost?" None Sample.fresh).
Defined.

(** ** Consultations: what they depend on and what they record *)

Section ConsultFootprint.

Variable w : world.

Lemma same_consults_refl (s : state) : same_consults s s.
Proof. reflexivity. Qed.

Lemma same_consults_trans (s1 s2 s3 : state) :
  same_consults s1 s2 -> same_consults s2 s3 -> same_consults s1 s3.
Proof. unfold same_consults. congruence. Qed.

Ltac keeps_consults_with known :=
  repeat first
    [ known
    | apply (keeps_bind same_consults_trans); [|intros ?]
    | apply (@keeps_ret same_consults same_consults_refl)
    | apply (@keeps_raise same_consults same_consults_refl)
    | apply (@keeps_lift same_consults same_consults_refl)
    | match goal with
      | |- keeps _ (if ?b then _ else _) => destruct b
      | |- keeps _ (match ?x with _ => _ end) => destruct x
      end ].

Lemma keeps_consults_query_llm (model : value) (system_prompt user_prompt : string)
    (context : option string) :
  keeps same_consults (query_llm w model system_prompt user_prompt context).
Proof.
  unfold query_llm.
  apply (keeps_bind same_consults_trans);
    [intros s; apply (proj2 (ensure_api_key_logs w s))|].
  intros key. apply (keeps_bind same_consults_trans); [intros s; reflexivity|].
  intros response. keeps_consults_with fail.
Qed.

Lemma keeps_consults_consensus (name question : string) (context : option string) :
  keeps same_consults (_consensus_review w name question context).
Proof.
  unfold _consensus_review. keeps_consults_with fail.
  apply (@keeps_gather same_consults same_consults_refl same_consults_trans).
  apply Forall_forall. intros t Ht. apply in_map_iff in Ht as (m & <- & _).
  apply keeps_consults_query_llm.
Qed.

(** A consultation adds itself to the trace, and nothing else. *)
Lemma consult_persona_recorded (name question : string) (context : option string)
    (s : state) :
  consult_log (snd (consult_persona w name question context s))
  = (consult_log s ++ [mk_consultation name question context])%list.
Proof.
  unfold consult_persona, bind at 1, note_consultation. cbn [fst snd].
  match goal with |- consult_log (snd (?c ?s0)) = _ =>
    enough (Hc : keeps same_consults c) by (rewrite (Hc s0); reflexivity) end.
  keeps_consults_with
    ltac:(first [apply keeps_consults_consensus | apply keeps_consults_query_llm]).
Qed.

Ltac key_only_with known :=
  repeat first
    [ known
    | apply key_only_query_llm
    | apply key_only_bind; [|intros ?]
    | apply key_only_ret
    | apply key_only_raise
    | apply key_only_lift
    | match goal with
      | |- key_only _ (if ?b then _ else _) => destruct b
      end ].

Lemma key_only_consensus (name question : string) (context : option string) :
  key_only w (_consensus_review w name question context).
Proof.
  unfold _consensus_review. key_only_with fail.
  apply key_only_gather. apply Forall_forall.
  intros t Ht. apply in_map_iff in Ht as (m & <- & _). apply key_only_query_llm.
Qed.

Lemma key_only_consult_persona (name question : string) (context : option string) :
  key_only w (consult_persona w name question context).
Proof.
  unfold consult_persona. apply key_only_bind.
  - intros s. split; [reflexivity | intros; reflexivity].
  - intros _. key_only_with ltac:(apply key_only_consensus).
Qed.

(** Gathered consultations and gathered queries answer as each alone. *)
Lemma gather_consultations (tasks : list (string * string)) (context : option string)
    (s : state) :
  fst (gather_run (map (fun t => consult_persona w (fst t) (snd t) context) tasks) s)
  = map (fun t => fst (consult_persona w (fst t) (snd t) context s)) tasks.
Proof.
  match goal with |- fst (gather_run ?ts s) = _ =>
    assert (Hall : Forall (key_only w) ts) end.
  { apply Forall_forall. intros t Ht. apply in_map_iff in Ht as (m & <- & _).
    apply key_only_consult_persona. }
  destruct (key_only_gather_run Hall (s := s) (s' := s) eq_refl) as [-> _].
  now rewrite map_map.
Qed.

Lemma gather_queries (models : list value) (system_prompt question : string)
    (context : option string) (s : state) :
  fst (gather_run (map (fun m => query_llm w m system_prompt question context) models) s)
  = map (fun m => fst (query_llm w m system_prompt question context s)) models.
Proof.
  match goal with |- fst (gather_run ?ts s) = _ =>
    assert (Hall : Forall (key_only w) ts) end.
  { apply Forall_forall. intros t Ht. apply in_map_iff in Ht as (m & <- & _).
    apply key_only_query_llm. }
  destruct (key_only_gather_run Hall (s := s) (s' := s) eq_refl) as [-> _].
  now rewrite map_map.
Qed.

End ConsultFootprint.

(** ** The deployment gate *)

Section Gate.

Variable w : world.
Variable deployment_plan environment : string.
Variable context : option string.
Variable s : state.

(** The gate, step by step: the two checks, then the approval. *)
Lemma deployment_gate_steps :
  let cost :=
    consult_persona w "auditor" ("Cost check for deployment: " ++ deployment_plan) context s in
  let security :=
    consult_persona w "sentinel" ("Security check for deployment: " ++ deployment_plan)
      context (snd cost) in
  let checks := [("auditor", fst cost); ("sentinel", fst security)] in
  let chosen :=
    if String.eqb (Str.lower environment) "production" then "guardian" else "tester" in
  let approval_ctx :=
    "Cost: " ++ str_outcome w (fst cost) ++ nl
    ++ "Security: " ++ str_outcome w (fst security) ++ nl ++ or_empty context in
  let approval :=
    consult_persona w chosen
      ("Approve deployment to " ++ environment ++ "?" ++ nl ++ nl ++ "Plan: " ++ deployment_plan)
      (Some approval_ctx) (snd security) in
  deployment_gate w deployment_plan environment context s
  = (match fst approval with
     | Ok v => Ok (mk_gate_result checks chosen v environment)
     | Raise e => Raise e
     end,
     snd approval).
Proof.
  intros cost security checks chosen approval_ctx approval.
  unfold deployment_gate, bind, gather, Py.dict_of. cbn [fold_left map fst snd Py.dict_set
    String.eqb Ascii.eqb Bool.eqb gather_run combine].
  fold cost. destruct cost as [r1 s1] eqn:Hcost. cbn [fst snd] in *.
  fold security. destruct security as [r2 s2] eqn:Hsecurity. cbn [fst snd] in *.
  cbn [combine fold_left Py.dict_set fst snd String.eqb Ascii.eqb Bool.eqb].
  unfold check_text. cbn [Py.dict_get String.eqb Ascii.eqb Bool.eqb].
  fold chosen. fold approval_ctx. fold approval.
  destruct approval as [[v|e] s3]; reflexivity.
Qed.

(** The second check answers as it would from the state the gate started in. *)
Lemma security_check_alone :
  fst (consult_persona w "sentinel" ("Security check for deployment: " ++ deployment_plan)
         context
         (snd (consult_persona w "auditor" ("Cost check for deployment: " ++ deployment_plan)
                 context s)))
  = fst (consult_persona w "sentinel" ("Security check for deployment: " ++ deployment_plan)
           context s).
Proof.
  destruct (key_only_consult_persona w "auditor"
              ("Cost check for deployment: " ++ deployment_plan) context s) as [Hkey _].
  destruct (key_only_consult_persona w "sentinel"
              ("Security check for deployment: " ++ deployment_plan) context s) as [_ Hres].
  symmetry. now apply Hres.
Qed.

End Gate.

(** C2. The persona asked for approval is decided by the environment
    alone: "guardian" exactly when the lowercased environment is
    "production", "tester" otherwise. The gate fails only with the error
    of that approval consultation; the record it returns otherwise names
    this approver and the environment as given. *)
Theorem deployment_gate_approver :
  forall (w : world) (deployment_plan target : string) (context : option string)
         (s : state),
    exists chosen : string,
      (chosen = "guardian" <-> Str.lower target = "production")
      /\ (chosen = "tester" <-> Str.lower target <> "production")
      /\ (exists earlier asked given,
            consult_log (snd (deployment_gate w deployment_plan target context s))
            = (earlier ++ [mk_consultation chosen asked given])%list)
      /\ (forall r,
            fst (deployment_gate w deployment_plan target context s) = Ok r ->
            approver r = chosen /\ environment r = target)
      /\ (forall e,
            fst (deployment_gate w deployment_plan target context s) = Raise e ->
            exists asked given s',
              fst (consult_persona w chosen asked given s') = Raise e).
Proof.
  intros w deployment_plan target context s.
  pose proof (deployment_gate_steps w deployment_plan target context s) as Hsteps.
  cbv zeta in Hsteps. rewrite Hsteps. clear Hsteps.
  exists (if String.eqb (Str.lower target) "production" then "guardian" else "tester").
  destruct (String.eqb_spec (Str.lower target) "production") as [Heq|Hne].
  - split; [tauto|]. split; [split; [discriminate | tauto]|].
    split; [|split].
    + cbn [snd]. rewrite consult_persona_recorded. eauto.
    + cbn [fst]. intros r Hr.
      match type of Hr with match ?x with _ => _ end = _ => destruct x end;
        [|discriminate]. injection Hr as <-. now split.
    + cbn [fst]. intros e He. do 3 eexists.
      match type of He with match fst ?x with _ => _ end = _ =>
        destruct (fst x) as [v|e'] eqn:Hx end; [discriminate|].
      injection He as <-. exact Hx.
  - split; [split; [discriminate | tauto]|]. split; [tauto|].
    split; [|split].
    + cbn [snd]. rewrite consult_persona_recorded. eauto.
    + cbn [fst]. intros r Hr.
      match type of Hr with match ?x with _ => _ end = _ => destruct x end;
        [|discriminate]. injection Hr as <-. now split.
    + cbn [fst]. intros e He. do 3 eexists.
      match type of He with match fst ?x with _ => _ end = _ =>
        destruct (fst x) as [v|e'] eqn:Hx end; [discriminate|].
      injection He as <-. exact Hx.
Qed.

Lemma deployment_gate_approver_witness :
  (exists r, fst (deployment_gate Sample.bundled "API v2" "Production" None Sample.fresh) = Ok r
             /\ approver r = "guardian" /\ environment r = "Production")
  /\ (exists r, fst (deployment_gate Sample.bundled "API v2" "staging" None Sample.fresh) = Ok r
                /\ approver r = "tester" /\ environment r = "staging").
Proof.
  split.
  - destruct (deployment_gate_approver Sample.bundled "API v2" "Production" None Sample.fresh)
      as (chosen & Hguardian & _ & _ & Hrecord & _).
    destruct (fst (deployment_gate Sample.bundled "API v2" "Production" None Sample.fresh))
      as [r|e] eqn:Hrun; [|vm_compute in Hrun; discriminate].
    exists r. destruct (Hrecord r eq_refl) as [Ha He].
    split; [reflexivity|]. split; [|exact He].
    rewrite Ha. apply Hguardian. by_computation.
  - destruct (deployment_gate_approver Sample.bundled "API v2" "staging" None Sample.fresh)
      as (chosen & _ & Htester & _ & Hrecord & _).
    destruct (fst (deployment_gate Sample.bundled "API v2" "staging" None Sample.fresh))
      as [r|e] eqn:Hrun; [|vm_compute in Hrun; discriminate].
    exists r. destruct (Hrecord r eq_refl) as [Ha He].
    split; [reflexivity|]. split; [|exact He].
    rewrite Ha. apply Htester. vm_compute. discriminate.
Defined.

(** C4. The gate consults exactly three times, in this order: the
    auditor with the cost check, the sentinel with the security check, then
    the approver, once. The context handed to the approval consultation
    contains what both checks gave, a response or the text of an error. *)
Theorem deployment_gate_two_phases :
  forall (w : world) (deployment_plan environment : string) (context : option string)
         (s : state),
    let cost :=
      fst (consult_persona w "auditor" ("Cost check for deployment: " ++ deployment_plan)
             context s) in
    let security :=
      fst (consult_persona w "sentinel" ("Security check for deployment: " ++ deployment_plan)
             context s) in
    exists chosen approval_ctx : string,
      consult_log (snd (deployment_gate w deployment_plan environment context s))
      = (consult_log s
         ++ [mk_consultation "auditor" ("Cost check for deployment: " ++ deployment_plan) context;
             mk_consultation "sentinel" ("Security check for deployment: " ++ deployment_plan)
               context;
             mk_consultation chosen
               ("Approve deployment to " ++ environment ++ "?" ++ nl ++ nl
                ++ "Plan: " ++ deployment_plan)
               (Some approval_ctx)])%list
      /\ approval_ctx
         = "Cost: " ++ str_outcome w cost ++ nl
           ++ "Security: " ++ str_outcome w security ++ nl ++ or_empty context
      /\ occurs_in (str_outcome w cost) approval_ctx
      /\ occurs_in (str_outcome w security) approval_ctx
      /\ (forall r,
            fst (deployment_gate w deployment_plan environment context s) = Ok r ->
            checks r = [("auditor", cost); ("sentinel", security)]).
Proof.
  intros w deployment_plan environment context s cost security.
  pose proof (deployment_gate_steps w deployment_plan environment context s) as Hsteps.
  cbv zeta in Hsteps. rewrite Hsteps. clear Hsteps.
  rewrite (security_check_alone w deployment_plan context s).
  fold cost security. do 2 eexists.
  split; [|split; [reflexivity|]].
  - cbn [snd]. rewrite !consult_persona_recorded, <- !app_assoc. reflexivity.
  - split; [|split].
    + exists "Cost: ". eexists. reflexivity.
    + exists ("Cost: " ++ str_outcome w cost ++ nl ++ "Security: "). eexists.
      rewrite !append_assoc. reflexivity.
    + cbn [fst]. intros r Hr.
      match type of Hr with match ?x with _ => _ end = _ => destruct x end;
        [|discriminate]. now injection Hr as <-.
Qed.

Lemma deployment_gate_two_phases_witness :
  map to_persona
      (consult_log (snd (deployment_gate Sample.bundled "API v2" "production" (Some "v2 notes")
                           Sample.fresh)))
  = ["auditor"; "sentinel"; "guardian"]
  /\ occurs_in "OpenRouter API error 503: overloaded"
       (or_empty (given_context
          (List.last (consult_log (snd (deployment_gate Sample.bundled "API v2" "production"
                                          (Some "v2 notes") Sample.fresh)))
                     (mk_consultation "" "" None)))).
Proof.
  destruct (deployment_gate_two_phases Sample.bundled "API v2" "production" (Some "v2 notes")
              Sample.fresh) as (chosen & approval_ctx & Hlog & Hctx & Hcost & _).
  rewrite Hlog. cbn [app Sample.fresh consult_log map to_persona List.last given_context
                     or_empty].
  split.
  - f_equal. f_equal. f_equal.
    assert (Hthird :
      map to_persona
        (consult_log (snd (deployment_gate Sample.bundled "API v2" "production"
                             (Some "v2 notes") Sample.fresh)))
      = ["auditor"; "sentinel"; "guardian"]) by by_computation.
    rewrite Hlog in Hthird.
    cbn [app Sample.fresh consult_log map to_persona] in Hthird.
    now injection Hthird.
  - replace "OpenRouter API error 503: overloaded"
      with (str_outcome Sample.bundled
              (fst (consult_persona Sample.bundled "auditor"
                      ("Cost check for deployment: " ++ "API v2") (Some "v2 notes")
                      Sample.fresh))) by by_computation.
    exact Hcost.
Defined.

(** ** Fan-out and aggregation *)

Section Dicts.

Variable V : Type.

Lemma dict_set_new (d : list (string * V)) (k : string) (v : V) :
  ~ In k (map fst d) -> Py.dict_set d k v = (d ++ [(k, v)])%list.
Proof.
  induction d as [|[k' v'] d IH]; intros Hnew; simpl; [reflexivity|].
  destruct (String.eqb_spec k' k) as [->|Hne].
  - exfalso. apply Hnew. now left.
  - rewrite IH; [reflexivity|]. intros Hin. apply Hnew. now right.
Qed.

Lemma fold_dict_set (pairs acc : list (string * V)) :
  NoDup (map fst (acc ++ pairs)) ->
  fold_left (fun d kv => Py.dict_set d (fst kv) (snd kv)) pairs acc = (acc ++ pairs)%list.
Proof.
  revert acc; induction pairs as [|[k v] pairs IH]; intros acc Hnodup; simpl.
  - now rewrite app_nil_r.
  - rewrite dict_set_new.
    + rewrite IH; rewrite <- app_assoc; [reflexivity | exact Hnodup].
    + rewrite map_app in Hnodup. simpl in Hnodup.
      apply NoDup_remove_2 in Hnodup. intros Hin. apply Hnodup.
      apply in_or_app. now left.
Qed.

(** Pairs with distinct keys make the dict that lists them in order. *)
Lemma dict_of_distinct (pairs : list (string * V)) :
  NoDup (map fst pairs) -> Py.dict_of pairs = pairs.
Proof. intros H. unfold Py.dict_of. now rewrite fold_dict_set. Qed.

End Dicts.

Section Aggregation.

Variable w : world.

(** What the peer review prints for one model and what it gave back. *)
Lemma consensus_sections_text (models : list string) (responses : list (result value)) :
  List.length responses = List.length models ->
  forall text,
    consensus_sections w (combine (map VStr models) responses) text
    = Ok (text ++
          fold_right append ""
            (map (fun mr =>
                    match snd mr with
                    | Raise e =>
                        "**" ++ Str.last_segment "/"%char (fst mr) ++ "**: Error — "
                        ++ exn_str e ++ nl ++ nl
                    | Ok v =>
                        "**" ++ Str.last_segment "/"%char (fst mr) ++ "**:" ++ nl
                        ++ py_str w v ++ nl ++ nl
                    end)
                 (combine models responses))).
Proof.
  revert responses; induction models as [|m models IH]; intros [|r responses] Hlen text;
    try discriminate; simpl.
  - now rewrite append_empty_r.
  - injection Hlen as Hlen. rewrite (IH responses Hlen).
    destruct r; now rewrite !append_assoc.
Qed.

Lemma combine_map_r {A B C} (f : A -> C) (l : list B) (l' : list A) :
  combine l (map f l') = map (fun p => (fst p, f (snd p))) (combine l l').
Proof.
  revert l'; induction l as [|x l IH]; intros [|y l']; simpl; try reflexivity.
  now rewrite IH.
Qed.

Lemma combine_same {A B C} (f : A -> B) (g : A -> C) (l : list A) :
  combine (map f l) (map g l) = map (fun x => (f x, g x)) l.
Proof. induction l as [|x l IH]; simpl; [reflexivity | now rewrite IH]. Qed.

End Aggregation.

Section Reviews.

Variable w : world.

Lemma team_review_result (workflows workflow : value) (members : dict)
    (content : string) (context : option string) (s : state) :
  get_workflows w = Ok workflows ->
  Py.get workflows "team_review" (VDict []) = Ok workflow ->
  Py.get workflow "personas" (VDict []) = Ok (VDict members) ->
  NoDup (map fst members) ->
  fst (team_review w content context s)
  = Ok (map (fun m =>
               (fst m,
                review_entry
                  (fst (consult_persona w (fst m) (py_str w (snd m) ++ ": " ++ content)
                          context s))))
            members).
Proof.
  intros Hworkflows Hworkflow Hmembers Hdistinct.
  unfold get_workflows in Hworkflows.
  destruct (load_personas w) as [doc|e] eqn:Hdoc; [|discriminate]. simpl in Hworkflows.
  unfold team_review, bind, lift. rewrite Hdoc, Hworkflows, Hworkflow, Hmembers.
  cbn [Py.items].
  rewrite dict_of_distinct by (now rewrite map_map).
  rewrite !map_map. cbn [fst snd].
  pose proof (gather_consultations w
                (map (fun m => (fst m, py_str w (snd m) ++ ": " ++ content)) members)
                context s) as Hgather.
  rewrite !map_map in Hgather. cbn [fst snd] in Hgather.
  unfold gather.
  destruct (gather_run _ s) as [responses s'] eqn:Hrun. cbn [fst snd] in *.
  subst responses. unfold ret. cbn [fst]. f_equal.
  rewrite combine_same, map_map. cbn [fst snd].
  apply dict_of_distinct. now rewrite map_map.
Qed.

Lemma consensus_review_result (name : string) (config : dict) (prompt : string)
    (models : list string) (question : string) (context : option string) (s : state) :
  get_persona_config w name = Ok (VDict config) ->
  build_system_prompt w name = Ok prompt ->
  match Py.dict_get config "models" with Some m => m | None => default_models end
  = VList (map VStr models) ->
  fst (_consensus_review w name question context s)
  = Ok (py_str w match Py.dict_get config "emoji" with
                 | Some e => e
                 | None => VStr default_emoji
                 end
        ++ " Peer Review (Multi-LLM Consensus)" ++ nl ++ nl
        ++ fold_right append ""
             (map (fun m =>
                     match fst (query_llm w (VStr m) prompt question context s) with
                     | Raise e =>
                         "**" ++ Str.last_segment "/"%char m ++ "**: Error — "
                         ++ exn_str e ++ nl ++ nl
                     | Ok v =>
                         "**" ++ Str.last_segment "/"%char m ++ "**:" ++ nl
                         ++ py_str w v ++ nl ++ nl
                     end)
                  models)
        ++ "---" ++ nl ++ "*Consensus review from multiple perspectives*").
Proof.
  intros Hconfig Hprompt Hmodels.
  unfold _consensus_review, bind, lift. rewrite Hconfig. cbn [Py.get].
  rewrite Hmodels, Hprompt. cbn [Py.iter].
  pose proof (gather_queries w (map VStr models) prompt question context s) as Hgather.
  unfold gather.
  destruct (gather_run _ s) as [responses s'] eqn:Hrun. cbn [fst snd] in *.
  subst responses.
  rewrite consensus_sections_text by (now rewrite !length_map).
  unfold ret. cbn [fst]. f_equal.
  rewrite !append_assoc. do 6 f_equal.
  clear. induction models as [|m models IH]; [reflexivity|].
  cbn [map combine fst snd]. f_equal. exact IH.
Qed.

End Reviews.

(** C3. Failures stay with the task that had them. In [team_review] the
    entry of a persona whose consultation raised is "Error: " followed by
    the text of the exception, and every other entry is the response that
    persona gives when consulted alone. In the consensus review the section
    of a model whose query raised carries the text of the exception, and
    every other section the response that model gives when queried alone.
    Both return their aggregate: no exception of a task escapes. *)
Theorem review_failures_isolated :
  forall w : world,
    (forall (workflows workflow : value) (members : dict) (content : string)
            (context : option string) (s : state),
        get_workflows w = Ok workflows ->
        Py.get workflows "team_review" (VDict []) = Ok workflow ->
        Py.get workflow "personas" (VDict []) = Ok (VDict members) ->
        NoDup (map fst members) ->
        fst (team_review w content context s)
        = Ok (map (fun m =>
                     (fst m,
                      match fst (consult_persona w (fst m)
                                   (py_str w (snd m) ++ ": " ++ content) context s) with
                      | Ok response => response
                      | Raise e => VStr ("Error: " ++ exn_str e)
                      end))
                  members))
    /\ (forall (name : string) (config : dict) (prompt : string) (models : list string)
               (question : string) (context : option string) (s : state),
          get_persona_config w name = Ok (VDict config) ->
          build_system_prompt w name = Ok prompt ->
          match Py.dict_get config "models" with Some m => m | None => default_models end
          = VList (map VStr models) ->
          fst (_consensus_review w name question context s)
          = Ok (py_str w match Py.dict_get config "emoji" with
                         | Some e => e
                         | None => VStr default_emoji
                         end
                ++ " Peer Review (Multi-LLM Consensus)" ++ nl ++ nl
                ++ fold_right append ""
                     (map (fun m =>
                             match fst (query_llm w (VStr m) prompt question context s) with
                             | Raise e =>
                                 "**" ++ Str.last_segment "/"%char m ++ "**: Error — "
                                 ++ exn_str e ++ nl ++ nl
                             | Ok v =>
                                 "**" ++ Str.last_segment "/"%char m ++ "**:" ++ nl
                                 ++ py_str w v ++ nl ++ nl
                             end)
                          models)
                ++ "---" ++ nl ++ "*Consensus review from multiple perspectives*")).
Proof.
  intros w. split.
  - intros workflows workflow members content context s H1 H2 H3 H4.
    now rewrite (team_review_result w content context s H1 H2 H3 H4).
  - intros name config prompt models question context s H1 H2 H3.
    now apply consensus_review_result.
Qed.

Lemma review_failures_isolated_witness :
  fst (team_review Sample.bundled "New payment API" None Sample.fresh)
  = Ok [("auditor", VStr "Error: OpenRouter API error 503: overloaded");
        ("sentinel", VStr "re: Security review: New payment API");
        ("architect", VStr "Error: Unknown persona: architect")]
  /\ fst (_consensus_review Sample.bundled "reviewer" "Review this" None Sample.fresh)
     = Ok ("* Peer Review (Multi-LLM Consensus)" ++ nl ++ nl
           ++ "**claude-3.5-sonnet**:" ++ nl ++ "re: Review this" ++ nl ++ nl
           ++ "**gpt-4o**: Error — OpenRouter API error 503: overloaded" ++ nl ++ nl
           ++ "---" ++ nl ++ "*Consensus review from multiple perspectives*").
Proof.
  destruct (review_failures_isolated Sample.bundled) as [Hteam Hconsensus]. split.
  - erewrite Hteam; cycle 1.
    + by_computation.
    + by_computation.
    + by_computation.
    + repeat constructor; simpl; intuition discriminate.
    + by_computation.
  - erewrite (Hconsensus "reviewer" _ _ ["anthropic/claude-3.5-sonnet"; "openai/gpt-4o"]);
      cycle 1.
    + by_computation.
    + by_computation.
    + by_computation.
    + by_computation.
Defined.

(** ** The system prompt *)

Section Prompt.

Variable w : world.

Lemma join_head (sep first : string) (rest : list string) :
  Str.join sep (first :: rest)
  = first ++ match rest with [] => "" | _ => sep ++ Str.join sep rest end.
Proof. destruct rest; simpl; [now rewrite append_empty_r | reflexivity]. Qed.

(** Formatted governance is the placeholder only when nothing was loaded. *)
Lemma governance_text_placeholder (governance : dict) :
  String.eqb (format_governance_for_prompt w governance) no_governance
  = match governance with [] => true | _ => false end.
Proof. destruct governance as [|[filename content] rest]; reflexivity. Qed.

Lemma standards_text_placeholder (standards : dict) (text : string) :
  format_standards_for_prompt w standards = Ok text ->
  String.eqb text no_standards = match standards with [] => true | _ => false end.
Proof.
  destruct standards as [|[standard_id content] rest]; intros Htext.
  - now injection Htext as <-.
  - unfold format_standards_for_prompt in Htext.
    destruct (standard_sections w ((standard_id, content) :: rest)) as [sections|e] eqn:Hs;
      [|discriminate].
    simpl in Htext. injection Htext as <-.
    cbn [standard_sections] in Hs.
    repeat match type of Hs with
           | rbind ?c _ = _ => destruct c; [|discriminate]; cbn [rbind] in Hs
           end.
    injection Hs as <-. rewrite join_head. reflexivity.
Qed.

End Prompt.

(** C5. For a persona with a configuration, whose character, domain and
    traits are set and whose governance and standards load, the system
    prompt is one string made of, in this order: the header with character
    and domain, the traits, the governance section if any governance was
    loaded, the standards section if any standard applies, and the fixed
    response style. A section for which nothing was loaded is left out. *)
Theorem build_system_prompt_layout :
  forall (w : world) (name : string) (cfg : value) (gov std : dict)
         (character domain traits : value) (mode std_text : string),
    get_persona_config w name = Ok cfg ->
    Py.truthy cfg = true ->
    Py.getitem cfg "character" = Ok character ->
    Py.getitem cfg "domain" = Ok domain ->
    Py.getitem cfg "traits" = Ok traits ->
    get_persona_governance w name = Ok gov ->
    get_persona_standards w name = Ok std ->
    format_standards_for_prompt w std = Ok std_text ->
    (gov <> [] -> Py.get cfg "governance_mode" (VStr "standard") = Ok (VStr mode)) ->
    build_system_prompt w name
    = Ok ("You are " ++ py_str w character ++ ", providing " ++ py_str w domain
          ++ " guidance." ++ nl ++ nl
          ++ "CHARACTER TRAITS:" ++ nl ++ py_str w traits ++ nl ++ nl
          ++ match gov with
             | [] => ""
             | _ => "ORGANIZATIONAL GOVERNANCE (" ++ Str.upper mode ++ " enforcement):" ++ nl
                    ++ format_governance_for_prompt w gov ++ nl ++ nl
             end
          ++ match std with
             | [] => ""
             | _ => "REGULATORY STANDARDS (MUST ENFORCE):" ++ nl ++ std_text ++ nl ++ nl
             end
          ++ response_style).
Proof.
  intros w name cfg gov std character domain traits mode std_text
         Hconfig Htruthy Hcharacter Hdomain Htraits Hgov Hstd Htext Hmode.
  unfold build_system_prompt.
  erewrite load_all_configured by eassumption.
  rewrite Hgov, Hstd. cbn [rbind]. rewrite Htext. cbn [rbind].
  cbn [config governance_text standards_text].
  rewrite Hcharacter, Hdomain, Htraits. cbn [rbind].
  rewrite governance_text_placeholder, (standards_text_placeholder w std Htext).
  destruct gov as [|g gov]; destruct std as [|t std]; cbn [negb rbind].
  - now rewrite !append_assoc.
  - now rewrite !append_assoc.
  - rewrite Hmode by discriminate. cbn [rbind Py.upper]. now rewrite !append_assoc.
  - rewrite Hmode by discriminate. cbn [rbind Py.upper]. now rewrite !append_assoc.
Qed.

Lemma build_system_prompt_layout_witness :
  build_system_prompt Sample.bundled "auditor"
  = Ok ("You are The Auditor, providing cost guidance." ++ nl ++ nl
        ++ "CHARACTER TRAITS:" ++ nl ++ "Frugal" ++ nl ++ nl
        ++ response_style)
  /\ build_system_prompt Sample.bundled "sentinel"
     = Ok ("You are The Sentinel, providing security guidance." ++ nl ++ nl
           ++ "CHARACTER TRAITS:" ++ nl ++ "Vigilant and precise" ++ nl ++ nl
           ++ "ORGANIZATIONAL GOVERNANCE (STRICT enforcement):" ++ nl
           ++ "# security.yaml" ++ nl ++ nl ++ "<yaml>" ++ nl ++ nl
           ++ "REGULATORY STANDARDS (MUST ENFORCE):" ++ nl
           ++ Str.join nl
                ("# OWASP Top 10 (v2021)" :: (nl ++ "## injection")
                 :: map (fun n => "- [A03-" ++ Str.of_Z (Z.of_nat n) ++ "] (high) Validate input")
                        (seq 1 10))
           ++ nl ++ nl
           ++ response_style).
Proof.
  split.
  - erewrite (build_system_prompt_layout Sample.bundled "auditor") with (mode := "standard");
      cycle 1.
    + by_computation.
    + by_computation.
    + by_computation.
    + by_computation.
    + by_computation.
    + by_computation.
    + by_computation.
    + by_computation.
    + intros _. by_computation.
    + by_computation.
  - erewrite (build_system_prompt_layout Sample.bundled "sentinel") with (mode := "strict");
      cycle 1.
    + by_computation.
    + by_computation.
    + by_computation.
    + by_computation.
    + by_computation.
    + by_computation.
    + by_computation.
    + by_computation.
    + intros _. by_computation.
    + vm_compute. reflexivity.
Defined.

(** ** Standards in the prompt *)

Section Standards.

Variable w : world.

Lemma cap_controls_slice (v : value) :
  Py.slice_to 10 (cap_controls v) = Py.slice_to 10 v.
Proof.
  destruct v; try reflexivity. cbn [cap_controls Py.slice_to].
  now rewrite firstn_firstn.
Qed.

Lemma dict_get_map_at (k0 : string) (f : value -> value) (d : dict) (k : string) :
  Py.dict_get (map_at k0 f d) k
  = if String.eqb k k0 then option_map f (Py.dict_get d k) else Py.dict_get d k.
Proof.
  induction d as [|[k' v] d IH]; cbn [map_at map fst snd Py.dict_get option_map].
  - now destruct (String.eqb k k0).
  - fold (map_at k0 f d).
    destruct (String.eqb_spec k' k0) as [->|Hne]; cbn [Py.dict_get].
    + destruct (String.eqb_spec k0 k) as [<-|Hk]; [now rewrite String.eqb_refl|].
      exact IH.
    + destruct (String.eqb_spec k' k) as [->|Hk]; [|exact IH].
      apply String.eqb_neq in Hne. now rewrite Hne.
Qed.

Lemma cap_domain_controls (domain_content : value) :
  (all <- Py.get (cap_domain domain_content) "controls" (VList []) ;; Py.slice_to 10 all)%py
  = (all <- Py.get domain_content "controls" (VList []) ;; Py.slice_to 10 all)%py.
Proof.
  destruct domain_content; try reflexivity. cbn [cap_domain Py.get rbind].
  rewrite dict_get_map_at. cbn [String.eqb Ascii.eqb Bool.eqb].
  destruct (Py.dict_get d "controls"); cbn [option_map];
    [apply cap_controls_slice | reflexivity].
Qed.

Lemma rbind_assoc {A B C} (c : result A) (f : A -> result B) (g : B -> result C) :
  rbind (rbind c f) g = rbind c (fun a => rbind (f a) g).
Proof. now destruct c. Qed.

Lemma domain_sections_capped (domains : dict) :
  domain_sections w (map (fun nd => (fst nd, cap_domain (snd nd))) domains)
  = domain_sections w domains.
Proof.
  induction domains as [|[domain_name domain_content] domains IH]; [reflexivity|].
  cbn [map fst snd domain_sections]. rewrite IH.
  rewrite <- !rbind_assoc. now rewrite cap_domain_controls.
Qed.

Lemma standard_sections_capped (standards : dict) :
  standard_sections w (cap_standards standards) = standard_sections w standards.
Proof.
  induction standards as [|[standard_id content] standards IH]; [reflexivity|].
  cbn [cap_standards map fst snd standard_sections]. fold (cap_standards standards).
  rewrite IH. destruct content; try reflexivity.
  cbn [cap_standard Py.get]. rewrite !dict_get_map_at.
  cbn [String.eqb Ascii.eqb Bool.eqb rbind].
  destruct (Py.dict_get d "domains") as [[| | | | |ds]|]; try reflexivity.
  cbn [option_map cap_domains].
  repeat match goal with
         | |- rbind ?c _ = rbind ?c _ => destruct c; [|reflexivity]; cbn [rbind]
         end.
  cbn [Py.items rbind]. now rewrite domain_sections_capped.
Qed.

Lemma format_standards_capped (standards : dict) :
  format_standards_for_prompt w (cap_standards standards)
  = format_standards_for_prompt w standards.
Proof.
  unfold format_standards_for_prompt. rewrite standard_sections_capped.
  now destruct standards.
Qed.

Lemma control_lines_in_order (controls : list value) :
  forall lines,
    control_lines w controls = Ok lines ->
    Forall2 (fun control line => control_line w control = Ok line) controls lines.
Proof.
  induction controls as [|c controls IH]; intros lines Hlines; simpl in Hlines.
  - injection Hlines as <-. constructor.
  - destruct (control_line w c) as [line|e] eqn:Hline; [|discriminate].
    simpl in Hlines.
    destruct (control_lines w controls) as [rest|e]; [|discriminate].
    injection Hlines as <-. constructor; [exact Hline | now apply IH].
Qed.

Lemma domain_sections_first_ten (domain_name : string) (fields : dict)
    (controls : list value) (rest : dict) :
  Py.dict_get fields "controls" = Some (VList controls) ->
  domain_sections w ((domain_name, VDict fields) :: rest)
  = (lines <- control_lines w (firstn 10 controls) ;;
     more <- domain_sections w rest ;;
     Ok ((nl ++ "## " ++ domain_name) :: (lines ++ more)%list))%py.
Proof.
  intros Hcontrols. cbn [domain_sections Py.get]. now rewrite Hcontrols.
Qed.

End Standards.

Lemma load_all_standards_text (w : world) (name : string) (data : persona_data) :
  load_all_for_persona w name = Ok (Some data) ->
  get_persona_standards w name = Ok (standards data)
  /\ format_standards_for_prompt w (standards data) = Ok (standards_text data).
Proof.
  unfold load_all_for_persona. intros Hdata.
  destruct (get_persona_config w name) as [cfg|e]; [|discriminate]. cbn [rbind] in Hdata.
  destruct (negb (Py.truthy cfg)); [discriminate|].
  destruct (get_persona_governance w name) as [gov|e]; [|discriminate].
  cbn [rbind] in Hdata.
  destruct (get_persona_standards w name) as [std|e]; [|discriminate].
  cbn [rbind] in Hdata.
  destruct (format_standards_for_prompt w std) as [text|e] eqn:Htext; [|discriminate].
  cbn [rbind] in Hdata. injection Hdata as <-. now split.
Qed.

(** C9. The formatted standards show, for each domain of each standard,
    the lines of its first ten controls in their order and of no other:
    cutting every list of controls after its tenth element changes nothing
    in the text, and that text is what a system prompt carries. *)
Theorem standards_prompt_first_ten :
  forall w : world,
    (forall standards : dict,
        format_standards_for_prompt w (cap_standards standards)
        = format_standards_for_prompt w standards)
    /\ (forall (domain_name : string) (fields : dict) (controls : list value) (rest : dict),
          Py.dict_get fields "controls" = Some (VList controls) ->
          domain_sections w ((domain_name, VDict fields) :: rest)
          = (lines <- control_lines w (firstn 10 controls) ;;
             more <- domain_sections w rest ;;
             Ok ((nl ++ "## " ++ domain_name) :: (lines ++ more)%list))%py)
    /\ (forall (controls : list value) (lines : list string),
          control_lines w controls = Ok lines ->
          Forall2 (fun control line => control_line w control = Ok line) controls lines)
    /\ (forall (name : string) (data : persona_data),
          load_all_for_persona w name = Ok (Some data) ->
          format_standards_for_prompt w (cap_standards (standards data))
          = Ok (standards_text data)).
Proof.
  intros w. split; [apply format_standards_capped|].
  split; [apply domain_sections_first_ten|].
  split; [apply control_lines_in_order|].
  intros name data Hdata. rewrite format_standards_capped.
  now apply (load_all_standards_text w name).
Qed.

Lemma standards_prompt_first_ten_witness :
  domain_sections Sample.bundled [("injection", Sample.injection_doc)]
  = Ok ((nl ++ "## injection")
        :: map (fun n => "- [A03-" ++ Str.of_Z (Z.of_nat n) ++ "] (high) Validate input")
               (seq 1 10))
  /\ List.length (map Sample.control (seq 1 12)) = 12.
Proof.
  destruct (standards_prompt_first_ten Sample.bundled) as (_ & Hdomain & _).
  split; [|reflexivity].
  unfold Sample.injection_doc.
  rewrite (Hdomain "injection" _ (map Sample.control (seq 1 12)) []); by_computation.
Defined.

(** ** The configuration root *)

Section JoinedPaths.

Lemma steps_up_app (a b : path) : steps_up (a ++ b)%list = steps_up a || steps_up b.
Proof. apply existsb_app. Qed.

(** A name that stays inside adds its parts, none of which steps up. *)
Lemma path_join_inside (p : path) (name : string) :
  inside name = true ->
  path_join p name = (p ++ path_parts name)%list /\ steps_up (path_parts name) = false.
Proof.
  unfold inside, path_join, steps_up. intros H.
  apply andb_true_iff in H as [Hrel Hdown].
  apply negb_true_iff in Hrel, Hdown. now rewrite Hrel.
Qed.

(** A name of one part joins as the names written in the code do. *)
Lemma path_join_one_part (p : path) (name : string) :
  is_absolute name = false -> path_parts name = [name] ->
  path_join p name = path_div p name.
Proof. intros Hrel Hparts. unfold path_join, path_div. now rewrite Hrel, Hparts. Qed.

Example path_join_literal (p : path) :
  path_join p "security.yaml" = path_div p "security.yaml".
Proof. reflexivity. Qed.

Example path_join_nested : path_join ["a"] "b//c/./d/" = ["a"; "b"; "c"; "d"].
Proof. reflexivity. Qed.

Example path_join_up : path_join ["a"; "b"] "../c" = ["a"; "b"; ".."; "c"].
Proof. reflexivity. Qed.

Example path_join_absolute : path_join ["a"] "/etc/x" = ["etc"; "x"].
Proof. reflexivity. Qed.

Example path_join_empty : path_join ["a"] "" = ["a"] /\ path_join ["a"] "." = ["a"].
Proof. split; reflexivity. Qed.

Lemma names_inside_all (files : value) (names : list value) :
  names_inside files -> Py.iter files = Ok names -> Forall inside_value names.
Proof.
  intros Hinside Hiter. apply Forall_forall. intros [| | |f| |] Hin; try exact I.
  exact (Hinside names f Hiter Hin).
Qed.

End JoinedPaths.

Section ConfigRoot.

Local Open Scope path_scope.

Variables w w' : world.
Variable root : path.
Hypothesis agree : agree_inside root w w'.

Lemma exists_agree (rest : path) :
  steps_up rest = false -> exists_ w (root ++ rest)%list = exists_ w' (root ++ rest)%list.
Proof. intros Hp. unfold exists_. now rewrite (proj2 agree rest Hp). Qed.

Lemma load_yaml_agree (rest : path) :
  steps_up rest = false -> load_yaml w (root ++ rest)%list = load_yaml w' (root ++ rest)%list.
Proof.
  intros Hp. unfold load_yaml. rewrite (exists_agree rest Hp), (proj2 agree rest Hp).
  destruct (negb (exists_ w' (root ++ rest)%list)); [reflexivity|].
  destruct (fs w' (root ++ rest)%list) as [[|content]|]; try reflexivity.
  now rewrite (proj1 agree content).
Qed.

Lemma load_governance_from_agree (dir : path) (files : list value) :
  steps_up dir = false -> Forall inside_value files ->
  forall governance,
    load_governance_from w (root ++ dir)%list files governance
    = load_governance_from w' (root ++ dir)%list files governance.
Proof.
  intros Hdir Hfiles.
  induction Hfiles as [|filename files Hname _ IH]; intros governance; [reflexivity|].
  cbn [load_governance_from]. destruct filename; try reflexivity.
  cbn [div_value rbind fst snd]. destruct (@path_join_inside (root ++ dir)%list s Hname) as [-> Hs].
  rewrite <- app_assoc.
  rewrite exists_agree, load_yaml_agree by (now rewrite steps_up_app, Hdir, Hs).
  destruct (exists_ w' (root ++ dir ++ path_parts s)%list); [|apply IH].
  destruct (load_yaml w' (root ++ dir ++ path_parts s)%list); [apply IH | reflexivity].
Qed.

Lemma load_domains_agree (dir : path) (files : list value) :
  steps_up dir = false -> Forall inside_value files ->
  forall domains,
    load_domains w (root ++ dir)%list files domains
    = load_domains w' (root ++ dir)%list files domains.
Proof.
  intros Hdir Hfiles.
  induction Hfiles as [|filename files Hname _ IH]; intros domains; [reflexivity|].
  cbn [load_domains]. destruct filename; try reflexivity.
  cbn [div_value rbind fst snd]. destruct (@path_join_inside (root ++ dir)%list s Hname) as [-> Hs].
  rewrite <- app_assoc.
  rewrite exists_agree, load_yaml_agree by (now rewrite steps_up_app, Hdir, Hs).
  destruct (exists_ w' (root ++ dir ++ path_parts s)%list); [|apply IH].
  destruct (load_yaml w' (root ++ dir ++ path_parts s)%list); [apply IH | reflexivity].
Qed.

Hypothesis same_root : _find_config_root w = root /\ _find_config_root w' = root.

Lemma get_paths_root :
  _get_paths w = (root, root / "governance", root / "standards", root / "personas")
  /\ _get_paths w' = (root, root / "governance", root / "standards", root / "personas").
Proof. unfold _get_paths. now rewrite (proj1 same_root), (proj2 same_root). Qed.

Lemma load_personas_agree : load_personas w = load_personas w'.
Proof.
  unfold load_personas. rewrite (proj1 get_paths_root), (proj2 get_paths_root).
  unfold path_div. rewrite <- app_assoc. now apply load_yaml_agree.
Qed.

Lemma load_governance_agree (files : value) :
  names_inside files -> load_governance w files = load_governance w' files.
Proof.
  intros Hinside. unfold load_governance.
  rewrite (proj1 get_paths_root), (proj2 get_paths_root).
  destruct (Py.iter files) as [names|e] eqn:Hiter; [|reflexivity]. cbn [rbind].
  apply load_governance_from_agree; [reflexivity|]. now apply names_inside_all with files.
Qed.

Lemma load_standard_agree (standard_id : string) :
  inside standard_id = true -> names_inside (manifest_files w standard_id) ->
  load_standard w (VStr standard_id) = load_standard w' (VStr standard_id).
Proof.
  intros Hid Hfiles. unfold manifest_files in Hfiles. unfold load_standard.
  rewrite (proj1 get_paths_root) in *. rewrite (proj2 get_paths_root).
  cbn [div_value rbind fst snd].
  destruct (@path_join_inside (root / "standards") standard_id Hid) as [Hjoin Hs].
  rewrite Hjoin in *. unfold path_div in *. rewrite <- !app_assoc in *.
  assert (Hdir : steps_up (["standards"] ++ path_parts standard_id)%list = false)
    by now rewrite steps_up_app, Hs.
  assert (Hmanifest : steps_up (["standards"] ++ path_parts standard_id ++ ["manifest.yaml"])%list
                      = false)
    by now rewrite !steps_up_app, Hs.
  rewrite (exists_agree _ Hdir), <- (load_yaml_agree _ Hmanifest).
  destruct (negb (exists_ w' (root ++ ["standards"] ++ path_parts standard_id)%list));
    [reflexivity|].
  destruct (load_yaml w (root ++ ["standards"] ++ path_parts standard_id ++ ["manifest.yaml"])%list)
    as [manifest|e]; [|reflexivity].
  cbn [rbind] in *. destruct (negb (Py.truthy manifest)); [reflexivity|].
  destruct (Py.get manifest "standard" (VDict [])) as [std|e]; [|reflexivity].
  cbn [rbind] in *. destruct (Py.get std "files" (VList [])) as [files|e]; [|reflexivity].
  cbn [rbind] in *. destruct (Py.iter files) as [names|e] eqn:Hiter; [|reflexivity].
  cbn [rbind].
  now rewrite (load_domains_agree _ Hdir (names_inside_all Hfiles Hiter)).
Qed.

End ConfigRoot.


Lemma lookup_app (files more : list (path * node)) (p : path) :
  Sample.lookup (files ++ more) p
  = match Sample.lookup files p with
    | Some n => Some n
    | None => Sample.lookup more p
    end.
Proof.
  induction files as [|[q n] files IH]; simpl; [reflexivity|].
  now destruct (Sample.path_eqb q p).
Qed.



(** * Beyond the claims *)

(** ** Routing and the case of letters *)

Section Case.

Lemma lower_char_not_upper (c : ascii) : Str.is_upper (Str.lower_char c) = false.
Proof.
  destruct c as [b0 b1 b2 b3 b4 b5 b6 b7].
  destruct b0, b1, b2, b3, b4, b5, b6, b7; reflexivity.
Qed.

Lemma lower_upper_char (c : ascii) : Str.lower_char (Str.upper_char c) = Str.lower_char c.
Proof.
  destruct c as [b0 b1 b2 b3 b4 b5 b6 b7].
  destruct b0, b1, b2, b3, b4, b5, b6, b7; reflexivity.
Qed.

Lemma lower_lower_char (c : ascii) : Str.lower_char (Str.lower_char c) = Str.lower_char c.
Proof.
  destruct c as [b0 b1 b2 b3 b4 b5 b6 b7].
  destruct b0, b1, b2, b3, b4, b5, b6, b7; reflexivity.
Qed.

Lemma lower_upper (s : string) : Str.lower (Str.upper s) = Str.lower s.
Proof.
  unfold Str.lower, Str.upper.
  induction s as [|c s IH]; cbn [Str.smap]; [reflexivity|].
  now rewrite lower_upper_char, IH.
Qed.

Lemma lower_lower (s : string) : Str.lower (Str.lower s) = Str.lower s.
Proof.
  unfold Str.lower.
  induction s as [|c s IH]; cbn [Str.smap]; [reflexivity|].
  now rewrite lower_lower_char, IH.
Qed.

Lemma lower_has_no_upper (s : string) : Chars.any Str.is_upper (Str.lower s) = false.
Proof.
  unfold Str.lower.
  induction s as [|c s IH]; cbn [Str.smap Chars.any]; [reflexivity|].
  now rewrite lower_char_not_upper, IH.
Qed.

Lemma any_append (p : ascii -> bool) (a b : string) :
  Chars.any p (a ++ b) = Chars.any p a || Chars.any p b.
Proof.
  induction a as [|c a IH]; simpl; [reflexivity|].
  now rewrite IH, orb_assoc.
Qed.

(** A text with an uppercase letter does not occur in a lowercased one. *)
Lemma upper_never_in_lower (k q : string) :
  Chars.any Str.is_upper k = true -> Str.str_in k (Str.lower q) = false.
Proof.
  intros Hupper. apply str_in_absent. intros [a [b Hq]].
  pose proof (lower_has_no_upper q) as Hnone.
  rewrite Hq, !any_append, Hupper in Hnone.
  now rewrite orb_true_r in Hnone.
Qed.

End Case.

Section RoutingEdges.

Variable w : world.

Lemma route_keywords_drop (q : string) (before after : dict) (keyword : string)
    (persona : value) :
  Str.str_in keyword q = false ->
  route_keywords q (before ++ (keyword, persona) :: after)%list
  = route_keywords q (before ++ after)%list.
Proof.
  intros Hk. induction before as [|[k p] before IH]; simpl.
  - now rewrite Hk.
  - now rewrite IH.
Qed.

End RoutingEdges.

(** X1. A routing rule whose keyword has an uppercase ASCII letter is dead:
    the question is lowercased before the test and the keyword is not, so
    the rule matches no question, and every question is routed as if the
    rule were not there. *)
Theorem route_question_uppercase_rule_dead :
  forall (w : world) (rules : value) (before after : dict) (keyword : string)
         (persona : value),
    get_routing_rules w = Ok rules ->
    Py.get rules "keywords" (VDict []) = Ok (VDict (before ++ (keyword, persona) :: after)%list) ->
    Chars.any Str.is_upper keyword = true ->
    forall question : string,
      Str.str_in keyword (Str.lower question) = false
      /\ route_question w question
         = route_keywords (Str.lower question) (before ++ after)%list.
Proof.
  intros w rules before after keyword persona Hrules Hkeywords Hupper question.
  pose proof (upper_never_in_lower keyword question Hupper) as Hdead.
  split; [exact Hdead|].
  rewrite (@route_question_loop w question rules _ Hrules Hkeywords).
  now apply route_keywords_drop.
Qed.

Lemma route_question_uppercase_rule_dead_witness :
  route_question Demo.shouting "Is this SECURITY setting safe?" = Ok (VStr "reviewer")
  /\ route_question Demo.shouting "Security and cost" = Ok (VStr "auditor").
Proof.
  split.
  - edestruct (route_question_uppercase_rule_dead Demo.shouting)
      with (before := @nil (string * value)) (keyword := "Security")
           (persona := VStr "sentinel") (after := [("cost", VStr "auditor")])
           (question := "Is this SECURITY setting safe?") as [_ Hroute];
      [by_computation | by_computation | by_computation |].
    rewrite Hroute. by_computation.
  - edestruct (route_question_uppercase_rule_dead Demo.shouting)
      with (before := @nil (string * value)) (keyword := "Security")
           (persona := VStr "sentinel") (after := [("cost", VStr "auditor")])
           (question := "Security and cost") as [_ Hroute];
      [by_computation | by_computation | by_computation |].
    rewrite Hroute. by_computation.
Defined.

(** X2. Routing does not depend on the case of the question: a question,
    its uppercased and its lowercased form are routed alike. *)
Theorem route_question_ignores_case :
  forall (w : world) (question : string),
    route_question w (Str.upper question) = route_question w question
    /\ route_question w (Str.lower question) = route_question w question.
Proof.
  intros w question. unfold route_question.
  now rewrite lower_upper, lower_lower.
Qed.

(** X3. Where the personas document has no routing rules (the file is
    missing, or it has no "routing" entry, or the entry has no "keywords"),
    every question is routed to "reviewer". *)
Theorem route_question_without_rules :
  forall (w : world) (doc : dict),
    load_personas w = Ok (VDict doc) ->
    (Py.dict_get doc "routing" = None
     \/ exists routing, Py.dict_get doc "routing" = Some (VDict routing)
                        /\ Py.dict_get routing "keywords" = None) ->
    forall question : string, route_question w question = Ok (VStr "reviewer").
Proof.
  intros w doc Hdoc Hnone question.
  unfold route_question, get_routing_rules. rewrite Hdoc. cbn [rbind Py.get].
  destruct Hnone as [Hnone | (routing & Hrouting & Hnone)].
  - now rewrite Hnone.
  - rewrite Hrouting. cbn [rbind Py.get]. now rewrite Hnone.
Qed.

Lemma route_question_without_rules_witness :
  load_personas Demo.empty = Ok (VDict [])
  /\ route_question Demo.empty "Is this secure?" = Ok (VStr "reviewer").
Proof.
  split; [by_computation|].
  apply (route_question_without_rules Demo.empty (doc := [])); [by_computation | now left].
Defined.

(** ** The team review without a workflow *)

(** X4. Where the personas document defines no team review (no
    "workflows" entry, or no "team_review" in it, or no "personas" in
    that), [team_review] returns the empty result and does nothing else: no
    persona is consulted, no request is sent and no API key is looked up. *)
Theorem team_review_without_workflow :
  forall (w : world) (doc : dict),
    load_personas w = Ok (VDict doc) ->
    (Py.dict_get doc "workflows" = None
     \/ (exists workflows,
           Py.dict_get doc "workflows" = Some (VDict workflows)
           /\ (Py.dict_get workflows "team_review" = None
               \/ exists workflow,
                    Py.dict_get workflows "team_review" = Some (VDict workflow)
                    /\ Py.dict_get workflow "personas" = None))) ->
    forall (content : string) (context : option string) (s : state),
      team_review w content context s = (Ok [], s).
Proof.
  intros w doc Hdoc Hnone content context s.
  unfold team_review, bind, lift. rewrite Hdoc. cbn [Py.get].
  destruct Hnone as [Hnone | (workflows & Hworkflows & Hnone)].
  - rewrite Hnone. reflexivity.
  - rewrite Hworkflows. cbn [Py.get].
    destruct Hnone as [Hnone | (workflow & Hworkflow & Hnone)].
    + rewrite Hnone. reflexivity.
    + rewrite Hworkflow. cbn [Py.get]. rewrite Hnone. reflexivity.
Qed.

Lemma team_review_without_workflow_witness :
  team_review Demo.shouting "New payment API" None Sample.fresh = (Ok [], Sample.fresh).
Proof.
  apply (team_review_without_workflow Demo.shouting (doc := match Demo.shouting_doc with
                                                            | VDict d => d
                                                            | _ => []
                                                            end));
    [by_computation | now left].
Defined.

(** ** The cached API key *)

Lemma post_then_read_keeps_key (w : world) (r : request) (k : http_outcome -> M value)
    (s : state) :
  (forall out s0, _API_KEY (snd (k out s0)) = _API_KEY s0) ->
  _API_KEY (snd (bind (post w r) k s)) = _API_KEY s.
Proof. intros Hk. unfold bind, post. cbn [fst snd]. now rewrite Hk. Qed.

Lemma query_llm_cache (w : world) (model : value) (system_prompt user_prompt : string)
    (context : option string) (s : state) :
  _API_KEY (snd (query_llm w model system_prompt user_prompt context s))
  = _API_KEY (snd (ensure_api_key w s)).
Proof.
  unfold query_llm, bind at 1.
  destruct (ensure_api_key w s) as [[key|e] s1]; [|reflexivity].
  cbn [snd]. apply post_then_read_keeps_key.
  intros [msg|status text [msg|body]] s0; try reflexivity;
    destruct (negb (status =? 200)%Z); reflexivity.
Qed.

(** X5. The API key is looked up until it is found and then no more. A
    query that finds a key leaves it in [_API_KEY], and every later query
    sends that key whatever the environment has become; a query that finds
    none leaves the state as it was, so that the next one looks again. *)
Theorem api_key_looked_up_once :
  forall (w : world) (model : value) (system_prompt user_prompt : string)
         (context : option string) (s : state),
    (forall key,
        api_key_of w s = Ok key -> key <> "" ->
        _API_KEY (snd (query_llm w model system_prompt user_prompt context s)) = Some key
        /\ forall w' : world,
             api_key_of w' (snd (query_llm w model system_prompt user_prompt context s))
             = Ok key)
    /\ (forall e,
          api_key_of w s = Raise e ->
          snd (query_llm w model system_prompt user_prompt context s) = s).
Proof.
  intros w model system_prompt user_prompt context s. split.
  - intros key Hkey Hne.
    assert (Hcache : _API_KEY (snd (query_llm w model system_prompt user_prompt context s))
                     = Some key).
    { rewrite query_llm_cache. unfold api_key_of in Hkey. unfold ensure_api_key.
      destruct (some_text (_API_KEY s)) eqn:Hs.
      - cbn [snd]. destruct (_API_KEY s) as [k|]; [|discriminate].
        cbn [or_empty] in Hkey. now injection Hkey as ->.
      - rewrite Hkey. reflexivity. }
    split; [exact Hcache|]. intros w'. unfold api_key_of. rewrite Hcache.
    cbn [some_text or_empty]. destruct key; [contradiction | reflexivity].
  - intros e Hkey.
    now rewrite (@query_llm_no_key w model system_prompt user_prompt context s e Hkey).
Qed.

Lemma api_key_looked_up_once_witness :
  fst (query_llm Sample.keyless (VStr "anthropic/claude-3.5-sonnet") "system" "again" None
         (snd (query_llm Sample.bundled (VStr "anthropic/claude-3.5-sonnet") "system" "hello"
                 None Sample.fresh)))
  = Ok (VStr "re: again")
  /\ snd (query_llm Sample.keyless (VStr "anthropic/claude-3.5-sonnet") "system" "hello" None
            Sample.fresh) = Sample.fresh.
Proof.
  destruct (api_key_looked_up_once Sample.bundled (VStr "anthropic/claude-3.5-sonnet")
              "system" "hello" None Sample.fresh) as [Hfound _].
  destruct (Hfound "sk-test" eq_refl) as [_ Hlater]; [discriminate|].
  destruct (api_key_looked_up_once Sample.keyless (VStr "anthropic/claude-3.5-sonnet")
              "system" "hello" None Sample.fresh) as [_ Hnone].
  split; [|now apply (Hnone _ eq_refl)].
  destruct (@query_llm_with_key Sample.keyless (VStr "anthropic/claude-3.5-sonnet") "system"
              "again" None _ "sk-test" (Hlater Sample.keyless)) as (_ & _ & ->).
  by_computation.
Defined.

(** ** What a consultation sends *)

Section Requests.

Variable w : world.

(** The user turn of a request. *)
Lemma gather_queries_log (system_prompt question : string) (context : option string)
    (key : string) (models : list value) :
  forall s,
    api_key_of w s = Ok key ->
    http_log (snd (gather_run
                     (map (fun m => query_llm w m system_prompt question context) models) s))
    = (http_log s
       ++ map (fun m =>
                 mk_request key m system_prompt
                   (if some_text context
                    then "Context: " ++ or_empty context ++ nl ++ nl ++ question
                    else question))
              models)%list.
Proof.
  induction models as [|m models IH]; intros s Hkey; cbn [map gather_run].
  - now rewrite app_nil_r.
  - destruct (@query_llm_with_key w m system_prompt question context s key Hkey)
      as (Hlog & _ & _).
    destruct (key_only_query_llm w m system_prompt question context s) as [Hsame _].
    destruct (query_llm w m system_prompt question context s) as [r s1].
    cbn [fst snd] in *.
    assert (Hkey1 : api_key_of w s1 = Ok key) by (unfold same_key in Hsame; congruence).
    specialize (IH s1 Hkey1).
    destruct (gather_run _ s1) as [rs s2]. cbn [snd] in *.
    now rewrite IH, Hlog, <- app_assoc.
Qed.

Lemma consult_persona_configured (name question : string) (context : option string)
    (cfg : value) (prompt : string) (s : state) :
  get_persona_config w name = Ok cfg -> Py.truthy cfg = true ->
  build_system_prompt w name = Ok prompt ->
  consult_persona w name question context s
  = bind (lift (Py.get cfg "model" (VStr "anthropic/claude-3.5-sonnet")))
      (fun model =>
         if Py.eq_str model "consensus"
         then bind (_consensus_review w name question context) (fun text => ret (VStr text))
         else query_llm w model prompt question context)
      (mk_state (_API_KEY s) (http_log s)
                (consult_log s ++ [mk_consultation name question context])%list).
Proof.
  intros Hcfg Htruthy Hprompt.
  unfold consult_persona, bind at 1, note_consultation. cbn [fst snd].
  unfold bind at 1, lift at 1. rewrite Hcfg, Htruthy. cbn [negb].
  unfold bind at 1, lift at 1. now rewrite Hprompt.
Qed.

End Requests.

(** X6. Consulting a configured persona whose model is not "consensus"
    sends exactly one request: with the cached or found API key, the
    persona's model (anthropic/claude-3.5-sonnet when none is set), the
    system prompt built for the persona, and the question, preceded by the
    context when there is one. The answer is that of this query. When the
    prompt cannot be built, its error is raised and nothing is sent. *)
Theorem consult_persona_single_request :
  forall (w : world) (name question : string) (context : option string) (cfg : dict)
         (s : state),
    get_persona_config w name = Ok (VDict cfg) -> cfg <> [] ->
    (forall prompt key model,
        build_system_prompt w name = Ok prompt ->
        api_key_of w s = Ok key ->
        match Py.dict_get cfg "model" with
        | Some m => m
        | None => VStr "anthropic/claude-3.5-sonnet"
        end = model ->
        Py.eq_str model "consensus" = false ->
        http_log (snd (consult_persona w name question context s))
        = (http_log s
           ++ [mk_request key model prompt
                 (if some_text context
                  then "Context: " ++ or_empty context ++ nl ++ nl ++ question
                  else question)])%list
        /\ fst (consult_persona w name question context s)
           = fst (query_llm w model prompt question context s))
    /\ (forall e,
          build_system_prompt w name = Raise e ->
          fst (consult_persona w name question context s) = Raise e
          /\ http_log (snd (consult_persona w name question context s)) = http_log s).
Proof.
  intros w name question context cfg s Hcfg Hne.
  assert (Htruthy : Py.truthy (VDict cfg) = true) by (now destruct cfg).
  split.
  - intros prompt key model Hprompt Hkey Hmodel Hsingle.
    set (s0 := mk_state (_API_KEY s) (http_log s)
                 (consult_log s ++ [mk_consultation name question context])%list).
    assert (Hrun : consult_persona w name question context s
                   = query_llm w model prompt question context s0).
    { rewrite (consult_persona_configured w name question context s Hcfg Htruthy Hprompt).
      unfold bind, lift. cbn [Py.get]. rewrite Hmodel. cbn beta iota.
      now rewrite Hsingle. }
    rewrite Hrun.
    assert (Hkey0 : api_key_of w s0 = Ok key) by exact Hkey.
    destruct (@query_llm_with_key w model prompt question context s0 key Hkey0)
      as (Hlog & _ & Hres).
    destruct (@query_llm_with_key w model prompt question context s key Hkey)
      as (_ & _ & Hres').
    split; [exact Hlog | exact (eq_trans Hres (eq_sym Hres'))].
  - intros e Hprompt.
    assert (Hrun : consult_persona w name question context s
                   = (Raise e,
                      mk_state (_API_KEY s) (http_log s)
                        (consult_log s ++ [mk_consultation name question context])%list)).
    { unfold consult_persona, bind at 1, note_consultation. cbn [fst snd].
      unfold bind at 1, lift at 1. rewrite Hcfg, Htruthy. cbn [negb].
      unfold bind at 1, lift at 1. now rewrite Hprompt. }
    rewrite Hrun. now split.
Qed.

Lemma consult_persona_single_request_witness :
  http_log (snd (consult_persona Sample.bundled "auditor" "Cost?" (Some "Lambda 256MB")
                   Sample.fresh))
  = [mk_request "sk-test" (VStr "openai/gpt-4o")
       ("You are The Auditor, providing cost guidance." ++ nl ++ nl
        ++ "CHARACTER TRAITS:" ++ nl ++ "Frugal" ++ nl ++ nl ++ response_style)
       ("Context: Lambda 256MB" ++ nl ++ nl ++ "Cost?")].
Proof.
  edestruct (consult_persona_single_request Sample.bundled "auditor" "Cost?"
               (Some "Lambda 256MB")) with (s := Sample.fresh) as [Hsent _];
    [by_computation | discriminate |].
  edestruct Hsent with (key := "sk-test") as [Hlog _];
    [by_computation | by_computation | reflexivity | by_computation |].
  rewrite Hlog. by_computation.
Defined.

Lemma consensus_review_state (w : world) (name : string) (config : dict) (prompt : string)
    (models : list string) (question : string) (context : option string) (s : state) :
  get_persona_config w name = Ok (VDict config) ->
  build_system_prompt w name = Ok prompt ->
  match Py.dict_get config "models" with Some m => m | None => default_models end
  = VList (map VStr models) ->
  snd (_consensus_review w name question context s)
  = snd (gather_run
           (map (fun m => query_llm w m prompt question context) (map VStr models)) s).
Proof.
  intros Hconfig Hprompt Hmodels.
  unfold _consensus_review, bind, lift. rewrite Hconfig. cbn [Py.get].
  rewrite Hmodels, Hprompt. cbn [Py.iter].
  pose proof (gather_run_length
                (map (fun m => query_llm w m prompt question context) (map VStr models)) s)
    as Hlen.
  unfold gather.
  destruct (gather_run _ s) as [responses s'] eqn:Hrun. cbn [fst snd] in *.
  rewrite consensus_sections_text by (now rewrite Hlen, !length_map).
  reflexivity.
Qed.

(** X7. Consulting a persona whose model is "consensus" sends exactly one
    request per model of its list (or of the default pair), in the order of
    the list, all with the persona's system prompt and the same user turn;
    and it returns a text whether or not these queries succeed. *)
Theorem consensus_one_request_per_model :
  forall (w : world) (name question : string) (context : option string) (cfg : dict)
         (prompt key : string) (models : list string) (s : state),
    get_persona_config w name = Ok (VDict cfg) ->
    Py.dict_get cfg "model" = Some (VStr "consensus") ->
    build_system_prompt w name = Ok prompt ->
    match Py.dict_get cfg "models" with Some m => m | None => default_models end
    = VList (map VStr models) ->
    api_key_of w s = Ok key ->
    http_log (snd (consult_persona w name question context s))
    = (http_log s
       ++ map (fun m =>
                 mk_request key (VStr m) prompt
                   (if some_text context
                    then "Context: " ++ or_empty context ++ nl ++ nl ++ question
                    else question))
              models)%list
    /\ exists text, fst (consult_persona w name question context s) = Ok (VStr text).
Proof.
  intros w name question context cfg prompt key models s Hcfg Hmodel Hprompt Hmodels Hkey.
  assert (Htruthy : Py.truthy (VDict cfg) = true) by (destruct cfg; [discriminate | reflexivity]).
  set (s0 := mk_state (_API_KEY s) (http_log s)
               (consult_log s ++ [mk_consultation name question context])%list).
  assert (Hrun : consult_persona w name question context s
                 = bind (_consensus_review w name question context)
                     (fun text => ret (VStr text)) s0).
  { rewrite (consult_persona_configured w name question context s Hcfg Htruthy Hprompt).
    unfold bind at 1, lift. cbn [Py.get]. now rewrite Hmodel. }
  rewrite Hrun. unfold bind, ret.
  pose proof (@consensus_review_result w name cfg prompt models question context s0
                Hcfg Hprompt Hmodels)
    as Hres.
  pose proof (@consensus_review_state w name cfg prompt models question context s0
                Hcfg Hprompt Hmodels)
    as Hstate.
  destruct (_consensus_review w name question context s0) as [[text|e] s1];
    cbn [fst snd] in *; [|discriminate].
  split; [|now exists text].
  rewrite Hstate.
  rewrite (@gather_queries_log w prompt question context key (map VStr models) s0 Hkey).
  now rewrite map_map.
Qed.

Lemma consensus_one_request_per_model_witness :
  map req_model
      (http_log (snd (consult_persona Sample.bundled "reviewer" "Review this" None
                        Sample.fresh)))
  = [VStr "anthropic/claude-3.5-sonnet"; VStr "openai/gpt-4o"].
Proof.
  edestruct (consensus_one_request_per_model Sample.bundled "reviewer" "Review this" None)
    with (s := Sample.fresh) (key := "sk-test")
         (models := ["anthropic/claude-3.5-sonnet"; "openai/gpt-4o"]) as [Hlog _];
    [by_computation | by_computation | by_computation | by_computation | by_computation |].
  rewrite Hlog. reflexivity.
Defined.

(** ** A persona with a field missing *)

(** X8. A persona whose configuration lacks "character", "domain" or
    "traits" has no system prompt: once its governance and standards have
    loaded, [build_system_prompt] raises the KeyError of the first of the
    three that is missing, in this order. *)
Theorem build_system_prompt_missing_field :
  forall (w : world) (name : string) (cfg gov std : dict) (std_text : string),
    get_persona_config w name = Ok (VDict cfg) -> cfg <> [] ->
    get_persona_governance w name = Ok gov ->
    get_persona_standards w name = Ok std ->
    format_standards_for_prompt w std = Ok std_text ->
    (Py.dict_get cfg "character" = None ->
       build_system_prompt w name = Raise (mk_exn KeyError "'character'"))
    /\ (Py.dict_get cfg "character" <> None -> Py.dict_get cfg "domain" = None ->
          build_system_prompt w name = Raise (mk_exn KeyError "'domain'"))
    /\ (Py.dict_get cfg "character" <> None -> Py.dict_get cfg "domain" <> None ->
          Py.dict_get cfg "traits" = None ->
          build_system_prompt w name = Raise (mk_exn KeyError "'traits'")).
Proof.
  intros w name cfg gov std std_text Hcfg Hne Hgov Hstd Htext.
  assert (Htruthy : Py.truthy (VDict cfg) = true) by (now destruct cfg).
  assert (Hrun : build_system_prompt w name
                 = (character <- Py.getitem (VDict cfg) "character" ;;
                    domain <- Py.getitem (VDict cfg) "domain" ;;
                    traits <- Py.getitem (VDict cfg) "traits" ;;
                    build_system_prompt w name)%py).
  { unfold build_system_prompt at 1.
    erewrite load_all_configured by eassumption.
    rewrite Hgov, Hstd. cbn [rbind]. rewrite Htext. cbn [rbind config].
    destruct (Py.getitem (VDict cfg) "character") as [character|e] eqn:Hc; [|reflexivity].
    destruct (Py.getitem (VDict cfg) "domain") as [domain|e] eqn:Hd; [|reflexivity].
    destruct (Py.getitem (VDict cfg) "traits") as [traits|e] eqn:Ht; [|reflexivity].
    cbn [rbind]. unfold build_system_prompt.
    erewrite load_all_configured by eassumption.
    rewrite Hgov, Hstd. cbn [rbind]. rewrite Htext. cbn [rbind config].
    now rewrite Hc, Hd, Ht. }
  rewrite Hrun. cbn [Py.getitem]. repeat split.
  - intros Hc. now rewrite Hc.
  - intros Hc Hd. destruct (Py.dict_get cfg "character"); [|contradiction].
    cbn [rbind]. now rewrite Hd.
  - intros Hc Hd Ht. destruct (Py.dict_get cfg "character"); [|contradiction].
    destruct (Py.dict_get cfg "domain"); [|contradiction].
    cbn [rbind]. now rewrite Ht.
Qed.

Lemma build_system_prompt_missing_field_witness :
  build_system_prompt Demo.incomplete "ghost" = Raise (mk_exn KeyError "'domain'").
Proof.
  edestruct (build_system_prompt_missing_field Demo.incomplete "ghost") as (_ & Hdomain & _);
    [by_computation | discriminate | by_computation | by_computation | by_computation |].
  apply Hdomain; [discriminate | reflexivity].
Defined.

(** ** Dicts: set and get *)

Section DictFacts.

Variable V : Type.

Lemma dict_get_set_same (d : list (string * V)) (k : string) (v : V) :
  Py.dict_get (Py.dict_set d k v) k = Some v.
Proof.
  induction d as [|[k' v'] d IH]; simpl.
  - now rewrite String.eqb_refl.
  - destruct (String.eqb k' k) eqn:Hk; simpl; rewrite Hk; [reflexivity | exact IH].
Qed.

Lemma dict_get_set_other (d : list (string * V)) (k k' : string) (v : V) :
  k <> k' -> Py.dict_get (Py.dict_set d k v) k' = Py.dict_get d k'.
Proof.
  intros Hne. induction d as [|[k0 v0] d IH]; simpl.
  - apply String.eqb_neq in Hne. now rewrite Hne.
  - destruct (String.eqb_spec k0 k) as [->|Hk]; simpl.
    + apply String.eqb_neq in Hne. now rewrite Hne.
    + now rewrite IH.
Qed.

Lemma dict_set_keys (d : list (string * V)) (k k' : string) (v : V) :
  In k' (map fst (Py.dict_set d k v)) <-> k' = k \/ In k' (map fst d).
Proof.
  induction d as [|[k0 v0] d IH]; simpl.
  - intuition.
  - destruct (String.eqb_spec k0 k) as [->|Hk]; simpl; [intuition|].
    rewrite IH. intuition.
Qed.

Lemma dict_set_nodup (d : list (string * V)) (k : string) (v : V) :
  NoDup (map fst d) -> NoDup (map fst (Py.dict_set d k v)).
Proof.
  induction d as [|[k0 v0] d IH]; intros Hnodup; simpl.
  - constructor; [intros [] | constructor].
  - destruct (String.eqb_spec k0 k) as [->|Hk]; simpl; [exact Hnodup|].
    inversion Hnodup as [|? ? Hnotin Hrest]; subst.
    constructor; [|now apply IH].
    rewrite dict_set_keys. intros [->|Hin]; [now apply Hk | now apply Hnotin].
Qed.

Lemma dict_get_in_keys (d : list (string * V)) (k : string) (v : V) :
  Py.dict_get d k = Some v -> In k (map fst d).
Proof.
  induction d as [|[k0 v0] d IH]; simpl; [discriminate|].
  destruct (String.eqb_spec k0 k) as [->|Hk]; [now left | intros H; right; now apply IH].
Qed.

End DictFacts.

(** ** Governance files *)

Section GovernanceFiles.

Variable w : world.
Variable dir : path.

Lemma load_governance_from_sound (names : list string) :
  forall acc gov : dict,
    load_governance_from w dir (map VStr names) acc = Ok gov ->
    NoDup (map fst acc) ->
    (forall f doc, Py.dict_get acc f = Some doc -> load_yaml w (path_join dir f) = Ok doc) ->
    NoDup (map fst gov)
    /\ (forall f, In f (map fst gov)
                  <-> In f (map fst acc)
                      \/ (In f names /\ exists_ w (path_join dir f) = true))
    /\ (forall f doc, Py.dict_get gov f = Some doc -> load_yaml w (path_join dir f) = Ok doc).
Proof.
  induction names as [|name names IH]; intros acc gov Hload Hnodup Hdocs.
  - injection Hload as <-. split; [exact Hnodup|]. split; [|exact Hdocs].
    intros f. simpl. tauto.
  - cbn [map load_governance_from div_value rbind fst snd] in Hload.
    destruct (exists_ w (path_join dir name)) eqn:Hexists.
    + destruct (load_yaml w (path_join dir name)) as [doc|e] eqn:Hdoc; [|discriminate].
      cbn [rbind] in Hload.
      destruct (IH _ _ Hload) as (Hn & Hkeys & Hvals).
      * now apply dict_set_nodup.
      * intros f doc'. destruct (String.eqb_spec name f) as [<-|Hne].
        -- rewrite dict_get_set_same. intros H. now injection H as <-.
        -- rewrite dict_get_set_other by assumption. apply Hdocs.
      * split; [exact Hn|]. split; [|exact Hvals].
        intros f. rewrite Hkeys, dict_set_keys. simpl. split.
        -- intros [[->|Hin]|[Hin Hex]]; auto.
        -- intros [Hin|[[<-|Hin] Hex]]; auto.
    + destruct (IH _ _ Hload Hnodup Hdocs) as (Hn & Hkeys & Hvals).
      split; [exact Hn|]. split; [|exact Hvals].
      intros f. rewrite Hkeys. simpl. split.
      * intros [Hin|[Hin Hex]]; auto.
      * intros [Hin|[[<-|Hin] Hex]]; auto. congruence.
Qed.

End GovernanceFiles.

(** X9. [load_governance] loads exactly the requested files that exist,
    each looked for where its name, joined to the governance directory of
    the configuration root, leads: each such file once, under its name,
    with the document [load_yaml] gives for it. A requested file that does
    not exist is passed over without an error. *)
Theorem load_governance_existing_files :
  forall (w : world) (names : list string) (gov : dict),
    load_governance w (VList (map VStr names)) = Ok gov ->
    NoDup (map fst gov)
    /\ (forall f,
          In f (map fst gov)
          <-> In f names
              /\ exists_ w (path_join (path_div (_find_config_root w) "governance") f) = true)
    /\ (forall f doc,
          Py.dict_get gov f = Some doc ->
          load_yaml w (path_join (path_div (_find_config_root w) "governance") f) = Ok doc).
Proof.
  intros w names gov Hload. unfold load_governance, _get_paths in Hload.
  cbn [Py.iter rbind] in Hload.
  destruct (@load_governance_from_sound w _ names [] gov Hload) as (Hn & Hkeys & Hvals).
  - constructor.
  - intros f doc H; discriminate.
  - split; [exact Hn|]. split; [|exact Hvals].
    intros f. rewrite Hkeys. simpl. tauto.
Qed.

Lemma load_governance_existing_files_witness :
  exists gov,
    load_governance Sample.bundled
      (VList (map VStr ["security.yaml"; "absent.yaml"; "security.yaml"])) = Ok gov
    /\ map fst gov = ["security.yaml"]
    /\ ~ In "absent.yaml" (map fst gov).
Proof.
  eexists. split; [by_computation|]. split; [reflexivity|].
  edestruct (load_governance_existing_files Sample.bundled
               ["security.yaml"; "absent.yaml"; "security.yaml"]) as (_ & Hkeys & _);
    [by_computation|].
  intros Hin. apply Hkeys in Hin. destruct Hin as [_ Hex]. vm_compute in Hex. discriminate.
Defined.

(** ** Standards on disk *)

Section StandardFiles.

Variable w : world.
Variable dir : path.

Lemma load_domains_sound (files : list value) :
  forall acc domains : dict,
    load_domains w dir files acc = Ok domains ->
    NoDup (map fst acc) ->
    (forall n doc, Py.dict_get acc n = Some doc ->
       exists f, n = Str.replace ".yaml" "" f /\ load_yaml w (path_join dir f) = Ok doc) ->
    NoDup (map fst domains)
    /\ (forall n doc, Py.dict_get domains n = Some doc ->
          exists f, n = Str.replace ".yaml" "" f /\ load_yaml w (path_join dir f) = Ok doc).
Proof.
  induction files as [|file files IH]; intros acc domains Hload Hnodup Hdocs.
  - injection Hload as <-. now split.
  - cbn [load_domains] in Hload. destruct file as [| | |name| |]; try discriminate.
    cbn [div_value rbind fst snd] in Hload.
    destruct (exists_ w (path_join dir name)); [|now apply (IH _ _ Hload)].
    destruct (load_yaml w (path_join dir name)) as [doc|e] eqn:Hdoc; [|discriminate].
    cbn [rbind] in Hload. apply (IH _ _ Hload).
    + now apply dict_set_nodup.
    + intros n doc'. destruct (String.eqb_spec (Str.replace ".yaml" "" name) n) as [<-|Hne].
      * rewrite dict_get_set_same. intros H. injection H as <-. now exists name.
      * rewrite dict_get_set_other by assumption. apply Hdocs.
Qed.

End StandardFiles.

(** X10. [load_standard] answers with the empty dict or with a complete
    standard, never with a part of one. It is empty when the directory of
    the standard does not exist. Otherwise it has exactly a "manifest", the
    non-empty document of manifest.yaml, and "domains": one entry per name,
    each the document of a file of the standard whose name, with ".yaml"
    removed, is the name of the domain. *)
Theorem load_standard_shape :
  forall (w : world) (id : string) (v : value),
    load_standard w (VStr id) = Ok v ->
    (exists_ w (path_join (path_div (_find_config_root w) "standards") id) = false ->
     v = VDict [])
    /\ (v = VDict []
        \/ exists (manifest : value) (domains : dict),
             v = VDict [("manifest", manifest); ("domains", VDict domains)]
             /\ Py.truthy manifest = true
             /\ load_yaml w (path_div (path_join (path_div (_find_config_root w) "standards") id)
                               "manifest.yaml") = Ok manifest
             /\ NoDup (map fst domains)
             /\ forall n doc,
                  Py.dict_get domains n = Some doc ->
                  exists f,
                    n = Str.replace ".yaml" "" f
                    /\ load_yaml w (path_join (path_join (path_div (_find_config_root w)
                                                            "standards") id) f) = Ok doc).
Proof.
  intros w id v Hload. unfold load_standard, _get_paths in Hload.
  cbn [div_value rbind fst snd] in Hload.
  set (sdir := path_join (path_div (_find_config_root w) "standards") id) in *.
  destruct (exists_ w sdir) eqn:Hdir; cbn [negb] in Hload.
  - split; [discriminate|].
    destruct (load_yaml w (path_div sdir "manifest.yaml")) as [manifest|e] eqn:Hmanifest;
      [|discriminate].
    cbn [rbind] in Hload.
    destruct (Py.truthy manifest) eqn:Htruthy; cbn [negb] in Hload;
      [|left; now injection Hload].
    destruct (Py.get manifest "standard" (VDict [])) as [std|e]; [|discriminate].
    cbn [rbind] in Hload.
    destruct (Py.get std "files" (VList [])) as [files|e]; [|discriminate].
    cbn [rbind] in Hload.
    destruct (Py.iter files) as [names|e]; [|discriminate].
    cbn [rbind] in Hload.
    destruct (load_domains w sdir names []) as [domains|e] eqn:Hdomains; [|discriminate].
    cbn [rbind] in Hload. injection Hload as <-.
    right. exists manifest, domains.
    destruct (@load_domains_sound w sdir names [] domains Hdomains) as [Hn Hdocs].
    + constructor.
    + intros n doc H; discriminate.
    + repeat split; assumption.
  - injection Hload as <-. split; [reflexivity | now left].
Qed.

Lemma load_standard_shape_witness :
  load_standard Sample.bundled (VStr "fake-standard") = Ok (VDict [])
  /\ exists domains,
       load_standard Sample.bundled (VStr "owasp-top10")
       = Ok (VDict [("manifest", Sample.manifest_doc); ("domains", VDict domains)])
       /\ map fst domains = ["injection"].
Proof.
  split.
  - destruct (load_standard Sample.bundled (VStr "fake-standard")) as [v|e] eqn:Hload;
      [|vm_compute in Hload; discriminate].
    destruct (load_standard_shape Sample.bundled "fake-standard" Hload) as [Hempty _].
    now rewrite Hempty.
  - eexists. split; by_computation.
Defined.

Section PersonaStandards.

Variable w : world.

Lemma load_standard_string (standard_id v : value) :
  load_standard w standard_id = Ok v -> exists id, standard_id = VStr id.
Proof.
  unfold load_standard. destruct (_get_paths w) as [[[? ?] ?] ?].
  destruct standard_id; try discriminate. intros _. now eexists.
Qed.

Lemma load_standards_sound (ids : list value) :
  forall acc stds : dict,
    load_standards w ids acc = Ok stds ->
    NoDup (map fst acc) ->
    (forall id content, Py.dict_get acc id = Some content ->
       load_standard w (VStr id) = Ok content /\ Py.truthy content = true) ->
    NoDup (map fst stds)
    /\ (forall id content, Py.dict_get stds id = Some content ->
          load_standard w (VStr id) = Ok content /\ Py.truthy content = true).
Proof.
  induction ids as [|standard_id ids IH]; intros acc stds Hload Hnodup Hacc.
  - injection Hload as <-. now split.
  - cbn [load_standards] in Hload.
    destruct (load_standard w standard_id) as [standard|e] eqn:Hstandard; [|discriminate].
    cbn [rbind] in Hload.
    destruct (load_standard_string _ Hstandard) as [id ->].
    destruct (Py.truthy standard) eqn:Htruthy; [|now apply (IH _ _ Hload)].
    apply (IH _ _ Hload).
    + now apply dict_set_nodup.
    + intros id' content. destruct (String.eqb_spec id id') as [<-|Hne].
      * rewrite dict_get_set_same. intros H. injection H as <-. now split.
      * rewrite dict_get_set_other by assumption. apply Hacc.
Qed.

End PersonaStandards.

(** X11. The standards of a persona are the complete ones only: each
    entry of [get_persona_standards] is what [load_standard] gives for its
    id and is not empty, and no id appears twice. A standard assigned to
    the persona but not installed is left out without an error. *)
Theorem persona_standards_complete :
  forall (w : world) (name : string) (stds : dict),
    get_persona_standards w name = Ok stds ->
    NoDup (map fst stds)
    /\ forall id content,
         Py.dict_get stds id = Some content ->
         load_standard w (VStr id) = Ok content /\ Py.truthy content = true.
Proof.
  intros w name stds Hload. unfold get_persona_standards in Hload.
  destruct (get_persona_config w name) as [cfg|e]; [|discriminate].
  cbn [rbind] in Hload.
  destruct (negb (Py.truthy cfg)).
  - injection Hload as <-. split; [constructor | intros id content H; discriminate].
  - destruct (Py.get cfg "standards" (VList [])) as [ids|e]; [|discriminate].
    cbn [rbind] in Hload.
    destruct (Py.iter ids) as [l|e]; [|discriminate]. cbn [rbind] in Hload.
    apply (@load_standards_sound w l [] stds Hload).
    + constructor.
    + intros id content H; discriminate.
Qed.

Lemma persona_standards_complete_witness :
  exists stds,
    get_persona_standards Sample.bundled "sentinel" = Ok stds
    /\ map fst stds = ["owasp-top10"]
    /\ forall id content, Py.dict_get stds id = Some content -> Py.truthy content = true.
Proof.
  eexists. split; [by_computation|]. split; [reflexivity|].
  intros id content Hget.
  edestruct (persona_standards_complete Sample.bundled "sentinel") as [_ Hcomplete];
    [by_computation|].
  now destruct (Hcomplete id content Hget).
Defined.

(** ** Governance in the prompt *)

Section GovernanceText.

Lemma occurs_in_refl (s : string) : occurs_in s s.
Proof. exists "", "". simpl. now rewrite append_empty_r. Qed.

Lemma occurs_in_append_l (k a b : string) : occurs_in k a -> occurs_in k (a ++ b).
Proof.
  intros [x [y ->]]. exists x, (y ++ b). now rewrite !append_assoc.
Qed.

Lemma occurs_in_append_r (k a b : string) : occurs_in k b -> occurs_in k (a ++ b).
Proof.
  intros [x [y ->]]. exists (a ++ x), y. now rewrite !append_assoc.
Qed.

(** Every part of a joined text occurs in it. *)
Lemma join_occurs (sep : string) (parts : list string) (part : string) :
  In part parts -> occurs_in part (Str.join sep parts).
Proof.
  induction parts as [|p parts IH]; intros Hin; [contradiction|].
  rewrite join_head. destruct Hin as [->|Hin].
  - apply occurs_in_append_l, occurs_in_refl.
  - apply occurs_in_append_r. destruct parts as [|p' parts]; [contradiction|].
    apply occurs_in_append_r. now apply IH.
Qed.

Lemma governance_sections_in (w : world) (governance : dict) (filename : string)
    (content : value) :
  In (filename, content) governance ->
  In ("# " ++ filename) (governance_sections w governance)
  /\ In (yaml_dump w content) (governance_sections w governance).
Proof.
  induction governance as [|[f c] governance IH]; intros Hin; [contradiction|].
  cbn [governance_sections]. destruct Hin as [Heq|Hin].
  - injection Heq as -> ->. split; [now left | right; now left].
  - destruct (IH Hin). split; right; now right.
Qed.

End GovernanceText.

(** X12. Nothing that was loaded is lost in formatting: for every
    governance file the formatted text contains the heading "# <name>" and
    the YAML dump of the document. *)
Theorem format_governance_keeps_every_file :
  forall (w : world) (governance : dict) (filename : string) (content : value),
    In (filename, content) governance ->
    occurs_in ("# " ++ filename) (format_governance_for_prompt w governance)
    /\ occurs_in (yaml_dump w content) (format_governance_for_prompt w governance).
Proof.
  intros w governance filename content Hin.
  destruct (governance_sections_in w governance filename content Hin) as [Hhead Hdump].
  unfold format_governance_for_prompt.
  destruct governance as [|entry governance]; [contradiction|].
  split; now apply join_occurs.
Qed.

Lemma format_governance_keeps_every_file_witness :
  occurs_in "# cost-control.yaml"
    (format_governance_for_prompt Sample.bundled
       [("security.yaml", Sample.security_doc); ("cost-control.yaml", VDict [])]).
Proof.
  apply (format_governance_keeps_every_file Sample.bundled
           [("security.yaml", Sample.security_doc); ("cost-control.yaml", VDict [])]
           "cost-control.yaml" (VDict [])).
  right. now left.
Defined.

(** ** The API key in a .env file *)

Section Strip.

Variable p : ascii -> bool.

Lemma lstrip_all (a s : string) :
  Chars.all p a = true -> Env.lstrip p (a ++ s) = Env.lstrip p s.
Proof.
  induction a as [|c a IH]; simpl; [reflexivity|].
  intros H. apply andb_true_iff in H as [Hc Ha]. rewrite Hc. now apply IH.
Qed.

Lemma rstrip_all (b : string) : Chars.all p b = true -> Env.rstrip p b = "".
Proof.
  induction b as [|c b IH]; simpl; [reflexivity|].
  intros H. apply andb_true_iff in H as [Hc Hb]. now rewrite (IH Hb), Hc.
Qed.

Lemma rstrip_kept (c : ascii) (k b : string) :
  p (Env.last_char c k) = false -> Chars.all p b = true ->
  Env.rstrip p (String c k ++ b) = String c k.
Proof.
  revert c; induction k as [|c' k IH]; intros c Hlast Hb; simpl in *.
  - now rewrite (rstrip_all b Hb), Hlast.
  - specialize (IH c' Hlast Hb). simpl in IH. now rewrite IH.
Qed.

(** Stripping takes off the characters put around a text whose two ends
    are not such characters. *)
Lemma strip_around (a b : string) (c : ascii) (k : string) :
  Chars.all p a = true -> Chars.all p b = true ->
  p c = false -> p (Env.last_char c k) = false ->
  Env.strip p (a ++ String c k ++ b) = String c k.
Proof.
  intros Ha Hb Hc Hlast. unfold Env.strip. rewrite lstrip_all by exact Ha.
  cbn [append Env.lstrip]. rewrite Hc.
  now apply (rstrip_kept c k b).
Qed.

Lemma lstrip_head (s : string) :
  match Env.lstrip p s with
  | EmptyString => True
  | String c _ => p c = false
  end.
Proof.
  induction s as [|c s IH]; simpl; [exact I|].
  destruct (p c) eqn:Hc; [exact IH | exact Hc].
Qed.

Lemma rstrip_ends (s : string) :
  match Env.rstrip p s with
  | EmptyString => True
  | String c r =>
      p (Env.last_char c r) = false /\ exists s', s = String c s'
  end.
Proof.
  induction s as [|c s IH]; simpl; [exact I|].
  destruct (Env.rstrip p s) as [|c' r].
  - destruct (p c) eqn:Hc; [exact I|]. split; [exact Hc | now eexists].
  - destruct IH as [Hlast _]. split; [exact Hlast | now eexists].
Qed.

(** What is left after stripping neither begins nor ends with a stripped
    character. *)
Lemma strip_ends (s : string) :
  match Env.strip p s with
  | EmptyString => True
  | String c r => p c = false /\ p (Env.last_char c r) = false
  end.
Proof.
  unfold Env.strip. pose proof (lstrip_head s) as Hhead.
  pose proof (rstrip_ends (Env.lstrip p s)) as Hends.
  destruct (Env.rstrip p (Env.lstrip p s)) as [|c r]; [exact I|].
  destruct Hends as [Hlast [s' Hs']]. rewrite Hs' in Hhead. now split.
Qed.

End Strip.

Section EnvScan.

Lemma line_value_accepted (line v : string) :
  Env.line_value line = Some v ->
  String.prefix Env.key_prefix line = true
  /\ v <> Env.placeholder
  /\ exists c r, v = String c r
                 /\ Env.is_squote c = false
                 /\ Env.is_squote (Env.last_char c r) = false.
Proof.
  unfold Env.line_value.
  destruct (String.prefix Env.key_prefix line); [|discriminate].
  destruct (Env.after_first "="%char line) as [rest|]; [|discriminate].
  pose proof (strip_ends Env.is_squote
                (Env.strip Env.is_dquote (Env.strip Env.is_space rest))) as Hends.
  destruct (Env.strip Env.is_squote _) as [|c r] eqn:Hval; [discriminate|].
  cbn [Str.nonempty andb].
  destruct (String.eqb_spec (String c r) Env.placeholder) as [Heq|Hne]; [discriminate|].
  cbn [negb]. intros H. injection H as <-.
  split; [reflexivity|]. split; [exact Hne|]. exists c, r. now split.
Qed.

Lemma scan_lines_accepted (lines : list string) (v : string) :
  Env.scan_lines lines = Some v ->
  exists line, In line lines /\ Env.line_value line = Some v.
Proof.
  induction lines as [|line lines IH]; simpl; [discriminate|].
  destruct (Env.line_value line) as [val|] eqn:Hline.
  - intros H. injection H as <-. exists line. split; [now left | exact Hline].
  - intros H. destruct (IH H) as (l & Hin & Hl). exists l. split; [now right | exact Hl].
Qed.

Lemma scan_paths_accepted (w : world) (paths : list path) (v : string) :
  Env.scan_paths w paths = Ok (Some v) ->
  exists env_path text line,
    In env_path paths /\ fs w env_path = Some (File text)
    /\ In line (Env.splitlines text) /\ Env.line_value line = Some v.
Proof.
  induction paths as [|env_path paths IH]; simpl; [discriminate|].
  destruct (exists_ w env_path).
  - destruct (fs w env_path) as [[|text]|] eqn:Hfs; try discriminate.
    destruct (Env.scan_lines (Env.splitlines text)) as [val|] eqn:Hscan.
    + intros H. injection H as <-.
      destruct (scan_lines_accepted _ Hscan) as (line & Hin & Hline).
      exists env_path, text, line. repeat split; auto.
    + intros H. destruct (IH H) as (q & t & l & Hin & Hrest).
      exists q, t, l. split; [now right | exact Hrest].
  - intros H. destruct (IH H) as (q & t & l & Hin & Hrest).
    exists q, t, l. split; [now right | exact Hrest].
Qed.

End EnvScan.

(** X13. What [get_api_key] hands back. A key set in the environment is
    returned as it is, without looking at any file. A key taken from a
    .env file comes from a line that begins with OPENROUTER_API_KEY= in one
    of the two candidate files; it is not empty, it is not the placeholder
    your_openrouter_api_key_here, and it neither begins nor ends with a
    single quote. The [get_api_key] of the queries is this function at the
    home directory of the world. *)
Theorem get_api_key_scanning_accepts :
  forall (w : world) (home : path),
    (some_text (getenv_key w) = true ->
     Env.get_api_key_scanning w home = Ok (or_empty (getenv_key w)))
    /\ (forall v,
          Env.get_api_key_scanning w home = Ok v ->
          v <> ""
          /\ (some_text (getenv_key w) = false ->
              v <> Env.placeholder
              /\ (exists c r, v = String c r
                              /\ Env.is_squote c = false
                              /\ Env.is_squote (Env.last_char c r) = false)
              /\ exists env_path text line,
                   In env_path [path_div (cwd w) ".env";
                                path_div (path_div home ".gatekeep") ".env"]
                   /\ fs w env_path = Some (File text)
                   /\ In line (Env.splitlines text)
                   /\ String.prefix Env.key_prefix line = true))
    /\ (home = home_dir w -> get_api_key w = Env.get_api_key_scanning w home).
Proof.
  intros w home. unfold Env.get_api_key_scanning. split; [|split].
  - intros Henv. now rewrite Henv.
  - intros v. destruct (some_text (getenv_key w)) eqn:Henv.
    + intros H. injection H as <-. split; [|discriminate].
      destruct (getenv_key w) as [[|c k]|]; discriminate.
    + destruct (Env.scan_paths w _) as [[val|]|e] eqn:Hscan; try discriminate.
      cbn [rbind]. intros H. injection H as <-.
      destruct (scan_paths_accepted _ _ Hscan) as (q & text & line & Hin & Hfs & Hline & Hval).
      destruct (line_value_accepted _ Hval) as (Hprefix & Hne & c & r & -> & Hends).
      split; [discriminate|]. intros _. split; [exact Hne|].
      split; [now exists c, r|]. exists q, text, line. now repeat split.
  - intros ->. reflexivity.
Qed.

Lemma get_api_key_scanning_accepts_witness :
  Env.get_api_key_scanning DemoEnv.project DemoEnv.home_dir = Ok "sk-or-123"
  /\ get_api_key DemoEnv.project = Ok "sk-or-123"
  /\ "sk-or-123" <> Env.placeholder.
Proof.
  destruct (get_api_key_scanning_accepts DemoEnv.project DemoEnv.home_dir)
    as (_ & Hfile & Hsame).
  assert (Hrun : Env.get_api_key_scanning DemoEnv.project DemoEnv.home_dir = Ok "sk-or-123")
    by by_computation.
  split; [exact Hrun|]. split.
  - rewrite (Hsame eq_refl). exact Hrun.
  - destruct (Hfile _ Hrun) as [_ Hvalue]. now destruct (Hvalue eq_refl).
Defined.

Section RoundTrip.

Lemma last_char_append (c d : ascii) (s : string) :
  Env.last_char c (s ++ String d "") = d.
Proof. revert c; induction s as [|c' s IH]; intros c; simpl; [reflexivity | apply IH]. Qed.

Lemma strip_bare (p : ascii -> bool) (c : ascii) (k : string) :
  p c = false -> p (Env.last_char c k) = false ->
  Env.strip p (String c k) = String c k.
Proof.
  intros Hc Hlast.
  pose proof (@strip_around p "" "" c k eq_refl eq_refl Hc Hlast) as H.
  cbn [append] in H. now rewrite append_empty_r in H.
Qed.

Lemma strip_quoted (p : ascii -> bool) (quote c : ascii) (k : string) :
  p quote = true -> p c = false -> p (Env.last_char c k) = false ->
  Env.strip p (String quote "" ++ String c k ++ String quote "") = String c k.
Proof.
  intros Hq Hc Hlast. apply strip_around; try assumption; simpl; now rewrite Hq.
Qed.

Lemma splitlines_one (line : string) :
  Chars.any Env.is_break line = false ->
  forall cur, Env.splitlines_from false cur (line ++ nl) = [cur ++ line].
Proof.
  induction line as [|c line IH]; intros Hnone cur.
  - cbn. now rewrite append_empty_r.
  - cbn [Chars.any] in Hnone. apply orb_false_iff in Hnone as [Hc Hline].
    cbn [append Env.splitlines_from andb]. rewrite Hc.
    rewrite (IH Hline). now rewrite append_assoc.
Qed.

Lemma plain_ends (k : string) :
  Env.plain k = true ->
  exists c r, k = String c r
    /\ (Env.is_space c = false /\ Env.is_dquote c = false /\ Env.is_squote c = false)
    /\ (Env.is_space (Env.last_char c r) = false
        /\ Env.is_dquote (Env.last_char c r) = false
        /\ Env.is_squote (Env.last_char c r) = false).
Proof.
  destruct k as [|c r]; [discriminate|]. unfold Env.plain, Env.plain_end.
  intros H. apply andb_true_iff in H as [Hc Hl].
  apply negb_true_iff in Hc, Hl.
  apply orb_false_iff in Hc as [Hc Hc3]. apply orb_false_iff in Hc as [Hc1 Hc2].
  apply orb_false_iff in Hl as [Hl Hl3]. apply orb_false_iff in Hl as [Hl1 Hl2].
  exists c, r. repeat split; assumption.
Qed.

(** The value of a line that holds a plain key, bare or in quotes, with
    blanks around it. *)
Lemma line_value_plain (k quote lead trail : string) :
  Env.plain k = true -> k <> Env.placeholder ->
  quote = "" \/ quote = String Env.dquote "" \/ quote = String Env.squote "" ->
  Chars.all Env.is_space lead = true -> Chars.all Env.is_space trail = true ->
  Env.line_value (Env.key_prefix ++ lead ++ quote ++ k ++ quote ++ trail) = Some k.
Proof.
  intros Hplain Hne Hquote Hlead Htrail.
  destruct (plain_ends k Hplain)
    as (c & r & Hk & (Hc1 & Hc2 & Hc3) & (Hl1 & Hl2 & Hl3)).
  subst k.
  unfold Env.line_value.
  assert (Hprefix : String.prefix Env.key_prefix
                      (Env.key_prefix ++ lead ++ quote ++ String c r ++ quote ++ trail)
                    = true) by (apply prefix_starts; now eexists).
  rewrite Hprefix.
  change (Env.after_first "="%char
            (Env.key_prefix ++ lead ++ quote ++ String c r ++ quote ++ trail))
    with (Some (lead ++ quote ++ String c r ++ quote ++ trail)).
  cbv zeta.
  assert (Hval : Env.strip Env.is_squote
                   (Env.strip Env.is_dquote
                      (Env.strip Env.is_space
                         (lead ++ quote ++ String c r ++ quote ++ trail)))
                 = String c r).
  { destruct Hquote as [ -> | [ -> | -> ] ].
    - change (lead ++ "" ++ String c r ++ "" ++ trail) with (lead ++ String c r ++ trail).
      rewrite (strip_around Env.is_space lead trail c r) by assumption.
      now rewrite !strip_bare by assumption.
    - replace (lead ++ String Env.dquote "" ++ String c r ++ String Env.dquote "" ++ trail)
        with (lead ++ String Env.dquote (String c r ++ String Env.dquote "") ++ trail)
        by (cbn [append]; now rewrite !append_assoc).
      rewrite strip_around; try assumption; try reflexivity;
        [|now rewrite last_char_append].
      change (String Env.dquote (String c r ++ String Env.dquote ""))
        with (String Env.dquote "" ++ String c r ++ String Env.dquote "").
      rewrite strip_quoted by (assumption || reflexivity).
      now rewrite strip_bare by assumption.
    - replace (lead ++ String Env.squote "" ++ String c r ++ String Env.squote "" ++ trail)
        with (lead ++ String Env.squote (String c r ++ String Env.squote "") ++ trail)
        by (cbn [append]; now rewrite !append_assoc).
      rewrite strip_around; try assumption; try reflexivity;
        [|now rewrite last_char_append].
      rewrite strip_bare; try reflexivity;
        [|now rewrite last_char_append].
      change (String Env.squote (String c r ++ String Env.squote ""))
        with (String Env.squote "" ++ String c r ++ String Env.squote "").
      now rewrite strip_quoted by (assumption || reflexivity). }
  cbv beta iota. rewrite Hval. cbn [Str.nonempty andb].
  apply String.eqb_neq in Hne. now rewrite Hne.
Qed.

End RoundTrip.

(** X14. A key written into a .env file is read back as written. Let the
    key be plain: not empty, not the placeholder, neither beginning nor
    ending with a blank or a quote. Then the line OPENROUTER_API_KEY=<key>,
    with the key bare, in double quotes or in single quotes, and with
    blanks before and after, gives that key; and a .env file in the working
    directory that consists of such a line gives it to [get_api_key] when
    the environment sets none. *)
Theorem dotenv_key_round_trip :
  forall k quote : string,
    Env.plain k = true -> k <> Env.placeholder ->
    quote = "" \/ quote = String Env.dquote "" \/ quote = String Env.squote "" ->
    (forall lead trail,
        Chars.all Env.is_space lead = true -> Chars.all Env.is_space trail = true ->
        Env.line_value (Env.key_prefix ++ lead ++ quote ++ k ++ quote ++ trail) = Some k)
    /\ (Chars.any Env.is_break k = false ->
        forall (w : world) (home : path),
          some_text (getenv_key w) = false ->
          fs w (path_div (cwd w) ".env")
          = Some (File (Env.key_prefix ++ quote ++ k ++ quote ++ nl)) ->
          Env.get_api_key_scanning w home = Ok k).
Proof.
  intros k quote Hplain Hne Hquote. split.
  - intros lead trail Hlead Htrail. now apply line_value_plain.
  - intros Hbreak w home Henv Hfile.
    assert (Hline : Env.line_value (Env.key_prefix ++ quote ++ k ++ quote) = Some k).
    { pose proof (@line_value_plain k quote "" "" Hplain Hne Hquote eq_refl eq_refl) as H.
      cbn [append] in H. now rewrite append_empty_r in H. }
    assert (Hlines : Env.splitlines (Env.key_prefix ++ quote ++ k ++ quote ++ nl)
                     = [Env.key_prefix ++ quote ++ k ++ quote]).
    { unfold Env.splitlines.
      replace (Env.key_prefix ++ quote ++ k ++ quote ++ nl)
        with ((Env.key_prefix ++ quote ++ k ++ quote) ++ nl)
        by (now rewrite !append_assoc).
      rewrite splitlines_one; [reflexivity|].
      rewrite !any_append, Hbreak.
      destruct Hquote as [ -> | [ -> | -> ] ]; reflexivity. }
    unfold Env.get_api_key_scanning. rewrite Henv.
    cbn [Env.scan_paths]. unfold exists_. rewrite Hfile, Hlines.
    cbn [Env.scan_lines]. now rewrite Hline.
Qed.

Lemma dotenv_key_round_trip_witness :
  Env.line_value ("OPENROUTER_API_KEY=  " ++ String Env.dquote "sk-or-v1 77"
                  ++ String Env.dquote " ")
  = Some "sk-or-v1 77".
Proof.
  assert (Hne : "sk-or-v1 77" <> Env.placeholder) by discriminate.
  assert (Hquote : String Env.dquote "" = ""
                   \/ String Env.dquote "" = String Env.dquote ""
                   \/ String Env.dquote "" = String Env.squote "") by (right; now left).
  destruct (@dotenv_key_round_trip "sk-or-v1 77" (String Env.dquote "") eq_refl Hne Hquote)
    as [Hline _].
  apply (Hline "  " " "); reflexivity.
Defined.

(** ** The deployment gate and personas that are not configured *)

(** X15. A missing approver stops the gate, missing checkers do not. When
    the persona asked for approval has no entry in the persona table, the
    gate raises "Unknown persona: <approver>", and it does so after both
    checks have run and sent their requests. When the auditor and the
    sentinel have no entry, the gate still asks for approval, with the two
    errors as the cost and the security text of the context, and returns
    what the approver answers, with both errors under "checks". *)
Theorem deployment_gate_missing_persona :
  forall (w : world) (deployment_plan target : string) (context : option string)
         (s : state) (doc : value) (table : dict),
    load_personas w = Ok doc ->
    Py.get doc "personas" (VDict []) = Ok (VDict table) ->
    let chosen :=
      if String.eqb (Str.lower target) "production" then "guardian" else "tester" in
    let cost_check :=
      mk_consultation "auditor" ("Cost check for deployment: " ++ deployment_plan) context in
    let security_check :=
      mk_consultation "sentinel" ("Security check for deployment: " ++ deployment_plan)
        context in
    let question :=
      "Approve deployment to " ++ target ++ "?" ++ nl ++ nl ++ "Plan: " ++ deployment_plan in
    (Py.dict_get table chosen = None ->
       fst (deployment_gate w deployment_plan target context s)
       = Raise (mk_exn ValueError ("Unknown persona: " ++ chosen))
       /\ http_log (snd (deployment_gate w deployment_plan target context s))
          = http_log (snd (consult_persona w "sentinel" (asked security_check) context
                             (snd (consult_persona w "auditor" (asked cost_check) context s)))))
    /\ (Py.dict_get table "auditor" = None -> Py.dict_get table "sentinel" = None ->
        let approval :=
          consult_persona w chosen question
            (Some ("Cost: Unknown persona: auditor" ++ nl
                   ++ "Security: Unknown persona: sentinel" ++ nl ++ or_empty context))
            (mk_state (_API_KEY s) (http_log s)
                      (consult_log s ++ [cost_check; security_check])%list) in
        deployment_gate w deployment_plan target context s
        = (match fst approval with
           | Ok v =>
               Ok (mk_gate_result
                     [("auditor", Raise (mk_exn ValueError "Unknown persona: auditor"));
                      ("sentinel", Raise (mk_exn ValueError "Unknown persona: sentinel"))]
                     chosen v target)
           | Raise e => Raise e
           end,
           snd approval)).
Proof.
  intros w deployment_plan target context s doc table Hdoc Htable
         chosen cost_check security_check question.
  pose proof (deployment_gate_steps w deployment_plan target context s) as Hsteps.
  cbv zeta in Hsteps. fold chosen question in Hsteps.
  pose proof (fun name => @get_persona_config_entry w name doc table Hdoc Htable) as Hconfig.
  split.
  - intros Hnone. rewrite Hsteps. clear Hsteps.
    specialize (Hconfig chosen). rewrite Hnone in Hconfig.
    rewrite (@consult_persona_unknown w chosen _ _ _ VNone Hconfig eq_refl).
    cbn [fst snd http_log]. split; reflexivity.
  - intros Hauditor Hsentinel. rewrite Hsteps. clear Hsteps.
    pose proof (Hconfig "auditor") as Ha. rewrite Hauditor in Ha.
    pose proof (Hconfig "sentinel") as Hs. rewrite Hsentinel in Hs.
    rewrite (@consult_persona_unknown w "auditor" _ _ _ VNone Ha eq_refl).
    cbn [fst snd].
    rewrite (@consult_persona_unknown w "sentinel" _ _ _ VNone Hs eq_refl).
    cbn [fst snd _API_KEY http_log consult_log str_outcome unknown_persona exn_str].
    rewrite <- app_assoc. reflexivity.
Qed.

Lemma deployment_gate_missing_persona_witness :
  fst (deployment_gate Demo.incomplete "API v2" "production" None Sample.fresh)
  = Raise (mk_exn ValueError "Unknown persona: guardian")
  /\ exists v,
       fst (deployment_gate DemoGate.lone_tester "API v2" "staging" None Sample.fresh)
       = Ok (mk_gate_result
               [("auditor", Raise (mk_exn ValueError "Unknown persona: auditor"));
                ("sentinel", Raise (mk_exn ValueError "Unknown persona: sentinel"))]
               "tester" (VStr v) "staging").
Proof.
  split.
  - edestruct (@deployment_gate_missing_persona Demo.incomplete "API v2" "production" None
                 Sample.fresh) as [Hmissing _]; [by_computation | by_computation |].
    apply (Hmissing eq_refl).
  - edestruct (@deployment_gate_missing_persona DemoGate.lone_tester "API v2" "staging" None
                 Sample.fresh) as [_ Hchecks]; [by_computation | by_computation |].
    cbv zeta in Hchecks. rewrite (Hchecks eq_refl eq_refl). cbn [fst].
    eexists. by_computation.
Defined.

(** ** The command [init] *)

Section Paths.

Lemma relative_to_app (d rest : path) : Cli.relative_to d (d ++ rest)%list = Some rest.
Proof.
  induction d as [|a d IH]; simpl; [now destruct rest|].
  now rewrite String.eqb_refl.
Qed.

Lemma relative_to_Some (d p rest : path) :
  Cli.relative_to d p = Some rest -> p = (d ++ rest)%list.
Proof.
  revert p. induction d as [|a d IH]; intros p H.
  - destruct p; simpl in H; now injection H as <-.
  - destruct p as [|b p]; simpl in H; [discriminate|].
    destruct (String.eqb_spec a b) as [->|]; [|discriminate].
    simpl. f_equal. now apply IH.
Qed.

Lemma relative_to_None (d p : path) : Cli.relative_to d p = None -> ~ below d p.
Proof. intros H [rest ->]. now rewrite relative_to_app in H. Qed.

Lemma path_div_app (p rest : path) (name : string) :
  (path_div p name ++ rest)%list = (p ++ name :: rest)%list.
Proof. unfold path_div. now rewrite <- app_assoc. Qed.

(** Two paths that meet are the same, or one runs through the other. *)
Lemma paths_meet (a b : path) (x y : string) (r s : path) :
  (a ++ x :: r)%list = (b ++ y :: s)%list ->
  (a = b /\ x = y /\ r = s) \/ below (path_div a x) b \/ below (path_div b y) a.
Proof.
  revert b. induction a as [|a0 a IH]; intros [|b0 b] H; simpl in H.
  - injection H as -> ->. now left.
  - injection H as -> _. right. left. exists b. reflexivity.
  - injection H as -> _. right. right. exists a. reflexivity.
  - injection H as -> H. destruct (IH b H) as [(-> & -> & ->)|[[rest ->]|[rest ->]]].
    + now left.
    + right. left. exists rest. reflexivity.
    + right. right. exists rest. reflexivity.
Qed.

Variable files : path -> option node.
Hypothesis files_closed : Cli.closed files.

Lemma closed_below (d rest : path) :
  files (d ++ rest)%list <> None -> rest <> [] -> files d = Some Dir.
Proof.
  induction rest as [|x rest IH] using rev_ind; intros Hsome Hne; [congruence|].
  assert (Hparent : files (d ++ rest)%list = Some Dir).
  { apply files_closed with (name := x). unfold path_div. now rewrite <- app_assoc. }
  destruct rest as [|y rest]; [now rewrite app_nil_r in Hparent|].
  apply IH; [congruence | discriminate].
Qed.

Lemma closed_present (d rest : path) :
  files (d ++ rest)%list <> None -> files d <> None.
Proof.
  intros Hsome. destruct rest as [|x rest]; [now rewrite app_nil_r in Hsome|].
  rewrite (@closed_below d (x :: rest) Hsome); discriminate.
Qed.

Lemma closed_absent (d rest : path) : files d = None -> files (d ++ rest)%list = None.
Proof.
  intros Hnone. destruct (files (d ++ rest)%list) eqn:H; [|reflexivity].
  exfalso. apply (@closed_present d rest); congruence.
Qed.

End Paths.
Section CopyDefaults.

Variables pkg_dir cwd : path.

Lemma relative_to_div (d p : path) (x : string) :
  Cli.relative_to (path_div d x) p
  = match Cli.relative_to d p with
    | Some (y :: rest) => if String.eqb x y then Some rest else None
    | _ => None
    end.
Proof.
  unfold path_div. revert p.
  induction d as [|a d IH]; intros [|b p]; simpl; try reflexivity.
  destruct (String.eqb a b); [apply IH | reflexivity].
Qed.

Lemma relative_to_child (d : path) (x : string) (rest : path) :
  Cli.relative_to d (d ++ x :: rest)%list = Some (x :: rest).
Proof. apply relative_to_app. Qed.

Variable files : path -> option node.
Hypothesis files_sound : Cli.sound files pkg_dir cwd.

(** Nothing that exists lies below a path that does not. *)
Lemma copytree_keeps (src dst p : path) (n : node) :
  files dst = None -> files p = Some n -> Cli.copytree files src dst p = Some n.
Proof.
  intros Hdst Hp. unfold Cli.copytree.
  destruct (Cli.relative_to dst p) as [rest|] eqn:Hrel; [|exact Hp].
  apply relative_to_Some in Hrel. subst p.
  rewrite (closed_absent (proj1 files_sound) dst rest Hdst) in Hp. discriminate.
Qed.

Lemma copytree_sound (name : string) :
  files (path_div pkg_dir name) = Some Dir -> files (path_div cwd name) = None ->
  Cli.sound (Cli.copytree files (path_div pkg_dir name) (path_div cwd name)) pkg_dir cwd.
Proof.
  intros Hsrc Hdst. destruct files_sound as (Hclosed & Hcwd & Hpkg).
  split; [|split; now apply copytree_keeps].
  intros p x Hsome. unfold Cli.copytree in Hsome.
  destruct (Cli.relative_to (path_div cwd name) (path_div p x)) as [rest|] eqn:Hrel.
  - apply relative_to_Some in Hrel.
    destruct rest as [|y rest] using rev_ind.
    + rewrite app_nil_r in Hrel. apply app_inj_tail in Hrel as [-> _].
      now apply copytree_keeps.
    + clear IHrest. unfold path_div in Hrel at 1.
      rewrite app_assoc in Hrel. apply app_inj_tail in Hrel as [-> ->].
      unfold Cli.copytree. rewrite relative_to_app.
      apply Hclosed with (name := y). unfold path_div at 1.
      now rewrite <- app_assoc.
  - apply copytree_keeps; [exact Hdst|]. now apply Hclosed with (name := x).
Qed.

Lemma write_text_keeps (target p : path) (text : string) (n : node) :
  files target = None -> files p = Some n -> Cli.write_text files target text p = Some n.
Proof.
  intros Htarget Hp. unfold Cli.write_text.
  destruct (list_eq_dec string_dec target p) as [->|]; [congruence | exact Hp].
Qed.

Lemma write_text_sound (name text : string) :
  files (path_div cwd name) = None ->
  Cli.sound (Cli.write_text files (path_div cwd name) text) pkg_dir cwd.
Proof.
  intros Htarget. destruct files_sound as (Hclosed & Hcwd & Hpkg).
  split; [|split; now apply write_text_keeps].
  intros p x Hsome. unfold Cli.write_text in Hsome.
  destruct (list_eq_dec string_dec (path_div cwd name) (path_div p x)) as [Heq|Hne].
  - apply app_inj_tail in Heq as [<- _]. now apply write_text_keeps.
  - apply write_text_keeps; [exact Htarget|]. now apply Hclosed with (name := x).
Qed.

(** A copy into the working directory leaves the bundled directories as
    they are. *)
Lemma bundled_untouched (name other : string) (rest : path) :
  files (path_div cwd name) = None -> Cli.apart pkg_dir cwd other -> other <> name ->
  Cli.relative_to (path_div cwd name) (pkg_dir ++ other :: rest)%list = None.
Proof.
  intros Hdst Hapart Hne.
  destruct (Cli.relative_to (path_div cwd name) (pkg_dir ++ other :: rest)%list)
    as [r|] eqn:Hrel; [|reflexivity].
  exfalso. apply relative_to_Some in Hrel. rewrite path_div_app in Hrel.
  destruct (@paths_meet _ _ _ _ _ _ Hrel) as [(_ & Heq & _)|[Hcwd|[r' Hpkg]]].
  - now apply Hne.
  - now apply Hapart.
  - destruct files_sound as (Hclosed & _ & Hdir).
    apply (@closed_present files Hclosed (path_div cwd name) r').
    rewrite <- Hpkg, Hdir. discriminate. exact Hdst.
Qed.

Lemma copytree_bundled (src : path) (name other : string) (rest : path) :
  files (path_div cwd name) = None -> Cli.apart pkg_dir cwd other -> other <> name ->
  Cli.copytree files src (path_div cwd name) (path_div pkg_dir other ++ rest)%list
  = files (path_div pkg_dir other ++ rest)%list.
Proof.
  intros Hdst Hapart Hne. unfold Cli.copytree. rewrite path_div_app.
  now rewrite bundled_untouched.
Qed.

Lemma copytree_bundled_dir (src : path) (name other : string) :
  files (path_div cwd name) = None -> Cli.apart pkg_dir cwd other -> other <> name ->
  Cli.copytree files src (path_div cwd name) (path_div pkg_dir other)
  = files (path_div pkg_dir other).
Proof.
  intros Hdst Hapart Hne.
  pose proof (copytree_bundled src [] Hdst Hapart Hne) as H.
  now rewrite app_nil_r in H.
Qed.

Lemma to_copy_true (name : string) :
  Cli.to_copy files pkg_dir cwd name = true ->
  files (path_div pkg_dir name) = Some Dir /\ files (path_div cwd name) = None.
Proof.
  unfold Cli.to_copy.
  destruct (files (path_div pkg_dir name)) as [[|text]|]; try discriminate.
  now destruct (files (path_div cwd name)).
Qed.

Lemma overlay_skip (name : string) (names : list string) (p : path) :
  Cli.to_copy files pkg_dir cwd name = false ->
  Cli.overlay pkg_dir cwd (name :: names) files p = Cli.overlay pkg_dir cwd names files p.
Proof.
  intros Hskip. unfold Cli.overlay.
  destruct (Cli.relative_to cwd p) as [[|x rest]|]; try reflexivity.
  cbn [existsb]. destruct (String.eqb_spec x name) as [->|]; [|reflexivity].
  rewrite Hskip. cbn [orb andb]. now rewrite andb_false_r.
Qed.

Lemma existsb_eqb (x : string) (names : list string) :
  existsb (String.eqb x) names = true <-> In x names.
Proof.
  rewrite existsb_exists. split.
  - intros (y & Hy & Heq). apply String.eqb_eq in Heq. now subst.
  - intros H. exists x. split; [exact H | apply String.eqb_refl].
Qed.

Lemma copytree_at (src : path) (name : string) (p : path) :
  Cli.copytree files src (path_div cwd name) p
  = match Cli.relative_to cwd p with
    | Some (x :: rest) => if String.eqb name x then files (src ++ rest)%list else files p
    | _ => files p
    end.
Proof.
  unfold Cli.copytree. rewrite relative_to_div.
  destruct (Cli.relative_to cwd p) as [[|x rest]|]; try reflexivity.
  now destruct (String.eqb name x).
Qed.

Lemma overlay_copy (name : string) (names : list string) (p : path) :
  ~ In name names ->
  (forall other, In other names -> Cli.apart pkg_dir cwd other) ->
  Cli.to_copy files pkg_dir cwd name = true ->
  Cli.overlay pkg_dir cwd names
    (Cli.copytree files (path_div pkg_dir name) (path_div cwd name)) p
  = Cli.overlay pkg_dir cwd (name :: names) files p.
Proof.
  intros Hfresh Hapart Hcopy.
  destruct (to_copy_true name Hcopy) as [Hsrc Hdst].
  unfold Cli.overlay.
  destruct (Cli.relative_to cwd p) as [[|x rest]|] eqn:Hrel;
    try (rewrite copytree_at, Hrel; reflexivity).
  cbn [existsb]. rewrite (String.eqb_sym x name).
  destruct (String.eqb_spec name x) as [<-|Hne].
  - rewrite Hcopy. cbn [orb andb].
    destruct (existsb (String.eqb name) names) eqn:Hin;
      [apply existsb_eqb in Hin; contradiction|].
    cbn [andb]. rewrite copytree_at, Hrel. now rewrite String.eqb_refl.
  - cbn [orb]. destruct (existsb (String.eqb x) names) eqn:Hin.
    + apply existsb_eqb in Hin. cbn [andb].
      assert (Hne' : x <> name) by congruence.
      replace (Cli.to_copy (Cli.copytree files (path_div pkg_dir name) (path_div cwd name))
                 pkg_dir cwd x)
        with (Cli.to_copy files pkg_dir cwd x).
      * destruct (Cli.to_copy files pkg_dir cwd x).
        -- now apply copytree_bundled; [|apply Hapart|].
        -- rewrite copytree_at, Hrel.
           destruct (String.eqb_spec name x); [contradiction | reflexivity].
      * unfold Cli.to_copy.
        rewrite (copytree_bundled_dir _ Hdst (Hapart x Hin) Hne'). rewrite copytree_at.
        replace (Cli.relative_to cwd (path_div cwd x)) with (Some [x])
          by (symmetry; apply relative_to_child).
        destruct (String.eqb_spec name x); [contradiction | reflexivity].
    + cbn [andb]. rewrite copytree_at, Hrel.
      destruct (String.eqb_spec name x); [contradiction | reflexivity].
Qed.

Lemma copytree_sibling (src : path) (name other : string) :
  other <> name ->
  Cli.copytree files src (path_div cwd name) (path_div cwd other)
  = files (path_div cwd other).
Proof.
  intros Hne. rewrite copytree_at.
  replace (Cli.relative_to cwd (path_div cwd other)) with (Some [other])
    by (symmetry; apply relative_to_child).
  destruct (String.eqb_spec name other); [congruence | reflexivity].
Qed.

(** The overlay below a directory of the working directory. *)
Lemma overlay_subdir (names : list string) (name : string) (rest : path) :
  In name names ->
  Cli.overlay pkg_dir cwd names files (cwd ++ name :: rest)%list
  = if Cli.to_copy files pkg_dir cwd name
    then files (pkg_dir ++ name :: rest)%list
    else files (cwd ++ name :: rest)%list.
Proof.
  intros Hin. unfold Cli.overlay. rewrite relative_to_child.
  apply existsb_eqb in Hin. rewrite Hin. cbn [andb]. now rewrite path_div_app.
Qed.

(** The overlay leaves alone what no directory of the loop is above. *)
Lemma overlay_elsewhere (names : list string) (p : path) :
  (forall name rest, In name names -> p <> (cwd ++ name :: rest)%list) ->
  Cli.overlay pkg_dir cwd names files p = files p.
Proof.
  intros Hp. unfold Cli.overlay.
  destruct (Cli.relative_to cwd p) as [[|x rest]|] eqn:Hrel; try reflexivity.
  destruct (existsb (String.eqb x) names) eqn:Hin; [|reflexivity].
  apply existsb_eqb in Hin. apply relative_to_Some in Hrel.
  now destruct (Hp x rest Hin).
Qed.

(** The overlay leaves alone the bundled directories. *)
Lemma overlay_bundled (names : list string) (name : string) (rest : path) :
  Cli.apart pkg_dir cwd name ->
  Cli.overlay pkg_dir cwd names files (pkg_dir ++ name :: rest)%list
  = files (pkg_dir ++ name :: rest)%list.
Proof.
  intros Hapart. unfold Cli.overlay.
  destruct (Cli.relative_to cwd (pkg_dir ++ name :: rest)%list) as [[|x r]|] eqn:Hrel;
    try reflexivity.
  destruct (existsb (String.eqb x) names); [|reflexivity]. cbn [andb].
  destruct (Cli.to_copy files pkg_dir cwd x) eqn:Hcopy; [|reflexivity].
  apply relative_to_Some in Hrel.
  destruct (@paths_meet _ _ _ _ _ _ Hrel) as [(-> & -> & ->)|[Hcwd|[r' Hpkg]]].
  - now rewrite path_div_app.
  - now destruct Hapart.
  - exfalso. destruct (to_copy_true x Hcopy) as [_ Hdst].
    destruct files_sound as (Hclosed & _ & Hdir).
    apply (@closed_present files Hclosed (path_div cwd x) r'); [|exact Hdst].
    rewrite <- Hpkg, Hdir. discriminate.
Qed.

End CopyDefaults.
Section CopyLoop.

Variables pkg_dir cwd : path.

Lemma present_true (r : Cli.run) (p : path) :
  Cli.present r p = true <-> Cli.disk r p <> None.
Proof. unfold Cli.present. destruct (Cli.disk r p); split; congruence. Qed.

Lemma present_false (r : Cli.run) (p : path) :
  Cli.present r p = false <-> Cli.disk r p = None.
Proof. unfold Cli.present. destruct (Cli.disk r p); split; congruence. Qed.

(** One round of the loop: a copy, a failure, or nothing but a message. *)
Lemma copy_defaults_round (name : string) (names : list string) (r : Cli.run) :
  (Cli.to_copy (Cli.disk r) pkg_dir cwd name = true
   /\ Cli.copy_defaults pkg_dir cwd (name :: names) r
      = Cli.copy_defaults pkg_dir cwd names
          (Cli.print (Cli.created (name ++ "/"))
             (Cli.mk_run (Cli.copytree (Cli.disk r) (path_div pkg_dir name)
                            (path_div cwd name))
                         (Cli.console r))))
  \/ ((exists text, Cli.disk r (path_div pkg_dir name) = Some (File text))
      /\ Cli.disk r (path_div cwd name) = None
      /\ Cli.copy_defaults pkg_dir cwd (name :: names) r
         = (Some (Cli.NotADirectoryError (path_div pkg_dir name)), r))
  \/ (Cli.to_copy (Cli.disk r) pkg_dir cwd name = false
      /\ (Cli.disk r (path_div cwd name) = None ->
          Cli.disk r (path_div pkg_dir name) = None)
      /\ exists r',
           Cli.disk r' = Cli.disk r
           /\ Cli.console r'
              = (Cli.console r
                 ++ if Cli.present r (path_div cwd name) then [Cli.skipped name] else [])%list
           /\ Cli.copy_defaults pkg_dir cwd (name :: names) r
              = Cli.copy_defaults pkg_dir cwd names r').
Proof.
  cbn [Cli.copy_defaults]. unfold Cli.to_copy, Cli.present.
  destruct (Cli.disk r (path_div pkg_dir name)) as [[|text]|] eqn:Hsrc;
    destruct (Cli.disk r (path_div cwd name)) as [n|] eqn:Hdst; cbn [andb negb].
  - right. right. split; [reflexivity|]. split; [discriminate|].
    exists (Cli.print (Cli.skipped name) r). now repeat split.
  - left. now split.
  - right. right. split; [reflexivity|]. split; [discriminate|].
    exists (Cli.print (Cli.skipped name) r). now repeat split.
  - right. left. split; [now exists text|]. now split.
  - right. right. split; [reflexivity|]. split; [discriminate|].
    exists (Cli.print (Cli.skipped name) r). now repeat split.
  - right. right. split; [reflexivity|]. split; [reflexivity|].
    exists r. split; [reflexivity|]. split; [now rewrite app_nil_r | reflexivity].
Qed.

(** The copies never replace what is there, whether the loop comes to
    its end or not. *)
Lemma copy_defaults_keeps (names : list string) :
  forall r : Cli.run,
    Cli.sound (Cli.disk r) pkg_dir cwd ->
    forall p n,
      Cli.disk r p = Some n ->
      Cli.disk (snd (Cli.copy_defaults pkg_dir cwd names r)) p = Some n.
Proof.
  induction names as [|name names IH]; intros r Hsound p n Hp; [exact Hp|].
  destruct (copy_defaults_round name names r)
    as [[Hcopy ->]|[(_ & _ & ->)|(_ & _ & r' & Hdisk & _ & ->)]].
  - destruct (to_copy_true _ _ _ _ Hcopy) as [Hsrc Hdst].
    apply IH; cbn [Cli.print Cli.disk].
    + now apply copytree_sound.
    + now apply (copytree_keeps Hsound).
  - exact Hp.
  - apply IH; now rewrite Hdisk.
Qed.

(** What the copies add lies below the working directory, in one of the
    directories of the loop. *)
Lemma copy_defaults_adds (names : list string) :
  forall (r : Cli.run) (p : path),
    Cli.disk r p = None ->
    Cli.disk (snd (Cli.copy_defaults pkg_dir cwd names r)) p <> None ->
    exists name rest, In name names /\ p = (cwd ++ name :: rest)%list.
Proof.
  induction names as [|name names IH]; intros r p Hp Hnew; [contradiction|].
  destruct (copy_defaults_round name names r)
    as [[Hcopy Hrun]|[(_ & _ & Hrun)|(_ & _ & r' & Hdisk & _ & Hrun)]];
    rewrite Hrun in Hnew.
  - destruct (Cli.relative_to (path_div cwd name) p) as [rest|] eqn:Hrel.
    + apply relative_to_Some in Hrel. rewrite path_div_app in Hrel.
      exists name, rest. split; [now left | exact Hrel].
    + match type of Hnew with Cli.disk (snd (_ _ _ _ ?r1)) _ <> _ =>
        assert (Hp1 : Cli.disk r1 p = None) end.
      { cbn [Cli.print Cli.disk]. unfold Cli.copytree. now rewrite Hrel. }
      destruct (IH _ p Hp1 Hnew) as (x & rest & Hin & ->).
      exists x, rest. split; [now right | reflexivity].
  - contradiction.
  - assert (Hp1 : Cli.disk r' p = None) by now rewrite Hdisk.
    destruct (IH _ p Hp1 Hnew) as (x & rest & Hin & ->).
    exists x, rest. split; [now right | reflexivity].
Qed.

(** The loop comes to its end when no bundled directory to copy is a
    file, and then the files are those the overlay tells. *)
Lemma copy_defaults_ok (names : list string) :
  forall r : Cli.run,
    NoDup names ->
    Cli.sound (Cli.disk r) pkg_dir cwd ->
    (forall name, In name names -> Cli.apart pkg_dir cwd name) ->
    (forall name, In name names -> Cli.disk r (path_div cwd name) = None ->
                  forall text, Cli.disk r (path_div pkg_dir name) <> Some (File text)) ->
    exists r',
      Cli.copy_defaults pkg_dir cwd names r = (None, r')
      /\ Cli.sound (Cli.disk r') pkg_dir cwd
      /\ forall p, Cli.disk r' p = Cli.overlay pkg_dir cwd names (Cli.disk r) p.
Proof.
  induction names as [|name names IH]; intros r Hnodup Hsound Hapart Hdirs.
  - exists r. split; [reflexivity|]. split; [exact Hsound|].
    intros p. unfold Cli.overlay.
    now destruct (Cli.relative_to cwd p) as [[|x rest]|].
  - apply NoDup_cons_iff in Hnodup as [Hfresh Hnodup].
    destruct (copy_defaults_round name names r)
      as [[Hcopy ->]|[((text & Hfile) & Hdst & _)|(Hskip & _ & r' & Hdisk & _ & ->)]].
    + destruct (to_copy_true _ _ _ _ Hcopy) as [Hsrc Hdst].
      edestruct (IH (Cli.print (Cli.created (name ++ "/"))
                       (Cli.mk_run (Cli.copytree (Cli.disk r) (path_div pkg_dir name)
                                      (path_div cwd name))
                                   (Cli.console r))))
        as (r' & Hrun & Hsound' & Hfiles); [exact Hnodup | | | |].
      * cbn [Cli.print Cli.disk]. now apply copytree_sound.
      * intros x Hx. apply Hapart. now right.
      * cbn [Cli.print Cli.disk]. intros x Hx Habsent text.
        assert (Hne : x <> name) by (intros ->; contradiction).
        rewrite (copytree_bundled_dir Hsound _ Hdst (Hapart x (or_intror Hx)) Hne).
        apply Hdirs; [now right|].
        destruct (Cli.disk r (path_div cwd x)) as [n|] eqn:Hthere; [|reflexivity].
        rewrite (@copytree_keeps _ _ _ Hsound (path_div pkg_dir name) _ _ _ Hdst Hthere) in Habsent. discriminate.
      * exists r'. split; [exact Hrun|]. split; [exact Hsound'|].
        intros p. rewrite Hfiles. cbn [Cli.print Cli.disk].
        apply (overlay_copy Hsound); [exact Hfresh | | exact Hcopy].
        intros x Hx. apply Hapart. now right.
    + exfalso. apply (Hdirs name (or_introl eq_refl) Hdst text Hfile).
    + edestruct (IH r') as (r'' & Hrun & Hsound' & Hfiles); [exact Hnodup | | | |].
      * now rewrite Hdisk.
      * intros x Hx. apply Hapart. now right.
      * rewrite Hdisk. intros x Hx. apply Hdirs. now right.
      * exists r''. split; [exact Hrun|]. split; [exact Hsound'|].
        intros p. rewrite Hfiles, Hdisk. symmetry. now apply overlay_skip.
Qed.

(** The loop stops early only at a bundled file that the project has no
    directory for. *)
Lemma copy_defaults_fails (names : list string) :
  forall (r r' : Cli.run) (e : Cli.failure),
    NoDup names ->
    Cli.sound (Cli.disk r) pkg_dir cwd ->
    (forall name, In name names -> Cli.apart pkg_dir cwd name) ->
    Cli.copy_defaults pkg_dir cwd names r = (Some e, r') ->
    exists name text,
      In name names
      /\ Cli.disk r (path_div cwd name) = None
      /\ Cli.disk r (path_div pkg_dir name) = Some (File text).
Proof.
  induction names as [|name names IH]; intros r r' e Hnodup Hsound Hapart Hrun;
    [discriminate|].
  apply NoDup_cons_iff in Hnodup as [Hfresh Hnodup].
  destruct (copy_defaults_round name names r)
    as [[Hcopy Hstep]|[((text & Hfile) & Hdst & _)|(_ & _ & r1 & Hdisk & _ & Hstep)]].
  - rewrite Hstep in Hrun. destruct (to_copy_true _ _ _ _ Hcopy) as [Hsrc Hdst].
    apply IH in Hrun as (x & text & Hx & Habsent & Hfile); [|exact Hnodup | |].
    + cbn [Cli.print Cli.disk] in Habsent, Hfile.
      assert (Hne : x <> name) by (intros ->; contradiction).
      exists x, text. split; [now right|]. split.
      * destruct (Cli.disk r (path_div cwd x)) as [n|] eqn:Hthere; [|reflexivity].
        rewrite (@copytree_keeps _ _ _ Hsound (path_div pkg_dir name) _ _ _ Hdst Hthere) in Habsent. discriminate.
      * now rewrite (copytree_bundled_dir Hsound _ Hdst (Hapart x (or_intror Hx)) Hne)
          in Hfile.
    + cbn [Cli.print Cli.disk]. now apply copytree_sound.
    + intros x Hx. apply Hapart. now right.
  - exists name, text. split; [now left|]. now split.
  - rewrite Hstep in Hrun.
    apply IH in Hrun as (x & text & Hx & Habsent & Hfile); [|exact Hnodup | |].
    + rewrite Hdisk in Habsent, Hfile. exists x, text. split; [now right|]. now split.
    + now rewrite Hdisk.
    + intros x Hx. apply Hapart. now right.
Qed.

(** Where nothing is to copy, the loop leaves the files alone and tells
    which directories it has found. *)
Lemma copy_defaults_settled (names : list string) :
  forall r : Cli.run,
    (forall name, In name names ->
       Cli.present r (path_div cwd name) = true
       \/ Cli.present r (path_div pkg_dir name) = false) ->
    exists r',
      Cli.copy_defaults pkg_dir cwd names r = (None, r')
      /\ Cli.disk r' = Cli.disk r
      /\ Cli.console r'
         = (Cli.console r
            ++ map Cli.skipped
                 (filter (fun name => Cli.present r (path_div cwd name)) names))%list.
Proof.
  induction names as [|name names IH]; intros r Hsettled.
  - exists r. cbn [filter map]. now rewrite app_nil_r.
  - cbn [Cli.copy_defaults filter].
    assert (Hrest : forall r1, Cli.disk r1 = Cli.disk r ->
              forall x, In x names ->
                Cli.present r1 (path_div cwd x) = true
                \/ Cli.present r1 (path_div pkg_dir x) = false).
    { intros r1 Hdisk x Hx. unfold Cli.present. rewrite Hdisk.
      apply Hsettled. now right. }
    assert (Hfilter : forall r1, Cli.disk r1 = Cli.disk r ->
              filter (fun x => Cli.present r1 (path_div cwd x)) names
              = filter (fun x => Cli.present r (path_div cwd x)) names).
    { intros r1 Hdisk. apply filter_ext. intros x. unfold Cli.present. now rewrite Hdisk. }
    destruct (Hsettled name (or_introl eq_refl)) as [Hdst|Hsrc].
    + rewrite Hdst, andb_false_r.
      destruct (IH (Cli.print (Cli.skipped name) r)) as (r' & Hrun & Hdisk & Hout);
        [now apply Hrest|].
      exists r'. split; [exact Hrun|]. split; [exact Hdisk|].
      rewrite Hout, Hfilter by reflexivity. cbn [Cli.print Cli.console map].
      now rewrite <- app_assoc.
    + rewrite Hsrc. cbn [andb].
      destruct (Cli.present r (path_div cwd name)) eqn:Hdst.
      * destruct (IH (Cli.print (Cli.skipped name) r)) as (r' & Hrun & Hdisk & Hout);
          [now apply Hrest|].
        exists r'. split; [exact Hrun|]. split; [exact Hdisk|].
        rewrite Hout, Hfilter by reflexivity. cbn [Cli.print Cli.console map].
        now rewrite <- app_assoc.
      * destruct (IH r) as (r' & Hrun & Hdisk & Hout); [now apply Hrest|].
        exists r'. now repeat split.
Qed.

End CopyLoop.
Section CopyDone.

Variables pkg_dir cwd : path.

(** When the loop has come to its end, no bundled directory it had to
    copy was a file. *)
Lemma copy_defaults_done (names : list string) :
  forall r r' : Cli.run,
    NoDup names ->
    Cli.sound (Cli.disk r) pkg_dir cwd ->
    (forall name, In name names -> Cli.apart pkg_dir cwd name) ->
    Cli.copy_defaults pkg_dir cwd names r = (None, r') ->
    forall name, In name names -> Cli.disk r (path_div cwd name) = None ->
                 forall text, Cli.disk r (path_div pkg_dir name) <> Some (File text).
Proof.
  induction names as [|name names IH];
    intros r r' Hnodup Hsound Hapart Hrun x Hx Habsent text; [contradiction|].
  apply NoDup_cons_iff in Hnodup as [Hfresh Hnodup].
  destruct (copy_defaults_round pkg_dir cwd name names r)
    as [[Hcopy Hstep]|[(_ & _ & Hstep)|(_ & Hnone & r1 & Hdisk & _ & Hstep)]];
    rewrite Hstep in Hrun; [| discriminate |].
  - destruct (to_copy_true _ _ _ _ Hcopy) as [Hsrc Hdst].
    destruct Hx as [<-|Hx]; [congruence|].
    assert (Hne : x <> name) by (intros ->; contradiction).
    rewrite <- (@copytree_bundled_dir _ _ _ Hsound (path_div pkg_dir name) name x Hdst
                  (Hapart x (or_intror Hx)) Hne).
    match type of Hrun with Cli.copy_defaults _ _ _ ?r1 = _ =>
      apply (IH r1 r' Hnodup) with (name := x) end; [| | exact Hrun | exact Hx |].
    + cbn [Cli.print Cli.disk]. now apply copytree_sound.
    + intros y Hy. apply Hapart. now right.
    + cbn [Cli.print Cli.disk]. now rewrite copytree_sibling.
  - destruct Hx as [<-|Hx]; [rewrite (Hnone Habsent); discriminate|].
    rewrite <- Hdisk. apply (IH r1 r' Hnodup) with (name := x);
      [| | exact Hrun | exact Hx |].
    + now rewrite Hdisk.
    + intros y Hy. apply Hapart. now right.
    + now rewrite Hdisk.
Qed.

Lemma write_text_at (files : path -> option node) (target : path) (text : string) :
  Cli.write_text files target text target = Some (File text).
Proof. unfold Cli.write_text. now destruct (list_eq_dec string_dec target target). Qed.

Lemma write_text_other (files : path -> option node) (target p : path) (text : string) :
  target <> p -> Cli.write_text files target text p = files p.
Proof.
  intros Hne. unfold Cli.write_text.
  now destruct (list_eq_dec string_dec target p).
Qed.

Lemma create_there (name text : string) (r : Cli.run) :
  Cli.present r (path_div cwd name) = true -> Cli.create cwd name text r = r.
Proof. intros H. unfold Cli.create. now rewrite H. Qed.

Lemma create_other (name text : string) (r : Cli.run) (p : path) :
  p <> path_div cwd name -> Cli.disk (Cli.create cwd name text r) p = Cli.disk r p.
Proof.
  intros Hne. unfold Cli.create.
  destruct (Cli.present r (path_div cwd name)); [reflexivity|].
  cbn [negb Cli.print Cli.disk]. apply write_text_other. congruence.
Qed.

Lemma create_at (name text : string) (r : Cli.run) :
  Cli.disk (Cli.create cwd name text r) (path_div cwd name)
  = match Cli.disk r (path_div cwd name) with
    | Some n => Some n
    | None => Some (File text)
    end.
Proof.
  unfold Cli.create, Cli.present.
  destruct (Cli.disk r (path_div cwd name)) as [n|] eqn:H; cbn [negb]; [exact H|].
  cbn [Cli.print Cli.disk]. apply write_text_at.
Qed.

Lemma create_keeps (name text : string) (r : Cli.run) (p : path) (n : node) :
  Cli.disk r p = Some n -> Cli.disk (Cli.create cwd name text r) p = Some n.
Proof.
  intros Hp. destruct (list_eq_dec string_dec p (path_div cwd name)) as [->|Hne].
  - rewrite create_at. now rewrite Hp.
  - now rewrite create_other.
Qed.

Lemma create_sound (name text : string) (r : Cli.run) :
  Cli.sound (Cli.disk r) pkg_dir cwd ->
  Cli.sound (Cli.disk (Cli.create cwd name text r)) pkg_dir cwd.
Proof.
  intros Hsound. unfold Cli.create, Cli.present.
  destruct (Cli.disk r (path_div cwd name)) eqn:H; cbn [negb]; [exact Hsound|].
  cbn [Cli.print Cli.disk]. now apply write_text_sound.
Qed.

End CopyDone.
(** ** The same configuration in another place *)

Section Moved.

Lemma same_outcome_refl {A} (r : result A) : same_outcome r r.
Proof. now destruct r. Qed.

Lemma same_outcome_bind {A B} (c c' : result A) (k k' : A -> result B) :
  same_outcome c c' -> (forall a, c' = Ok a -> same_outcome (k a) (k' a)) ->
  same_outcome (rbind c k) (rbind c' k').
Proof.
  intros Hc Hk. destruct c as [a|e], c' as [a'|e']; simpl in *; try contradiction.
  - subst a'. now apply Hk.
  - exact Hc.
Qed.

Variables w w' : world.
Variables root root' : path.

Hypothesis same_parser : safe_load w' = safe_load w.
Hypothesis same_dump : yaml_dump w' = yaml_dump w.
Hypothesis same_str : str_of w' = str_of w.
Hypothesis root_w : _find_config_root w = root.
Hypothesis root_w' : _find_config_root w' = root'.
Hypothesis same_files :
  forall name rest,
    In name ["governance"; "standards"; "personas"] -> steps_up rest = false ->
    fs w' (root' ++ name :: rest)%list = fs w (root ++ name :: rest)%list.

Ltac moved_with known :=
  repeat first
    [ known
    | apply same_outcome_refl
    | apply same_outcome_bind; [|intros ? ?]
    | match goal with
      | |- same_outcome (if ?b then _ else _) (if ?b then _ else _) => destruct b
      | |- same_outcome (match ?x with _ => _ end) (match ?x with _ => _ end) => destruct x
      end ].

Lemma load_yaml_moved (name : string) (rest : path) :
  In name ["governance"; "standards"; "personas"] -> steps_up rest = false ->
  same_outcome (load_yaml w' (root' ++ name :: rest)%list)
               (load_yaml w (root ++ name :: rest)%list).
Proof.
  intros Hin Hrest. unfold load_yaml, exists_.
  rewrite (same_files rest Hin Hrest), same_parser.
  destruct (fs w (root ++ name :: rest)%list) as [[|content]|]; simpl; try reflexivity.
  apply same_outcome_refl.
Qed.

Lemma exists_moved (name : string) (rest : path) :
  In name ["governance"; "standards"; "personas"] -> steps_up rest = false ->
  exists_ w' (root' ++ name :: rest)%list = exists_ w (root ++ name :: rest)%list.
Proof. intros Hin Hrest. unfold exists_. now rewrite (same_files rest Hin Hrest). Qed.

Lemma get_paths_moved :
  _get_paths w = (root, path_div root "governance", path_div root "standards",
                  path_div root "personas")
  /\ _get_paths w' = (root', path_div root' "governance", path_div root' "standards",
                      path_div root' "personas").
Proof. unfold _get_paths. now rewrite root_w, root_w'. Qed.

Lemma load_personas_moved : same_outcome (load_personas w') (load_personas w).
Proof.
  unfold load_personas. rewrite (proj1 get_paths_moved), (proj2 get_paths_moved).
  unfold path_div. rewrite <- !app_assoc. apply load_yaml_moved; [cbn; tauto | reflexivity].
Qed.

(** Below a directory of the root, a name that stays inside leads to the
    same place in both worlds. *)
Lemma joined_moved (name : string) (dir : path) (f : string) :
  In name ["governance"; "standards"; "personas"] -> steps_up dir = false ->
  inside f = true ->
  path_join (root' ++ name :: dir)%list f = (root' ++ name :: dir ++ path_parts f)%list
  /\ path_join (root ++ name :: dir)%list f = (root ++ name :: dir ++ path_parts f)%list
  /\ steps_up (dir ++ path_parts f)%list = false.
Proof.
  intros Hin Hdir Hf.
  destruct (@path_join_inside (root' ++ name :: dir)%list f Hf) as [-> Hparts].
  destruct (@path_join_inside (root ++ name :: dir)%list f Hf) as [-> _].
  rewrite <- !app_assoc. cbn [app]. now rewrite steps_up_app, Hdir, Hparts.
Qed.

Lemma load_governance_from_moved (files : list value) :
  Forall inside_value files ->
  forall governance,
    same_outcome (load_governance_from w' (path_div root' "governance") files governance)
                 (load_governance_from w (path_div root "governance") files governance).
Proof.
  intros Hfiles.
  induction Hfiles as [|filename files Hname _ IH]; intros governance; [reflexivity|].
  cbn [load_governance_from]. destruct filename; try reflexivity.
  cbn [div_value rbind fst snd]. unfold path_div.
  destruct (@joined_moved "governance" [] s) as (-> & -> & Hrest);
    [cbn; tauto | reflexivity | exact Hname |].
  rewrite exists_moved by (cbn; tauto || exact Hrest).
  destruct (exists_ w (root ++ "governance" :: [] ++ path_parts s)%list); [|apply IH].
  apply same_outcome_bind; [apply load_yaml_moved; [cbn; tauto | exact Hrest]|].
  intros doc _. apply IH.
Qed.

Lemma load_governance_moved (files : value) :
  names_inside files ->
  same_outcome (load_governance w' files) (load_governance w files).
Proof.
  intros Hinside. unfold load_governance.
  rewrite (proj1 get_paths_moved), (proj2 get_paths_moved).
  apply same_outcome_bind; [apply same_outcome_refl|].
  intros names Hiter. apply load_governance_from_moved.
  now apply names_inside_all with files.
Qed.

Lemma load_domains_moved (dir : path) (files : list value) :
  steps_up dir = false -> Forall inside_value files ->
  forall domains,
    same_outcome
      (load_domains w' (root' ++ "standards" :: dir)%list files domains)
      (load_domains w (root ++ "standards" :: dir)%list files domains).
Proof.
  intros Hdir Hfiles.
  induction Hfiles as [|filename files Hname _ IH]; intros domains; [reflexivity|].
  cbn [load_domains]. destruct filename; try reflexivity.
  cbn [div_value rbind fst snd].
  destruct (@joined_moved "standards" dir s) as (-> & -> & Hrest);
    [cbn; tauto | exact Hdir | exact Hname |].
  rewrite exists_moved by (cbn; tauto || exact Hrest).
  destruct (exists_ w (root ++ "standards" :: dir ++ path_parts s)%list); [|apply IH].
  apply same_outcome_bind; [apply load_yaml_moved; [cbn; tauto | exact Hrest]|].
  intros doc _. apply IH.
Qed.

Lemma load_standard_moved (standard_id : string) :
  inside standard_id = true -> names_inside (manifest_files w standard_id) ->
  same_outcome (load_standard w' (VStr standard_id)) (load_standard w (VStr standard_id)).
Proof.
  intros Hid Hfiles. unfold manifest_files in Hfiles. unfold load_standard.
  rewrite (proj1 get_paths_moved) in *. rewrite (proj2 get_paths_moved).
  cbn [div_value rbind fst snd]. unfold path_div in *.
  destruct (@joined_moved "standards" [] standard_id) as (Hjoin' & Hjoin & Hdir);
    [cbn; tauto | reflexivity | exact Hid |].
  cbn [app] in Hjoin', Hjoin, Hdir. rewrite Hjoin in *. rewrite Hjoin'.
  rewrite <- !app_assoc in *. cbn [app] in *.
  assert (Hmanifest : steps_up (path_parts standard_id ++ ["manifest.yaml"])%list = false)
    by now rewrite steps_up_app, Hdir.
  rewrite exists_moved by (cbn; tauto || exact Hdir).
  destruct (negb (exists_ w (root ++ "standards" :: path_parts standard_id)%list));
    [reflexivity|].
  apply same_outcome_bind; [apply load_yaml_moved; [cbn; tauto | exact Hmanifest]|].
  intros manifest Hloaded. rewrite Hloaded in Hfiles. cbn [rbind] in Hfiles.
  destruct (negb (Py.truthy manifest)); [reflexivity|].
  apply same_outcome_bind; [apply same_outcome_refl|]. intros std Hstd.
  rewrite Hstd in Hfiles. cbn [rbind] in Hfiles.
  apply same_outcome_bind; [apply same_outcome_refl|]. intros files Hget.
  rewrite Hget in Hfiles.
  apply same_outcome_bind; [apply same_outcome_refl|]. intros names Hiter.
  apply same_outcome_bind; [|intros; apply same_outcome_refl].
  apply load_domains_moved; [exact Hdir | now apply names_inside_all with files].
Qed.

Lemma get_persona_config_moved (name : string) :
  same_outcome (get_persona_config w' name) (get_persona_config w name).
Proof. unfold get_persona_config. moved_with ltac:(apply load_personas_moved). Qed.

Lemma get_persona_governance_moved (name : string) :
  persona_inside w name ->
  same_outcome (get_persona_governance w' name) (get_persona_governance w name).
Proof.
  intros Hinside. unfold get_persona_governance.
  apply same_outcome_bind; [apply get_persona_config_moved|]. intros config Hconfig.
  destruct (negb (Py.truthy config)); [reflexivity|].
  apply same_outcome_bind; [apply same_outcome_refl|]. intros files Hfiles.
  apply load_governance_moved. now apply (proj1 (Hinside config Hconfig)).
Qed.

Lemma load_standards_moved (ids : list value) :
  (forall id, In (VStr id) ids -> inside id = true /\ names_inside (manifest_files w id)) ->
  forall standards,
    same_outcome (load_standards w' ids standards) (load_standards w ids standards).
Proof.
  induction ids as [|standard_id ids IH]; intros Hids standards; [reflexivity|].
  assert (Hrest : forall id, In (VStr id) ids ->
            inside id = true /\ names_inside (manifest_files w id))
    by (intros id Hid; apply Hids; now right).
  cbn [load_standards]. destruct standard_id as [| | |id| |]; try reflexivity.
  destruct (Hids id (or_introl eq_refl)) as [Hid Hfiles].
  apply same_outcome_bind; [now apply load_standard_moved|].
  intros standard _. destruct (Py.truthy standard); now apply IH.
Qed.

Lemma get_persona_standards_moved (name : string) :
  persona_inside w name ->
  same_outcome (get_persona_standards w' name) (get_persona_standards w name).
Proof.
  intros Hinside. unfold get_persona_standards.
  apply same_outcome_bind; [apply get_persona_config_moved|]. intros config Hconfig.
  destruct (negb (Py.truthy config)); [reflexivity|].
  apply same_outcome_bind; [apply same_outcome_refl|]. intros ids Hids.
  apply same_outcome_bind; [apply same_outcome_refl|]. intros names Hnames.
  apply load_standards_moved. intros id Hid.
  now apply (proj2 (Hinside config Hconfig) ids names id).
Qed.

Lemma py_str_moved (v : value) : py_str w' v = py_str w v.
Proof. unfold py_str. now rewrite same_str. Qed.

Lemma format_governance_moved (governance : dict) :
  format_governance_for_prompt w' governance = format_governance_for_prompt w governance.
Proof.
  unfold format_governance_for_prompt. destruct governance as [|entry rest]; [reflexivity|].
  f_equal. generalize (entry :: rest). intros l.
  induction l as [|[filename content] l IH]; [reflexivity|].
  cbn [governance_sections]. now rewrite same_dump, IH.
Qed.

Ltac same_steps :=
  repeat match goal with
         | |- rbind ?c _ = rbind ?c _ => destruct c; [|reflexivity]; cbn [rbind]
         end.

Lemma control_line_moved (control : value) :
  control_line w' control = control_line w control.
Proof. unfold control_line. same_steps. now rewrite !py_str_moved. Qed.

Lemma control_lines_moved (controls : list value) :
  control_lines w' controls = control_lines w controls.
Proof.
  induction controls as [|control controls IH]; [reflexivity|].
  cbn [control_lines]. now rewrite IH, control_line_moved.
Qed.

Lemma domain_sections_moved (domains : dict) :
  domain_sections w' domains = domain_sections w domains.
Proof.
  induction domains as [|[domain_name domain_content] domains IH]; [reflexivity|].
  cbn [domain_sections]. rewrite IH. same_steps. now rewrite control_lines_moved.
Qed.

Lemma standard_sections_moved (standards : dict) :
  standard_sections w' standards = standard_sections w standards.
Proof.
  induction standards as [|[standard_id content] standards IH]; [reflexivity|].
  cbn [standard_sections]. rewrite IH. same_steps.
  rewrite domain_sections_moved. same_steps. now rewrite !py_str_moved.
Qed.

Lemma format_standards_moved (standards : dict) :
  format_standards_for_prompt w' standards = format_standards_for_prompt w standards.
Proof.
  unfold format_standards_for_prompt. now rewrite standard_sections_moved.
Qed.

Lemma load_all_moved (name : string) :
  persona_inside w name ->
  same_outcome (load_all_for_persona w' name) (load_all_for_persona w name).
Proof.
  intros Hinside. unfold load_all_for_persona.
  apply same_outcome_bind; [apply get_persona_config_moved|]. intros config _.
  destruct (negb (Py.truthy config)); [reflexivity|].
  apply same_outcome_bind; [now apply get_persona_governance_moved|]. intros gov _.
  apply same_outcome_bind; [now apply get_persona_standards_moved|]. intros std _.
  rewrite format_standards_moved, format_governance_moved. apply same_outcome_refl.
Qed.

Lemma build_system_prompt_moved (name : string) :
  persona_inside w name ->
  same_outcome (build_system_prompt w' name) (build_system_prompt w name).
Proof.
  intros Hinside. unfold build_system_prompt.
  apply same_outcome_bind; [now apply load_all_moved|]. intros [data|] _; [|reflexivity].
  match goal with |- same_outcome ?a ?b => replace a with b; [apply same_outcome_refl|] end.
  same_steps. now rewrite !py_str_moved.
Qed.

End Moved.

(** ** What [init] leaves behind *)

Section InitRun.

Variable w : world.
Hypothesis world_ok : Cli.well_formed w.

Lemma subdirs_nodup : NoDup Cli.subdirs.
Proof. repeat constructor; simpl; intuition discriminate. Qed.

(** The run of [init] that comes to its end, step by step. *)
Lemma init_done :
  fst (Cli.init w) = None ->
  exists r,
    Cli.sound (Cli.disk r) (package_dir w) (cwd w)
    /\ (forall p, Cli.disk r p
                  = Cli.overlay (package_dir w) (cwd w) Cli.subdirs (fs w) p)
    /\ snd (Cli.init w)
       = Cli.print Cli.initialized
           (Cli.create (cwd w) ".env.example" Cli.env_example
              (Cli.create (cwd w) "gatekeep.yaml" Cli.gatekeep_yaml r))
    /\ forall name, In name Cli.subdirs -> fs w (path_div (cwd w) name) = None ->
                    forall text, fs w (path_div (package_dir w) name) <> Some (File text).
Proof.
  destruct world_ok as [Hsound Hapart]. unfold Cli.init.
  destruct (Cli.copy_defaults (package_dir w) (cwd w) Cli.subdirs (Cli.mk_run (fs w) []))
    as [[e|] r] eqn:Hrun; [discriminate|]. intros _.
  pose proof (@copy_defaults_done (package_dir w) (cwd w) Cli.subdirs
                (Cli.mk_run (fs w) []) r subdirs_nodup Hsound Hapart Hrun) as Hdirs.
  destruct (@copy_defaults_ok (package_dir w) (cwd w) Cli.subdirs (Cli.mk_run (fs w) [])
              subdirs_nodup Hsound Hapart Hdirs) as (r' & Hrun' & Hsound' & Hfiles).
  rewrite Hrun in Hrun'. injection Hrun' as <-.
  exists r. split; [exact Hsound'|]. split; [exact Hfiles|]. split; [reflexivity|].
  exact Hdirs.
Qed.

Lemma init_starts :
  (forall name, In name Cli.subdirs -> fs w (path_div (cwd w) name) = None ->
                forall text, fs w (path_div (package_dir w) name) <> Some (File text)) ->
  fst (Cli.init w) = None.
Proof.
  intros Hdirs. destruct world_ok as [Hsound Hapart]. unfold Cli.init.
  destruct (@copy_defaults_ok (package_dir w) (cwd w) Cli.subdirs (Cli.mk_run (fs w) [])
              subdirs_nodup Hsound Hapart Hdirs) as (r' & -> & _).
  reflexivity.
Qed.

(** Whatever the outcome, what there was is still there. *)
Lemma init_keeps (p : path) (n : node) :
  fs w p = Some n -> Cli.disk (snd (Cli.init w)) p = Some n.
Proof.
  intros Hp. destruct world_ok as [Hsound _].
  pose proof (@copy_defaults_keeps (package_dir w) (cwd w) Cli.subdirs
                (Cli.mk_run (fs w) []) Hsound p n Hp) as Hkept.
  unfold Cli.init.
  destruct (Cli.copy_defaults (package_dir w) (cwd w) Cli.subdirs (Cli.mk_run (fs w) []))
    as [[e|] r]; cbn [snd] in *; [exact Hkept|].
  cbn [Cli.print Cli.disk]. now apply create_keeps, create_keeps.
Qed.

(** A path in a bundled directory is none of the two files. *)
Lemma bundled_not_created (name file : string) (rest : path) :
  In name Cli.subdirs -> name <> file ->
  (package_dir w ++ name :: rest)%list <> path_div (cwd w) file.
Proof.
  intros Hin Hne Heq. unfold path_div in Heq.
  destruct (@paths_meet _ _ _ _ _ _ Heq) as [(_ & Hsame & _)|[Hcwd|[r Hr]]].
  - contradiction.
  - now apply (proj2 world_ok name Hin).
  - rewrite Hr in Heq. unfold path_div in Heq. rewrite <- !app_assoc in Heq.
    apply app_inv_head in Heq. cbn [app] in Heq. injection Heq as Heq.
    now destruct r.
Qed.

Lemma subdir_not_created (name file : string) (rest : path) :
  name <> file -> (cwd w ++ name :: rest)%list <> path_div (cwd w) file.
Proof.
  intros Hne Heq. unfold path_div in Heq. apply app_inv_head in Heq. congruence.
Qed.

Variable r : Cli.run.
Hypothesis copies :
  forall p, Cli.disk r p = Cli.overlay (package_dir w) (cwd w) Cli.subdirs (fs w) p.
Hypothesis done :
  snd (Cli.init w)
  = Cli.print Cli.initialized
      (Cli.create (cwd w) ".env.example" Cli.env_example
         (Cli.create (cwd w) "gatekeep.yaml" Cli.gatekeep_yaml r)).

Lemma subdirs_not_files (name : string) :
  In name Cli.subdirs -> name <> "gatekeep.yaml" /\ name <> ".env.example".
Proof. intros [<-|[<-|[<-|[]]]]; split; discriminate. Qed.

Lemma final_subdir (name : string) (rest : path) :
  In name Cli.subdirs ->
  Cli.disk (snd (Cli.init w)) (cwd w ++ name :: rest)%list
  = if Cli.to_copy (fs w) (package_dir w) (cwd w) name
    then fs w (package_dir w ++ name :: rest)%list
    else fs w (cwd w ++ name :: rest)%list.
Proof.
  intros Hin. destruct (subdirs_not_files Hin) as [Hyaml Henv].
  rewrite done. cbn [Cli.print Cli.disk].
  rewrite !create_other by now apply subdir_not_created.
  rewrite copies. now apply overlay_subdir.
Qed.

Lemma final_bundled (name : string) (rest : path) :
  In name Cli.subdirs ->
  Cli.disk (snd (Cli.init w)) (package_dir w ++ name :: rest)%list
  = fs w (package_dir w ++ name :: rest)%list.
Proof.
  intros Hin. destruct (subdirs_not_files Hin) as [Hyaml Henv].
  rewrite done. cbn [Cli.print Cli.disk].
  rewrite !create_other by now apply bundled_not_created.
  rewrite copies. apply (overlay_bundled (proj1 world_ok)). now apply (proj2 world_ok).
Qed.

Lemma final_file (file : string) :
  ~ In file Cli.subdirs ->
  Cli.disk r (path_div (cwd w) file) = fs w (path_div (cwd w) file).
Proof.
  intros Hfile. rewrite copies. apply overlay_elsewhere.
  intros name rest Hin Heq. unfold path_div in Heq. apply app_inv_head in Heq.
  injection Heq as -> _. contradiction.
Qed.

End InitRun.
(** The sample installations are worlds that [init] is modelled for. *)
Lemma path_eqb_eq (p q : path) : Sample.path_eqb p q = true -> p = q.
Proof.
  revert q. induction p as [|a p IH]; intros [|b q] H; simpl in H; try discriminate.
  - reflexivity.
  - apply andb_true_iff in H as [Hab Hpq]. apply String.eqb_eq in Hab.
    f_equal; [exact Hab | now apply IH].
Qed.

Lemma lookup_in (table : list (path * node)) (p : path) :
  Sample.lookup table p <> None -> exists n, In (p, n) table.
Proof.
  induction table as [|[q n] table IH]; simpl; intros H; [contradiction|].
  destruct (Sample.path_eqb q p) eqn:Hq.
  - apply path_eqb_eq in Hq as ->. exists n. now left.
  - destruct (IH H) as [n' Hin]. exists n'. now right.
Qed.

Lemma lookup_closed (table : list (path * node)) :
  DemoCli.table_closed table = true -> Cli.closed (Sample.lookup table).
Proof.
  intros Hclosed p name Hsome. destruct (lookup_in table _ Hsome) as [n Hin].
  unfold DemoCli.table_closed in Hclosed. rewrite forallb_forall in Hclosed.
  specialize (Hclosed _ Hin). cbn [fst] in Hclosed. unfold path_div in Hclosed.
  rewrite rev_app_distr in Hclosed. cbn [rev app] in Hclosed.
  rewrite rev_involutive in Hclosed.
  now destruct (Sample.lookup table p) as [[|text]|].
Qed.

Lemma demo_well_formed (table : list (path * node)) (key : option string) :
  DemoCli.table_closed table = true ->
  Sample.lookup table Sample.home = Some Dir ->
  Sample.lookup table Sample.site = Some Dir ->
  Cli.well_formed (Sample.make table key).
Proof.
  intros Hclosed Hhome Hsite. split; [split; [now apply lookup_closed | now split]|].
  intros subdir Hin [rest Hrest]. cbn in Hrest. discriminate.
Qed.





(** X18. [init] run a second time changes nothing. After a run that came
    to its end, the world is again one [init] is modelled for, and a second
    run comes to its end, leaves every file and directory as the first run
    left it, and prints only the directories it skips and the closing
    line. *)
Theorem init_idempotent :
  forall w : world,
    Cli.well_formed w ->
    fst (Cli.init w) = None ->
    let w' := Cli.after w (snd (Cli.init w)) in
    Cli.well_formed w'
    /\ Cli.init w'
       = (None,
          Cli.mk_run (fs w')
            (map Cli.skipped
                 (filter (fun name => exists_ w' (path_div (cwd w) name)) Cli.subdirs)
             ++ [Cli.initialized])%list).
Proof.
  intros w Hwf Hok w'.
  destruct (init_done Hwf Hok) as (r & Hsound & Hcopies & Hdone & Hdirs).
  assert (Hsound' : Cli.sound (fs w') (package_dir w) (cwd w)).
  { unfold w'. cbn [Cli.after fs]. rewrite Hdone. cbn [Cli.print Cli.disk].
    now apply create_sound, create_sound. }
  split; [split; [exact Hsound' | exact (proj2 Hwf)]|].
  assert (Hsettled : forall name, In name Cli.subdirs ->
            Cli.present (Cli.mk_run (fs w') []) (path_div (cwd w) name) = true
            \/ Cli.present (Cli.mk_run (fs w') []) (path_div (package_dir w) name) = false).
  { intros name Hin. unfold Cli.present. cbn [Cli.disk]. unfold w'. cbn [Cli.after fs].
    pose proof (@final_subdir w r Hcopies Hdone name [] Hin) as Hdst.
    pose proof (@final_bundled w Hwf r Hcopies Hdone name [] Hin) as Hsrc.
    fold (path_div (cwd w) name) in Hdst. fold (path_div (package_dir w) name) in Hsrc, Hdst.
    rewrite Hdst, Hsrc. unfold Cli.to_copy.
    specialize (Hdirs name Hin).
    destruct (fs w (path_div (package_dir w) name)) as [[|text]|];
      destruct (fs w (path_div (cwd w) name)) as [n|]; auto.
    now destruct (Hdirs eq_refl text). }
  destruct (@copy_defaults_settled (package_dir w) (cwd w) Cli.subdirs
              (Cli.mk_run (fs w') []) Hsettled) as (r2 & Hrun & Hdisk & Hout).
  assert (Hthere : forall file, In file ["gatekeep.yaml"; ".env.example"] ->
            Cli.present r2 (path_div (cwd w) file) = true).
  { intros file Hin. unfold Cli.present. rewrite Hdisk. cbn [Cli.disk].
    unfold w'. cbn [Cli.after fs]. rewrite Hdone. cbn [Cli.print Cli.disk].
    destruct Hin as [<-|[<-|[]]].
    - rewrite create_other
        by (unfold path_div; intros H; apply app_inv_head in H; discriminate).
      rewrite create_at. now destruct (Cli.disk r (path_div (cwd w) "gatekeep.yaml")).
    - rewrite create_at.
      now destruct (Cli.disk (Cli.create (cwd w) "gatekeep.yaml" Cli.gatekeep_yaml r)
                      (path_div (cwd w) ".env.example")). }
  unfold Cli.init. change (package_dir w') with (package_dir w).
  change (cwd w') with (cwd w). rewrite Hrun.
  rewrite (@create_there _ _ Cli.gatekeep_yaml _ (Hthere "gatekeep.yaml" (or_introl eq_refl))).
  rewrite (@create_there _ _ Cli.env_example _
             (Hthere ".env.example" (or_intror (or_introl eq_refl)))).
  unfold Cli.print. rewrite Hdisk, Hout. reflexivity.
Qed.

Lemma init_idempotent_witness :
  Cli.init (Cli.after DemoCli.fresh (snd (Cli.init DemoCli.fresh)))
  = (None,
     Cli.mk_run (Cli.disk (snd (Cli.init DemoCli.fresh)))
       ["  · governance/ already exists, skipping";
        "  · personas/ already exists, skipping";
        "  · standards/ already exists, skipping";
        Cli.initialized]).
Proof.
  assert (Hwf : Cli.well_formed DemoCli.fresh)
    by (apply demo_well_formed; reflexivity).
  assert (Hok : fst (Cli.init DemoCli.fresh) = None) by reflexivity.
  destruct (init_idempotent Hwf Hok) as [_ Hagain].
  rewrite Hagain. reflexivity.
Defined.

(** X19. [init] in a project that has none of the three directories
    hands the bundled configuration over to the project without changing
    it. Where the package has its governance directory and none of its
    three entries is a file, [init] comes to its end; before it the
    configuration root is the directory of the package, after it the
    working directory; and the persona document, the governance files,
    the standards and the system prompts load after it as they did
    before, the same value or an error of the same class, as long as the
    names the configuration gives stay inside (not absolute, no part
    ".."): a name that leaves the bundled directories leads elsewhere
    once the root has moved. *)
Theorem init_keeps_configuration :
  forall w : world,
    Cli.well_formed w ->
    (forall name, In name Cli.subdirs -> fs w (path_div (cwd w) name) = None) ->
    fs w (path_div (package_dir w) "governance") = Some Dir ->
    (forall name text,
       In name Cli.subdirs -> fs w (path_div (package_dir w) name) <> Some (File text)) ->
    let w' := Cli.after w (snd (Cli.init w)) in
    fst (Cli.init w) = None
    /\ _find_config_root w = package_dir w
    /\ _find_config_root w' = cwd w
    /\ same_outcome (load_personas w') (load_personas w)
    /\ (forall files,
          names_inside files ->
          same_outcome (load_governance w' files) (load_governance w files))
    /\ (forall standard_id,
          inside standard_id = true -> names_inside (manifest_files w standard_id) ->
          same_outcome (load_standard w' (VStr standard_id))
                       (load_standard w (VStr standard_id)))
    /\ (forall name,
          persona_inside w name ->
          same_outcome (build_system_prompt w' name) (build_system_prompt w name)).
Proof.
  intros w Hwf Hfresh Hgovernance Hdirs w'.
  assert (Hok : fst (Cli.init w) = None).
  { apply init_starts; [exact Hwf|]. intros name Hin _ text. now apply Hdirs. }
  destruct (init_done Hwf Hok) as (r & Hsound & Hcopies & Hdone & _).
  assert (Hmoved : forall name rest,
            In name ["governance"; "standards"; "personas"] -> steps_up rest = false ->
            fs w' (cwd w ++ name :: rest)%list = fs w (package_dir w ++ name :: rest)%list).
  { intros name rest Hname _.
    assert (Hin : In name Cli.subdirs) by (cbn in *; tauto).
    unfold w'. cbn [Cli.after fs].
    rewrite (@final_subdir w r Hcopies Hdone name rest Hin).
    unfold Cli.to_copy. rewrite (Hfresh name Hin).
    destruct (fs w (path_div (package_dir w) name)) as [[|text]|] eqn:Hsrc.
    - reflexivity.
    - now destruct (Hdirs name text Hin).
    - destruct Hwf as [(Hclosed & _) _].
      pose proof (closed_absent Hclosed _ rest (Hfresh name Hin)) as Hdst.
      pose proof (closed_absent Hclosed _ rest Hsrc) as Hsrc'.
      rewrite path_div_app in Hdst, Hsrc'. now rewrite Hdst, Hsrc'. }
  assert (Hroot : _find_config_root w = package_dir w).
  { unfold _find_config_root, is_dir. rewrite (Hfresh "governance"); [reflexivity|].
    now left. }
  assert (Hroot' : _find_config_root w' = cwd w).
  { unfold _find_config_root, is_dir. change (cwd w') with (cwd w).
    unfold path_div. rewrite (Hmoved "governance" []) by (reflexivity || now left).
    fold (path_div (package_dir w) "governance"). now rewrite Hgovernance. }
  split; [exact Hok|]. split; [exact Hroot|]. split; [exact Hroot'|].
  split; [|split; [|split]]; intros.
  - now apply (@load_personas_moved w w' (package_dir w) (cwd w)).
  - now apply (@load_governance_moved w w' (package_dir w) (cwd w)).
  - now apply (@load_standard_moved w w' (package_dir w) (cwd w)).
  - now apply (@build_system_prompt_moved w w' (package_dir w) (cwd w)).
Qed.

Lemma init_keeps_configuration_witness :
  _find_config_root (Cli.after DemoCli.fresh (snd (Cli.init DemoCli.fresh))) = Sample.home
  /\ same_outcome
       (build_system_prompt (Cli.after DemoCli.fresh (snd (Cli.init DemoCli.fresh)))
          "sentinel")
       (build_system_prompt DemoCli.fresh "sentinel").
Proof.
  assert (Hwf : Cli.well_formed DemoCli.fresh)
    by (apply demo_well_formed; reflexivity).
  assert (Hfresh : forall name, In name Cli.subdirs ->
            fs DemoCli.fresh (path_div (cwd DemoCli.fresh) name) = None)
    by (intros name [<-|[<-|[<-|[]]]]; reflexivity).
  assert (Hdirs : forall name text, In name Cli.subdirs ->
            fs DemoCli.fresh (path_div (package_dir DemoCli.fresh) name) <> Some (File text))
    by (intros name text [<-|[<-|[<-|[]]]]; vm_compute; discriminate).
  assert (Hinside : persona_inside DemoCli.fresh "sentinel").
  { intros config Hconfig. vm_compute in Hconfig. injection Hconfig as <-. split.
    - intros files Hfiles names f Hiter Hin. vm_compute in Hfiles. injection Hfiles as <-.
      injection Hiter as <-. destruct Hin as [Hf|[Hf|[]]]; injection Hf as <-; reflexivity.
    - intros ids names id Hids Hiter Hin. vm_compute in Hids. injection Hids as <-.
      injection Hiter as <-. destruct Hin as [Hid|[]]. injection Hid as <-.
      split; [reflexivity|].
      intros files f Hfiles Hf. vm_compute in Hfiles. injection Hfiles as <-.
      destruct Hf as [Hf|[]]. injection Hf as <-. reflexivity. }
  destruct (init_keeps_configuration Hwf Hfresh eq_refl Hdirs)
    as (_ & _ & Hroot & _ & _ & _ & Hprompt).
  split; [exact Hroot | now apply Hprompt].
Defined.
